(** * Sensor-analytics core of the predictive-maintenance service

    A shallow embedding of the analytics pipeline of the repository:
    the vendor-label normaliser, the sensor defaults and the
    ingestion-side threshold checks of [src/iot.py], the
    [PredictiveAnalytics] engine and [analyze_machine_health] of
    [src/predictive_analytics.py], and the threshold-configuration route
    of [src/analytics.py].

    Conventions of the embedding.
    - A finite Python [float] is the real number it denotes ([R]), and a
      comparison of two floats is the comparison of these numbers.  An
      arithmetic operation on floats rounds its result: the code's
      products, differences, quotients, sums and square roots are the
      operations of a [Lib], never the exact ones of [R].  The division
      of the indicator total by 10.0 is kept exact: the quotient of a
      whole number by 10 rounds to the float of the decimal literal it
      is compared with.  Overflow to an infinity is not modelled.
    - [NaN] in a pandas column is [None] in a [list (option R)].
    - A Python [str] is the [string] of the bytes of its UTF-8 encoding:
      equality, concatenation, the substring test and the order of two
      strings are those of the byte strings.
    - What pandas, numpy and Python compute inside ([str.lower], the
      parsing of timestamps, the order of a summation, the rolling
      kernels, the least-squares fit) is taken from a [Lib] as well; the
      scikit-learn objects (scaler, isolation forest) are records of
      functions, and a call that raises returns [None]. *)

From Stdlib Require Import Reals Lra Lia ZArith List Ascii String Bool.
From Stdlib Require Import Sorted Permutation.
From stdpp Require Import base option list gmap strings pretty.
Import ListNotations.

Local Open Scope Z_scope.
Local Open Scope string_scope.
Local Open Scope list_scope.

(** ** Numbers *)

#[global] Instance Rlt_decision (x y : R) : Decision (x < y)%R := Rlt_dec x y.
#[global] Instance Rgt_decision (x y : R) : Decision (x > y)%R := Rgt_dec x y.

(** A cell of a pandas column: a number, or [None] for [NaN]. *)
Abbreviation cell := (option R).

(** [x < y], [x > y] with a cell on the left: every comparison with
    [NaN] is [False]. *)
Definition cell_lt (x : cell) (y : R) : bool :=
  match x with Some v => bool_decide (v < y)%R | None => false end.
Definition cell_gt (x : cell) (y : R) : bool :=
  match x with Some v => bool_decide (v > y)%R | None => false end.

(** Arithmetic on cells, with the rounded operation [op], propagates
    [NaN]. *)
Definition cell_op (op : R -> R -> R) (x y : cell) : cell :=
  match x, y with Some a, Some b => Some (op a b) | _, _ => None end.

(** ** Python dictionaries with string keys, in insertion order *)

Abbreviation dict V := (list (string * V)).

Fixpoint dict_get {V} (k : string) (d : dict V) : option V :=
  match d with
  | [] => None
  | (k', v) :: d' => if decide (k' = k) then Some v else dict_get k d'
  end.

Definition dict_keys {V} (d : dict V) : list string := map fst d.

(** [d[k] = v]: overwrite in place, or append a new key. *)
Fixpoint dict_set {V} (k : string) (v : V) (d : dict V) : dict V :=
  match d with
  | [] => [(k, v)]
  | (k', v') :: d' =>
      if decide (k' = k) then (k', v) :: d' else (k', v') :: dict_set k v d'
  end.

(** ** Python strings *)

Module PyStr.

(** The lower-case form of an ASCII capital: the 26 capitals move by
    32, every other byte stays. *)
Definition lower_ascii (c : ascii) : ascii :=
  let n := nat_of_ascii c in
  if (Nat.leb 65 n && Nat.leb n 90)%bool then ascii_of_nat (n + 32) else c.

(** [s.lower()] on a text of ASCII characters. *)
Fixpoint lower (s : string) : string :=
  match s with
  | EmptyString => EmptyString
  | String c s' => String (lower_ascii c) (lower s')
  end.

(** A text of ASCII characters only: every byte is below 128. *)
Fixpoint is_ascii (s : string) : bool :=
  match s with
  | EmptyString => true
  | String c s' => (Nat.ltb (nat_of_ascii c) 128 && is_ascii s')%bool
  end.

(** The characters [str.strip()] removes are those of [str.isspace()]:
    U+0009..U+000D, U+001C..U+001F, U+0020, U+0085, U+00A0, U+1680,
    U+2000..U+200A, U+2028, U+2029, U+202F, U+205F and U+3000.  In
    UTF-8 they take one, two or three bytes. *)
Definition space1 (c : ascii) : bool :=
  let n := nat_of_ascii c in
  ((Nat.leb 9 n && Nat.leb n 13) || (Nat.leb 28 n && Nat.leb n 32))%bool.

Definition space2 (c1 c2 : ascii) : bool :=
  let n1 := nat_of_ascii c1 in
  let n2 := nat_of_ascii c2 in
  (Nat.eqb n1 194 && (Nat.eqb n2 133 || Nat.eqb n2 160))%bool.

Definition space3 (c1 c2 c3 : ascii) : bool :=
  let n1 := nat_of_ascii c1 in
  let n2 := nat_of_ascii c2 in
  let n3 := nat_of_ascii c3 in
  ((Nat.eqb n1 225 && Nat.eqb n2 154 && Nat.eqb n3 128)
   || (Nat.eqb n1 226 && Nat.eqb n2 128
       && ((Nat.leb 128 n3 && Nat.leb n3 138)
           || Nat.eqb n3 168 || Nat.eqb n3 169 || Nat.eqb n3 175))
   || (Nat.eqb n1 226 && Nat.eqb n2 129 && Nat.eqb n3 159)
   || (Nat.eqb n1 227 && Nat.eqb n2 128 && Nat.eqb n3 128))%bool.

(** Dropping the characters at the front of a list of bytes, for
    three tests that tell a character of one, two or three bytes. *)
Fixpoint strip_front (p1 : ascii -> bool) (p2 : ascii -> ascii -> bool)
    (p3 : ascii -> ascii -> ascii -> bool) (l : list ascii) : list ascii :=
  match l with
  | [] => []
  | c1 :: l1 =>
      if p1 c1 then strip_front p1 p2 p3 l1
      else
        match l1 with
        | [] => l
        | c2 :: l2 =>
            if p2 c1 c2 then strip_front p1 p2 p3 l2
            else
              match l2 with
              | [] => l
              | c3 :: l3 => if p3 c1 c2 c3 then strip_front p1 p2 p3 l3 else l
              end
        end
  end.

(** [s.lstrip()] on the bytes of [s], and [s.rstrip()]: the same from
    the end, on the reversed bytes, where the last byte of a character
    comes first. *)
Definition lstrip_bytes (l : list ascii) : list ascii :=
  strip_front space1 space2 space3 l.

Definition rstrip_bytes (l : list ascii) : list ascii :=
  rev (strip_front space1 (fun c2 c1 => space2 c1 c2)
         (fun c3 c2 c1 => space3 c1 c2 c3) (rev l)).

(** [s.strip()] *)
Definition strip (s : string) : string :=
  string_of_list_ascii (rstrip_bytes (lstrip_bytes (list_ascii_of_string s))).

(** [needle in hay] for two strings: [needle] starts at some position. *)
Fixpoint contains (needle hay : string) : bool :=
  (String.prefix needle hay ||
   match hay with
   | EmptyString => false
   | String _ hay' => contains needle hay'
   end)%bool.

(** [any(term in s for term in terms)] *)
Definition any_in (terms : list string) (s : string) : bool :=
  existsb (fun term => contains term s) terms.

End PyStr.

(** ** What the libraries compute *)

(** The arithmetic of floats and the numerical and textual routines of
    Python, numpy and pandas that the code calls.
    - [fmul], [fsub], [fdiv], [fsqrt]: the IEEE operations on floats,
      each rounding its result.
    - [fsum]: the sum of an array, in the order the library adds.
    - [group_mean]: the mean [pivot_table(aggfunc='mean')] takes over
      the values of one group, which is not empty.
    - [rolling_mean_at c i], [rolling_std_at c i]: the number that
      [c.rolling(window=10, min_periods=1).mean()] (or [.std()]) holds
      at row [i] when it holds one; the kernels run along the column,
      so the number may depend on the rows before the window.
    - [polyfit1 y]: [np.polyfit(np.arange(len(y)), y, 1)[0]].
    - [to_datetime]: [pd.to_datetime] on the column of timestamp texts;
      [None] when it raises (a text it cannot parse, texts of mixed
      formats), and otherwise one instant per text, a whole number of
      ticks since the epoch, or [None] for [NaT].
    - [str_lower]: [str.lower()]; on ASCII text it lower-cases the 26
      capitals and nothing else. *)
Record Lib := {
  fmul : R -> R -> R;
  fsub : R -> R -> R;
  fdiv : R -> R -> R;
  fsqrt : R -> R;
  fsum : list R -> R;
  group_mean : list R -> R;
  rolling_mean_at : list cell -> nat -> R;
  rolling_std_at : list cell -> nat -> R;
  polyfit1 : list R -> R;
  to_datetime : list string -> option (list (option Z));
  str_lower : string -> string;
  to_datetime_length :
    forall texts stamps, to_datetime texts = Some stamps ->
                         length stamps = length texts;
  str_lower_ascii :
    forall s, PyStr.is_ascii s = true -> str_lower s = PyStr.lower s
}.

Section Engine.
Context (lib : Lib).

(** ** Type normaliser ([src/iot.py]) *)

Definition normalize_sensor_type (sensor_type : string) : string :=
  let sensor_type := PyStr.strip (str_lower lib sensor_type) in
  if PyStr.any_in ["temp"; "temperature"; "thermal"] sensor_type then "temperature"
  else if PyStr.any_in ["humidity"; "moisture"; "rh"] sensor_type then "humidity"
  else if PyStr.any_in ["tension"; "pressure"; "force"; "stress"] sensor_type then "tension"
  else if PyStr.any_in ["vibration"; "vibr"; "oscillation"; "shake"] sensor_type then "vibration"
  else sensor_type.

(** ** Ingestion-side threshold checks ([src/iot.py]) *)

Inductive Severity := low | medium | high | critical.

Inductive AlertType := threshold_violation | critical_threshold.

(** The columns of [Sensor] the checks read; [min_value] and [max_value]
    are nullable. *)
Record Sensor := {
  sensor_id : Z;
  sensor_machine_id : Z;
  sensor_type : string;
  min_value : option R;
  max_value : option R
}.

(** An [Alert] row as the checks build it (status is always ['active'];
    the message text is not modelled). *)
Record Alert := {
  alert_machine_id : Z;
  alert_sensor_id : Z;
  alert_type : AlertType;
  alert_severity : Severity
}.

Record Limits := { lim_min : R; lim_max : R }.

Definition critical_thresholds : dict Limits :=
  [ ("temperature", {| lim_min := -40; lim_max := 120 |});
    ("humidity",    {| lim_min := 5;   lim_max := 95 |});
    ("tension",     {| lim_min := -100; lim_max := 800 |});
    ("vibration",   {| lim_min := -10; lim_max := 80 |}) ].

Definition check_critical_thresholds (sensor : Sensor) (value : R) : option Alert :=
  match dict_get (sensor_type sensor) critical_thresholds with
  | Some thresholds =>
      if (bool_decide (value < lim_min thresholds)%R
          || bool_decide (value > lim_max thresholds)%R)%bool
      then Some {| alert_machine_id := sensor_machine_id sensor;
                   alert_sensor_id := sensor_id sensor;
                   alert_type := critical_threshold;
                   alert_severity := critical |}
      else None
  | None => None
  end.

(** [check_sensor_thresholds] adds its alerts to the database session,
    here the list [session] of pending rows, newest last.  Comparing the
    value with a NULL bound raises; the function's handler swallows the
    exception, and what was added before it stays in the session. *)
Definition check_sensor_thresholds (sensor : Sensor) (value : R)
    (session : list Alert) : list Alert :=
  match min_value sensor with
  | None => session
  | Some lo =>
      let session :=
        if bool_decide (value < lo)%R
        then session ++ [ {| alert_machine_id := sensor_machine_id sensor;
                             alert_sensor_id := sensor_id sensor;
                             alert_type := threshold_violation;
                             alert_severity := medium |} ]
        else session in
      match max_value sensor with
      | None => session
      | Some hi =>
          let session :=
            if bool_decide (value > hi)%R
            then session ++ [ {| alert_machine_id := sensor_machine_id sensor;
                                 alert_sensor_id := sensor_id sensor;
                                 alert_type := threshold_violation;
                                 alert_severity :=
                                   if bool_decide (value > fmul lib hi 1.2)%R
                                   then high else medium |} ]
            else session in
          match check_critical_thresholds sensor value with
          | Some critical_alert => session ++ [critical_alert]
          | None => session
          end
      end
  end.

(** ** Data frames ([pandas]) *)

(** A frame as the engine handles it: the [timestamp] column and the
    other columns in order, each a list of cells.  In a well-formed frame
    every column has as many cells as [timestamp]. *)
Record DataFrame := {
  timestamp : list Z;
  columns : dict (list cell)
}.

(** [pd.DataFrame()] *)
Definition empty_frame : DataFrame := {| timestamp := []; columns := [] |}.

(** [len(df)] and [df.empty] *)
Definition nrows (df : DataFrame) : nat := length (timestamp df).
Definition df_empty (df : DataFrame) : bool := Nat.eqb (nrows df) 0.

(** A row ([pd.Series]) of a frame. *)
Record Row := {
  row_timestamp : Z;
  row_cells : dict cell
}.

(** [df.iloc[i]]; [None] stands for the [IndexError] out of range. *)
Definition iloc (df : DataFrame) (i : nat) : option Row :=
  ts ← timestamp df !! i;
  Some {| row_timestamp := ts;
          row_cells := omap (fun '(name, c) => pair name <$> c !! i) (columns df) |}.

(** [df.iloc[-1]] *)
Definition iloc_last (df : DataFrame) : option Row := iloc df (nrows df - 1).

(** [s.tail(n)] and [df.tail(n)] *)
Definition tail {A} (n : nat) (l : list A) : list A := drop (length l - n) l.
Definition df_tail (n : nat) (df : DataFrame) : DataFrame :=
  {| timestamp := tail n (timestamp df);
     columns := map (fun '(name, c) => (name, tail n c)) (columns df) |}.

(** [df.fillna(0)] *)
Definition fillna0 (cols : dict (list cell)) : dict (list cell) :=
  map (fun '(name, c) => (name, map (fun x => Some (default 0%R x)) c)) cols.

(** [df[cols].values]: one list of cells per row. *)
Definition values (cols : list (list cell)) (n : nat) : list (list cell) :=
  map (fun i => map (fun c => default None (c !! i)) cols) (seq 0 n).

(** *** Series statistics *)

(** The observations of a series: its cells that are not [NaN]. *)
Definition observations (c : list cell) : list R := omap (fun x : cell => x) c.

(** [s.mean()]: the sum of the observations divided by their number,
    [NaN] without observations. *)
Definition series_mean (c : list cell) : cell :=
  let xs := observations c in
  match xs with
  | [] => None
  | _ => Some (fdiv lib (fsum lib xs) (INR (length xs)))
  end.

(** [s.std()]: the square root of the sum of the squared deviations
    from the mean divided by [n - 1] (pandas' default [ddof=1]), [NaN]
    with fewer than two observations. *)
Definition series_std (c : list cell) : cell :=
  let xs := observations c in
  match series_mean c with
  | Some avg =>
      if Nat.ltb (length xs) 2 then None
      else Some (fsqrt lib
                   (fdiv lib
                      (fsum lib (map (fun x => fmul lib (fsub lib avg x) (fsub lib avg x))
                                   xs))
                      (INR (length xs - 1))))
  | None => None
  end.

(** The window of [s.rolling(window=10, min_periods=1)] at row [i]:
    rows [i-9 .. i], fewer at the start. *)
Definition window10 (c : list cell) (i : nat) : list cell :=
  drop (i + 1 - 10) (take (i + 1) c).

(** The rolling mean holds a number where the window has an
    observation, the rolling deviation where it has two. *)
Definition rolling_mean (c : list cell) : list cell :=
  map (fun i => match observations (window10 c i) with
                | [] => None
                | _ => Some (rolling_mean_at lib c i)
                end) (seq 0 (length c)).

Definition rolling_std (c : list cell) : list cell :=
  map (fun i => if Nat.ltb (length (observations (window10 c i))) 2 then None
                else Some (rolling_std_at lib c i)) (seq 0 (length c)).

(** [s.diff()]: the first row has no predecessor. *)
Definition diff (c : list cell) : list cell :=
  map (fun i => match i with
                | O => None
                | S j => cell_op (fsub lib) (default None (c !! i))
                           (default None (c !! j))
                end) (seq 0 (length c)).

(** [np.polyfit(np.arange(n), y, 1)[0]]: the slope of the fitted line.
    [None] stands for the exception numpy raises on a [NaN]. *)
Definition polyfit_slope (y : list cell) : option R :=
  if forallb (fun x => bool_decide (is_Some x)) y
  then Some (polyfit1 lib (observations y))
  else None.

(** [df.fillna(method='ffill')] and [df.fillna(method='bfill')] on one
    column. *)
Fixpoint ffill_from (last : cell) (c : list cell) : list cell :=
  match c with
  | [] => []
  | Some v :: c' => Some v :: ffill_from (Some v) c'
  | None :: c' => last :: ffill_from last c'
  end.
Definition ffill (c : list cell) : list cell := ffill_from None c.
Definition bfill (c : list cell) : list cell := reverse (ffill (reverse c)).

(** Sorted list of the distinct elements of a list, as pandas orders the
    labels of an index. *)
Fixpoint uinsert {A} (ltb : A -> A -> bool) (x : A) (l : list A) : list A :=
  match l with
  | [] => [x]
  | y :: l' =>
      if ltb x y then x :: l
      else if ltb y x then y :: uinsert ltb x l'
      else l
  end.
Definition usort {A} (ltb : A -> A -> bool) (l : list A) : list A :=
  fold_right (uinsert ltb) [] l.

(** ** The analytics engine ([src/predictive_analytics.py]) *)

(** One entry of [sensor_readings]; the timestamp is a text, as the
    routes pass it ([isoformat()]). *)
Record Reading := {
  rd_sensor_type : string;
  rd_value : R;
  rd_timestamp : string
}.

(** A row of the long frame once [pd.to_datetime] has replaced the
    texts by instants. *)
Record Stamped := {
  st_sensor_type : string;
  st_value : R;
  st_timestamp : Z
}.

(** The fitted scikit-learn objects.  [transform], [predict] and
    [decision_function] take the matrix of feature rows; [None] stands
    for a raised exception (a shape mismatch, say). *)
Record StandardScaler := {
  transform : list (list cell) -> option (list (list cell))
}.
Record IsolationForest := {
  predict : list (list cell) -> option (list Z);
  decision_function : list (list cell) -> option (list R)
}.

(** A threshold rule as the engine receives it: the numbers under the
    keys [min] and [max] of a dictionary; [None] for a key the
    dictionary lacks, whose lookup raises [KeyError]. *)
Record Rule := { rule_min : option R; rule_max : option R }.

(** The fields of a [PredictiveAnalytics] instance. *)
Record PredictiveAnalytics := {
  anomaly_model : option IsolationForest;
  scaler : option StandardScaler;
  threshold_rules : gmap Z (dict Rule)
}.

Definition feature_columns : list string :=
  ["temperature"; "humidity"; "tension"; "vibration"].

(** The rows whose timestamp is an instant; [pivot_table] leaves the
    rows with [NaT] out of its groups. *)
Definition stamp (sensor_readings : list Reading) (stamps : list (option Z))
    : list Stamped :=
  omap (fun '(r, t) =>
          (fun instant => {| st_sensor_type := rd_sensor_type r;
                             st_value := rd_value r;
                             st_timestamp := instant |}) <$> t)
       (zip sensor_readings stamps).

(** [df.sort_values('timestamp')], as an insertion sort that keeps the
    order of rows with equal timestamps. *)
Fixpoint insert_by_timestamp (r : Stamped) (l : list Stamped) : list Stamped :=
  match l with
  | [] => [r]
  | r' :: l' =>
      if Z.leb (st_timestamp r) (st_timestamp r') then r :: l
      else r' :: insert_by_timestamp r l'
  end.
Definition sort_values (l : list Stamped) : list Stamped :=
  fold_right insert_by_timestamp [] l.

(** One cell of [pivot_table(index='timestamp', columns='sensor_type',
    values='value', aggfunc='mean')]: the mean of its group, [NaN] when
    the group is empty. *)
Definition pivot_cell (df : list Stamped) (name : string) (ts : Z) : cell :=
  match filter (fun r => st_sensor_type r = name /\ st_timestamp r = ts) df with
  | [] => None
  | group => Some (group_mean lib (map st_value group))
  end.

(** The pivot of the stamped rows, with its gaps filled forward and
    then backward.  A row whose sensor type is the text [timestamp]
    makes [reset_index] raise; the handler then returns the empty
    frame. *)
Definition pivot_table (rows : list Stamped) : DataFrame :=
  let df := sort_values rows in
  if existsb (fun r => bool_decide (st_sensor_type r = "timestamp")) df
  then empty_frame
  else
    let index := usort Z.ltb (map st_timestamp df) in
    let names := usort String.ltb (map st_sensor_type df) in
    {| timestamp := index;
       columns :=
         map (fun name =>
                (name, bfill (ffill (map (pivot_cell df name) index))))
             names |}.

(** [preprocess_sensor_data].  When [pd.to_datetime] raises, the
    handler returns the empty frame. *)
Definition preprocess_sensor_data (sensor_readings : list Reading) : DataFrame :=
  match sensor_readings with
  | [] => empty_frame
  | _ =>
      match to_datetime lib (map rd_timestamp sensor_readings) with
      | None => empty_frame
      | Some stamps => pivot_table (stamp sensor_readings stamps)
      end
  end.

(** The four derived columns of one channel, when the frame has it. *)
Definition add_channel_features (col : string) (feature_df : dict (list cell))
    : dict (list cell) :=
  match dict_get col feature_df with
  | None => feature_df
  | Some c =>
      let feature_df := dict_set (col +:+ "_rolling_mean") (rolling_mean c) feature_df in
      let feature_df := dict_set (col +:+ "_rolling_std") (rolling_std c) feature_df in
      let feature_df := dict_set (col +:+ "_rate_of_change") (diff c) feature_df in
      let mean_val := series_mean c in
      let std_val := series_std c in
      if cell_gt std_val 0
      then dict_set (col +:+ "_zscore")
             (map (fun x => cell_op (fdiv lib) (cell_op (fsub lib) x mean_val) std_val) c)
             feature_df
      else dict_set (col +:+ "_zscore") (map (fun _ => Some 0%R) c) feature_df
  end.

(** [create_features] *)
Definition create_features (df : DataFrame) : DataFrame :=
  if df_empty df then df
  else
    {| timestamp := timestamp df;
       columns :=
         fillna0 (fold_left (fun feature_df col => add_channel_features col feature_df)
                    feature_columns (columns df)) |}.

(** [_calculate_severity] *)
Definition _calculate_severity (anomaly_score : R) : Severity :=
  if bool_decide (anomaly_score < -0.5)%R then critical
  else if bool_decide (anomaly_score < -0.3)%R then high
  else if bool_decide (anomaly_score < -0.1)%R then medium
  else low.

(** [_identify_affected_sensors] *)
Definition _identify_affected_sensors (data_row : Row) (feature_cols : list string)
    : list string :=
  fold_left
    (fun affected_sensors sensor =>
       let sensor_features :=
         filter (fun col => PyStr.contains sensor col = true) feature_cols in
       fold_left
         (fun affected_sensors feature =>
            match dict_get feature (row_cells data_row) with
            | Some value =>
                if cell_gt (Rabs <$> value) 2
                then if bool_decide (sensor ∈ affected_sensors)
                     then affected_sensors
                     else affected_sensors ++ [sensor]
                else affected_sensors
            | None => affected_sensors
            end)
         sensor_features affected_sensors)
    feature_columns [].

(** An entry of the list [detect_anomalies] returns. *)
Record Anomaly := {
  anomaly_index : nat;
  anomaly_timestamp : Z;
  anomaly_score : R;
  anomaly_severity : Severity;
  affected_sensors : list string
}.

(** The columns the detector feeds to the model: those whose name
    contains the name of a channel. *)
Definition select_feature_cols (names : list string) : list string :=
  filter (fun col => existsb (fun sensor => PyStr.contains sensor col) feature_columns = true)
         names.

(** The loop of [detect_anomalies] over [enumerate(zip(predictions,
    anomaly_scores))], from position [i]; [None] when [iloc] raises. *)
Fixpoint collect_anomalies (feature_data : DataFrame) (feature_cols : list string)
    (i : nat) (flagged : list (Z * R)) : option (list Anomaly) :=
  match flagged with
  | [] => Some []
  | (pred, score) :: rest =>
      if decide (pred = -1) then
        data_row ← iloc feature_data i;
        anomalies ← collect_anomalies feature_data feature_cols (S i) rest;
        Some ({| anomaly_index := i;
                 anomaly_timestamp := row_timestamp data_row;
                 anomaly_score := score;
                 anomaly_severity := _calculate_severity score;
                 affected_sensors := _identify_affected_sensors data_row feature_cols |}
              :: anomalies)
      else collect_anomalies feature_data feature_cols (S i) rest
  end.

(** [detect_anomalies]; every exception ends in the handler's [return []]. *)
Definition detect_anomalies (self : PredictiveAnalytics) (sensor_data : DataFrame)
    : list Anomaly :=
  match anomaly_model self, scaler self with
  | Some model, Some sc =>
      if df_empty sensor_data then []
      else
        let feature_data := create_features sensor_data in
        let feature_cols := select_feature_cols (dict_keys (columns feature_data)) in
        match feature_cols with
        | [] => []
        | _ =>
            let X := values (omap (fun col => dict_get col (columns feature_data))
                               feature_cols) (nrows feature_data) in
            default []
              (X_scaled ← transform sc X;
               predictions ← predict model X_scaled;
               anomaly_scores ← decision_function model X_scaled;
               collect_anomalies feature_data feature_cols 0
                 (zip predictions anomaly_scores))
        end
  | _, _ => []
  end.

(** An entry of the list [check_thresholds] returns. *)
Record Violation := {
  v_sensor_type : string;
  v_value : R;
  threshold_min : R;
  threshold_max : R;
  v_severity : Severity;
  v_timestamp : Z
}.

Definition default_thresholds : dict Rule :=
  [ ("temperature", {| rule_min := Some (-10)%R; rule_max := Some 80%R |});
    ("humidity",    {| rule_min := Some 0%R;     rule_max := Some 100%R |});
    ("tension",     {| rule_min := Some 0%R;     rule_max := Some 1000%R |});
    ("vibration",   {| rule_min := Some 0%R;     rule_max := Some 50%R |}) ].

(** The loop of [check_thresholds] over [thresholds.items()]; [None]
    stands for a raised exception.  The label [timestamp] is in the
    row's index too, and comparing a timestamp with a number raises.
    For a label of the row, the rule is read under [min] and under
    [max], in the test or in the record built after it, so a rule that
    lacks one of them raises.  A [NaN] value passes both
    comparisons. *)
Fixpoint collect_violations (latest_data : Row) (thresholds : dict Rule)
    : option (list Violation) :=
  match thresholds with
  | [] => Some []
  | (sensor_type, limits) :: rest =>
      if decide (sensor_type = "timestamp") then None
      else
        found ←
          match dict_get sensor_type (row_cells latest_data) with
          | Some cell_value =>
              match rule_min limits, rule_max limits with
              | Some lo, Some hi =>
                  Some
                    match cell_value with
                    | Some value =>
                        if (bool_decide (value < lo)%R
                            || bool_decide (value > hi)%R)%bool
                        then [ {| v_sensor_type := sensor_type;
                                  v_value := value;
                                  threshold_min := lo;
                                  threshold_max := hi;
                                  v_severity :=
                                    if (bool_decide (value < fmul lib lo 0.5)%R
                                        || bool_decide (value > fmul lib hi 1.5)%R)%bool
                                    then high else medium;
                                  v_timestamp := row_timestamp latest_data |} ]
                        else []
                    | None => []
                    end
              | _, _ => None
              end
          | None => Some []
          end;
        violations ← collect_violations latest_data rest;
        Some (found ++ violations)
  end.

(** [check_thresholds] *)
Definition check_thresholds (self : PredictiveAnalytics) (sensor_data : DataFrame)
    (machine_id : Z) : list Violation :=
  if df_empty sensor_data then []
  else
    match iloc_last sensor_data with
    | None => []
    | Some latest_data =>
        let thresholds := default default_thresholds (threshold_rules self !! machine_id) in
        default [] (collect_violations latest_data thresholds)
    end.

(** [set_threshold_rules] *)
Definition set_threshold_rules (self : PredictiveAnalytics) (machine_id : Z)
    (thresholds : dict Rule) : PredictiveAnalytics :=
  {| anomaly_model := anomaly_model self;
     scaler := scaler self;
     threshold_rules := <[machine_id := thresholds]> (threshold_rules self) |}.

(** The dictionary [predict_failure_probability] returns. *)
Record FailurePrediction := {
  failure_probability : R;
  confidence : R;
  time_to_failure_hours : option Z;
  contributing_factors : list string
}.

Definition neutral_prediction : FailurePrediction :=
  {| failure_probability := 0;
     confidence := 0;
     time_to_failure_hours := None;
     contributing_factors := [] |}.

(** The trend loop: the slope of the last 20 cells of each channel the
    frame has; [None] when [polyfit] raises. *)
Fixpoint compute_trends (feature_data : DataFrame) (sensors : list string)
    (trends : dict R) : option (dict R) :=
  match sensors with
  | [] => Some trends
  | sensor :: rest =>
      match dict_get sensor (columns feature_data) with
      | Some c =>
          let recent_data := tail 20 c in
          if Nat.ltb 1 (length recent_data) then
            slope ← polyfit_slope recent_data;
            compute_trends feature_data rest (dict_set sensor slope trends)
          else compute_trends feature_data rest trends
      | None => compute_trends feature_data rest trends
      end
  end.

(** The three trend tests, each on the running pair
    [(failure_indicators, contributing_factors)]. *)
Definition score_temperature (trends : dict R) (st : nat * list string)
    : nat * list string :=
  match dict_get "temperature" trends with
  | Some slope =>
      if bool_decide (slope > 1.0)%R
      then (fst st + 2, snd st ++ ["Rising temperature trend"])%nat
      else st
  | None => st
  end.

Definition score_vibration (trends : dict R) (st : nat * list string)
    : nat * list string :=
  match dict_get "vibration" trends with
  | Some slope =>
      if bool_decide (slope > 0.5)%R
      then (fst st + 2, snd st ++ ["Increasing vibration"])%nat
      else st
  | None => st
  end.

Definition score_humidity (trends : dict R) (st : nat * list string)
    : nat * list string :=
  match dict_get "humidity" trends with
  | Some slope =>
      if bool_decide (Rabs slope > 2.0)%R
      then (fst st + 1, snd st ++ ["Unstable humidity"])%nat
      else st
  | None => st
  end.

Definition score_anomalies (recent_anomalies : list Anomaly) (st : nat * list string)
    : nat * list string :=
  match recent_anomalies with
  | [] => st
  | _ =>
      (fst st + length recent_anomalies,
       snd st ++ [pretty (length recent_anomalies) +:+ " recent anomalies detected"])%nat
  end.

(** [time_to_failure_hours] from the probability. *)
Definition time_to_failure (failure_probability : R) : option Z :=
  if bool_decide (failure_probability > 0.7)%R then Some 24
  else if bool_decide (failure_probability > 0.5)%R then Some 72
  else if bool_decide (failure_probability > 0.3)%R then Some 168
  else None.

(** [predict_failure_probability] *)
Definition predict_failure_probability (self : PredictiveAnalytics)
    (sensor_data : DataFrame) : FailurePrediction :=
  if (df_empty sensor_data || Nat.ltb (nrows sensor_data) 10)%bool
  then neutral_prediction
  else
    let feature_data := create_features sensor_data in
    match compute_trends feature_data feature_columns [] with
    | None => neutral_prediction
    | Some trends =>
        let st := score_temperature trends (0%nat, []) in
        let st := score_vibration trends st in
        let st := score_humidity trends st in
        let recent_anomalies := detect_anomalies self (df_tail 10 feature_data) in
        let st := score_anomalies recent_anomalies st in
        let failure_indicators := fst st in
        let failure_probability := Rmin (INR failure_indicators / 10.0) 1.0 in
        {| failure_probability := failure_probability;
           confidence := if Nat.ltb 100 (nrows sensor_data) then 0.8%R else 0.6%R;
           time_to_failure_hours := time_to_failure failure_probability;
           contributing_factors := snd st |}
    end.

(** ** Process state and the entry points *)

(** What outlives a request: the machines of the database and the two
    model files under [model_path]. *)
Record World := {
  machines : gset Z;
  anomaly_model_pkl : option IsolationForest;
  scaler_pkl : option StandardScaler
}.

(** [PredictiveAnalytics()]: the constructor starts from an empty rule
    dictionary and loads the model files that exist. *)
Definition PredictiveAnalytics_init (w : World) : PredictiveAnalytics :=
  {| anomaly_model := anomaly_model_pkl w;
     scaler := scaler_pkl w;
     threshold_rules := ∅ |}.

Inductive HealthStatus := healthy | attention | warning | status_critical.

(** The dictionary [analyze_machine_health] returns: the [no_data] answer
    or the full analysis. *)
Record HealthAnalysis := {
  ha_machine_id : Z;
  health_status : HealthStatus;
  failure_prediction : FailurePrediction;
  anomalies : list Anomaly;
  threshold_violations : list Violation;
  analysis_timestamp : Z
}.

Inductive AnalysisResult :=
| no_data
| success (analysis : HealthAnalysis).

(** [analyze_machine_health]; [now] is the clock reading it stamps. *)
Definition analyze_machine_health (w : World) (now : Z) (machine_id : Z)
    (sensor_readings : list Reading) : AnalysisResult :=
  let analytics := PredictiveAnalytics_init w in
  let df := preprocess_sensor_data sensor_readings in
  if df_empty df then no_data
  else
    let anomalies := detect_anomalies analytics df in
    let threshold_violations := check_thresholds analytics df machine_id in
    let failure_prediction := predict_failure_probability analytics df in
    let health_status :=
      if bool_decide (failure_probability failure_prediction > 0.7)%R
      then status_critical
      else if (bool_decide (failure_probability failure_prediction > 0.5)%R
               || negb (bool_decide (threshold_violations = [])))%bool
      then warning
      else if negb (bool_decide (anomalies = [])) then attention
      else healthy in
    success {| ha_machine_id := machine_id;
               health_status := health_status;
               failure_prediction := failure_prediction;
               anomalies := anomalies;
               threshold_violations := threshold_violations;
               analysis_timestamp := now |}.

(** The route [POST /analytics/thresholds/<machine_id>]
    ([set_machine_thresholds] of [src/analytics.py]).  [thresholds] is the
    [thresholds] member of the request body, [None] when the body has
    none; the answer is the HTTP status.  [get_or_404] raises inside the
    [try], so an unknown machine ends in the handler's 500.  The engine
    the route builds is local to the request: nothing of it is kept. *)
Definition set_machine_thresholds (w : World) (machine_id : Z)
    (thresholds : option (dict Rule)) : World * Z :=
  if bool_decide (machine_id ∈ machines w) then
    match thresholds with
    | None | Some [] => (w, 400)
    | Some t =>
        let analytics := set_threshold_rules (PredictiveAnalytics_init w) machine_id t in
        (w, 200)
    end
  else (w, 500).

(** ** Sensor defaults ([src/iot.py]) *)

(** [get_default_min_value] and [get_default_max_value]: the bounds a
    sensor gets when the ingestion routes create it. *)
Definition default_min_values : dict R :=
  [ ("temperature", (-50.0)%R); ("humidity", 0.0%R);
    ("tension", 0.0%R); ("vibration", 0.0%R) ].

Definition default_max_values : dict R :=
  [ ("temperature", 150.0%R); ("humidity", 100.0%R);
    ("tension", 1000.0%R); ("vibration", 100.0%R) ].

Definition get_default_min_value (sensor_type : string) : R :=
  default 0.0%R (dict_get sensor_type default_min_values).

Definition get_default_max_value (sensor_type : string) : R :=
  default 100.0%R (dict_get sensor_type default_max_values).

(** The [Sensor(...)] row the three ingestion routes build for an
    external sensor they do not know yet; [id] is the key the database
    assigns at [flush]. *)
Definition new_sensor (id machine_id : Z) (sensor_type : string) : Sensor :=
  {| sensor_id := id;
     sensor_machine_id := machine_id;
     sensor_type := sensor_type;
     min_value := Some (get_default_min_value sensor_type);
     max_value := Some (get_default_max_value sensor_type) |}.

(** ** Training and persistence ([src/predictive_analytics.py]) *)

(** The two scikit-learn fits.  [fit_transform] gives the fitted scaler
    and the scaled matrix, [fit] the fitted forest; [None] stands for a
    raised exception. *)
Record Sklearn := {
  fit_transform : list (list cell) -> option (StandardScaler * list (list cell));
  fit : list (list cell) -> option IsolationForest
}.

(** [StandardScaler()] and [IsolationForest(...)] before any fit: every
    use raises [NotFittedError]. *)
Definition unfitted_scaler : StandardScaler := {| transform := fun _ => None |}.
Definition unfitted_forest : IsolationForest :=
  {| predict := fun _ => None; decision_function := fun _ => None |}.

(** What the file system does to the two [joblib.dump] calls of one
    [save_models]: both write their file, or one of them raises before
    it touches its file (the directory is gone or not writable). *)
Inductive DumpOutcome := dump_ok | dump_model_raises | dump_scaler_raises.

(** [save_models]: the model file, then the scaler file, inside one
    [try]; the handler logs the exception and returns. *)
Definition save_models (io : DumpOutcome) (self : PredictiveAnalytics) (w : World)
    : World :=
  let after_model :=
    match anomaly_model self with
    | Some model =>
        match io with
        | dump_model_raises => None
        | _ => Some {| machines := machines w;
                       anomaly_model_pkl := Some model;
                       scaler_pkl := scaler_pkl w |}
        end
    | None => Some w
    end in
  match after_model with
  | None => w
  | Some w' =>
      match scaler self with
      | Some sc =>
          match io with
          | dump_scaler_raises => w'
          | _ => {| machines := machines w';
                    anomaly_model_pkl := anomaly_model_pkl w';
                    scaler_pkl := Some sc |}
          end
      | None => w'
      end
  end.

(** [train_anomaly_detection_model]: the answer, the instance and the
    files afterwards.  The instance field is assigned the fresh object
    before that object is fitted, so a fit that raises leaves an unfitted
    object in the field. *)
Definition train_anomaly_detection_model (sk : Sklearn) (io : DumpOutcome)
    (self : PredictiveAnalytics) (w : World) (training_data : DataFrame)
    : bool * PredictiveAnalytics * World :=
  if df_empty training_data then (false, self, w)
  else
    let feature_data := create_features training_data in
    let feature_cols := select_feature_cols (dict_keys (columns feature_data)) in
    match feature_cols with
    | [] => (false, self, w)
    | _ =>
        let X := values (omap (fun col => dict_get col (columns feature_data))
                           feature_cols) (nrows feature_data) in
        match fit_transform sk X with
        | None =>
            (false,
             {| anomaly_model := anomaly_model self;
                scaler := Some unfitted_scaler;
                threshold_rules := threshold_rules self |},
             w)
        | Some (fitted_scaler, X_scaled) =>
            match fit sk X_scaled with
            | None =>
                (false,
                 {| anomaly_model := Some unfitted_forest;
                    scaler := Some fitted_scaler;
                    threshold_rules := threshold_rules self |},
                 w)
            | Some fitted_forest =>
                let self' :=
                  {| anomaly_model := Some fitted_forest;
                     scaler := Some fitted_scaler;
                     threshold_rules := threshold_rules self |} in
                (true, self', save_models io self' w)
            end
        end
    end.

End Engine.

(** ** The specification's wording, for comparison with the code *)

Module Spec.

(** Type normaliser: the canonical types in priority order, each with
    its keyword set. *)
Definition keyword_sets : list (string * list string) :=
  [ ("temperature", ["temp"; "temperature"; "thermal"]);
    ("humidity",    ["humidity"; "moisture"; "rh"]);
    ("tension",     ["tension"; "pressure"; "force"; "stress"]);
    ("vibration",   ["vibration"; "vibr"; "oscillation"; "shake"]) ].

(** A keyword occurs in a text when the text is the keyword between
    two other texts. *)
Definition occurs (keyword text : string) : Prop :=
  exists before after, text = before +:+ keyword +:+ after.

(** A keyword set matches a text when one of its keywords occurs in
    it. *)
Definition matches (text : string) (keywords : list string) : Prop :=
  Exists (fun keyword => occurs keyword text) keywords.

(** [result] is the type of the first set, in the order of [sets],
    that matches [text], and [text] itself when none does. *)
Fixpoint first_match (sets : list (string * list string)) (text result : string)
    : Prop :=
  match sets with
  | [] => result = text
  | (type, keywords) :: rest =>
      (matches text keywords /\ result = type)
      \/ (~ matches text keywords /\ first_match rest text result)
  end.

(** Case: [folded] is [text] with each of the capitals A to Z replaced
    by its small letter, 32 places further, and nothing else changed. *)
Definition capital (c : ascii) : Prop :=
  (65 <= nat_of_ascii c <= 90)%nat.

Definition small_of (c small : ascii) : Prop :=
  (capital c /\ nat_of_ascii small = (nat_of_ascii c + 32)%nat)
  \/ (~ capital c /\ small = c).

Fixpoint case_folded (text folded : string) : Prop :=
  match text, folded with
  | EmptyString, EmptyString => True
  | String c text', String small folded' =>
      small_of c small /\ case_folded text' folded'
  | _, _ => False
  end.

(** White space: the code points Python strips, by their UTF-8
    bytes. *)
Definition white_characters : list (list Z) :=
  [ [9]; [10]; [11]; [12]; [13]; [28]; [29]; [30]; [31]; [32];
    [194; 133]; [194; 160]; [225; 154; 128];
    [226; 128; 128]; [226; 128; 129]; [226; 128; 130]; [226; 128; 131];
    [226; 128; 132]; [226; 128; 133]; [226; 128; 134]; [226; 128; 135];
    [226; 128; 136]; [226; 128; 137]; [226; 128; 138];
    [226; 128; 168]; [226; 128; 169]; [226; 128; 175];
    [226; 129; 159]; [227; 128; 128] ].

Definition white_character (w : list ascii) : Prop :=
  map (fun c => Z.of_nat (nat_of_ascii c)) w ∈ white_characters.

(** A run of white space. *)
Inductive white : list ascii -> Prop :=
| white_nil : white []
| white_app w l : white_character w -> white l -> white (w ++ l).

(** [trimmed] is [text] without the white space at its two ends. *)
Definition trimmed (text trimmed : string) : Prop :=
  exists before after,
    list_ascii_of_string text = before ++ list_ascii_of_string trimmed ++ after
    /\ white before /\ white after
    /\ (forall w rest, white_character w ->
          list_ascii_of_string trimmed <> w ++ rest)
    /\ (forall w rest, white_character w ->
          list_ascii_of_string trimmed <> rest ++ w).

(** Critical bounds: the value breaches the fixed table of its type. *)
Definition breaches_critical_table (ty : string) (value : R) : Prop :=
  (ty = "temperature" /\ (value < -40 \/ value > 120)%R) \/
  (ty = "humidity" /\ (value < 5 \/ value > 95)%R) \/
  (ty = "tension" /\ (value < -100 \/ value > 800)%R) \/
  (ty = "vibration" /\ (value < -10 \/ value > 80)%R).

(** Health status by priority, highest first. *)
Inductive status_for (failure_probability : R) (violations : list Violation)
    (anomalies : list Anomaly) : HealthStatus -> Prop :=
| is_critical :
    (failure_probability > 0.7)%R ->
    status_for failure_probability violations anomalies status_critical
| is_warning :
    ~ (failure_probability > 0.7)%R ->
    (failure_probability > 0.5)%R \/ violations <> [] ->
    status_for failure_probability violations anomalies warning
| is_attention :
    ~ (failure_probability > 0.7)%R ->
    ~ ((failure_probability > 0.5)%R \/ violations <> []) ->
    anomalies <> [] ->
    status_for failure_probability violations anomalies attention
| is_healthy :
    ~ (failure_probability > 0.7)%R ->
    ~ ((failure_probability > 0.5)%R \/ violations <> []) ->
    anomalies = [] ->
    status_for failure_probability violations anomalies healthy.

(** The trailing [n] items of a list: its first [n] counted from the
    end. *)
Definition trailing {A} (n : nat) (l : list A) : list A :=
  rev (firstn n (rev l)).

(** The trailing [n] timesteps of a frame. *)
Definition trailing_rows (n : nat) (df : DataFrame) : DataFrame :=
  {| timestamp := trailing n (timestamp df);
     columns := map (fun column => (fst column, trailing n (snd column)))
                    (columns df) |}.

(** The samples of a series, when none is missing. *)
Fixpoint samples (c : list cell) : option (list R) :=
  match c with
  | [] => Some []
  | Some x :: c' => cons x <$> samples c'
  | None :: _ => None
  end.

(** Failure predictor: the trend of a channel is the slope of the
    line fitted to its trailing 20 samples, when the frame has the
    channel and at least two samples of it. *)
Definition trend (lib : Lib) (feature_data : DataFrame) (channel : string)
    : option R :=
  c ← dict_get channel (columns feature_data);
  if Nat.leb 2 (length (trailing 20 c))
  then polyfit1 lib <$> samples (trailing 20 c)
  else None.


(** The anomalies detected over the trailing 10 timesteps. *)
Definition recent_anomalies (lib : Lib) (self : PredictiveAnalytics)
    (feature_data : DataFrame) : list Anomaly :=
  detect_anomalies lib self (trailing_rows 10 feature_data).



(** Feature builder: the z-score of a value against the mean and the
    standard deviation of its channel, in the arithmetic of floats. *)
Definition zscore (lib : Lib) (value mean std : R) : R :=
  fdiv lib (fsub lib value mean) std.

(** The mean of a list of numbers and the sum of the squared
    deviations from it. *)
Definition mean (lib : Lib) (xs : list R) : R :=
  fdiv lib (fsum lib xs) (INR (length xs)).
Definition squared_deviations (lib : Lib) (xs : list R) : R :=
  fsum lib (map (fun x => fmul lib (fsub lib (mean lib xs) x)
                            (fsub lib (mean lib xs) x)) xs).

(** Population standard deviation (denominator [n]) and sample
    standard deviation (denominator [n - 1]). *)
Definition population_std (lib : Lib) (xs : list R) : R :=
  fsqrt lib (fdiv lib (squared_deviations lib xs) (INR (length xs))).
Definition sample_std (lib : Lib) (xs : list R) : R :=
  fsqrt lib (fdiv lib (squared_deviations lib xs) (INR (length xs - 1))).

(** The z-score cell of a cell of a channel whose observations are
    [xs], for a given notion [std] of standard deviation: the z-score
    when the deviation is defined and its computed value is positive,
    and 0 otherwise or for a missing cell. *)
Definition zscore_cell (lib : Lib) (std : list R -> R) (xs : list R) (x : cell)
    : cell :=
  match x with
  | Some value =>
      if (Nat.leb 2 (length xs) && bool_decide (std xs > 0)%R)%bool
      then Some (zscore lib value (mean lib xs) (std xs))
      else Some 0%R
  | None => Some 0%R
  end.

End Spec.

#[global] Instance Severity_eq_dec : EqDecision Severity.
Proof. solve_decision. Defined.

#[global] Instance AlertType_eq_dec : EqDecision AlertType.
Proof. solve_decision. Defined.

(** The alerts of a session that carry the [critical] severity. *)
Definition critical_alerts (session : list Alert) : list Alert :=
  filter (fun a => alert_severity a = critical) session.

(** The record [check_thresholds] builds for the value [value] of the
    channel [sensor_type] when it is outside the bounds [lo] and
    [hi]. *)
Definition violation_for (lib : Lib) (latest_data : Row) (sensor_type : string)
    (lo hi : R) (value : R) : Violation :=
  {| v_sensor_type := sensor_type;
     v_value := value;
     threshold_min := lo;
     threshold_max := hi;
     v_severity :=
       if (bool_decide (value < fmul lib lo 0.5)%R
           || bool_decide (value > fmul lib hi 1.5)%R)%bool
       then high else medium;
     v_timestamp := row_timestamp latest_data |}.

(** The rule set [check_thresholds] applies for a machine. *)
Definition applicable_thresholds (self : PredictiveAnalytics) (machine_id : Z)
    : dict Rule :=
  default default_thresholds (threshold_rules self !! machine_id).

(** A rule set in which every rule has its two bounds and none is
    keyed by the label of the timestamp column. *)
Definition well_formed_rules (thresholds : dict Rule) : Prop :=
  Forall (fun entry => fst entry <> "timestamp"
                       /\ is_Some (rule_min (snd entry))
                       /\ is_Some (rule_max (snd entry))) thresholds.

(** ** Auxiliary notions for the statements *)

(** The names of the columns [add_channel_features] writes for a channel. *)
Definition derived_names (col : string) : list string :=
  [col +:+ "_rolling_mean"; col +:+ "_rolling_std";
   col +:+ "_rate_of_change"; col +:+ "_zscore"].

(** The z-score column as the code builds it, before [fillna]. *)
Definition zscore_column (lib : Lib) (c : list cell) : list cell :=
  if cell_gt (series_std lib c) 0
  then map (fun x => cell_op (fdiv lib) (cell_op (fsub lib) x (series_mean lib c))
                       (series_std lib c)) c
  else map (fun _ => Some 0%R) c.

(** A feature of the row whose value is above 2 in absolute value. *)
Definition extreme_feature (data_row : Row) (feature : string) : Prop :=
  exists value, dict_get feature (row_cells data_row) = Some (Some value)
                /\ (Rabs value > 2)%R.

(** ** The libraries where nothing rounds *)

(** The exact sum, mean, sample deviation and least-squares slope. *)
Definition Rsum (l : list R) : R := fold_right Rplus 0%R l.

Definition exact_mean (xs : list R) : R := (Rsum xs / INR (length xs))%R.

Definition exact_std (xs : list R) : R :=
  sqrt (Rsum (map (fun x => (exact_mean xs - x) * (exact_mean xs - x))%R xs)
        / INR (length xs - 1)).

Definition exact_slope (ys : list R) : R :=
  let n := INR (length ys) in
  let xs := map INR (seq 0 (length ys)) in
  let sx := Rsum xs in
  let sy := Rsum ys in
  let sxx := Rsum (map (fun x => x * x)%R xs) in
  let sxy := Rsum (zip_with Rmult xs ys) in
  ((n * sxy - sx * sy) / (n * sxx - sx * sx))%R.

(** The instant of a text [YYYY-MM-DDTHH:MM:SS], as [isoformat()]
    writes a time without microseconds, in seconds since 1970. *)
Definition digit (c : ascii) : option Z :=
  let n := Z.of_nat (nat_of_ascii c) in
  if (Z.leb 48 n && Z.leb n 57)%bool then Some (n - 48) else None.

Definition number (cs : list ascii) : option Z :=
  foldl (fun acc c => a ← acc; d ← digit c; Some (10 * a + d)) (Some 0) cs.

Definition days_from_civil (y m d : Z) : Z :=
  let y := if Z.leb m 2 then y - 1 else y in
  let era := y / 400 in
  let yoe := y - era * 400 in
  let doy := (153 * (if Z.ltb 2 m then m - 3 else m + 9) + 2) / 5 + d - 1 in
  let doe := yoe * 365 + yoe / 4 - yoe / 100 + doy in
  era * 146097 + doe - 719468.

Definition parse_isoformat (text : string) : option Z :=
  match list_ascii_of_string text with
  | [y1; y2; y3; y4; "-"%char; m1; m2; "-"%char; d1; d2; "T"%char;
     h1; h2; ":"%char; n1; n2; ":"%char; s1; s2] =>
      y ← number [y1; y2; y3; y4];
      m ← number [m1; m2];
      d ← number [d1; d2];
      h ← number [h1; h2];
      n ← number [n1; n2];
      s ← number [s1; s2];
      if (Z.leb 1 m && Z.leb m 12 && Z.leb 1 d && Z.leb d 31
          && Z.leb h 23 && Z.leb n 59 && Z.leb s 59)%bool
      then Some (86400 * days_from_civil y m d + 3600 * h + 60 * n + s)
      else None
  | _ => None
  end.

(** The libraries on inputs where no operation rounds: exact
    arithmetic, exact statistics of the window for the rolling
    kernels, the exact least-squares slope, timestamps in the one
    format above (any other text makes [to_datetime] raise), and
    [str.lower] on ASCII text (other bytes are left as they are).  It
    serves to run the code on concrete inputs whose intermediate
    results are floats. *)
Definition reference_lib : Lib.
Proof.
  refine {| fmul := Rmult;
            fsub := Rminus;
            fdiv := Rdiv;
            fsqrt := sqrt;
            fsum := Rsum;
            group_mean := exact_mean;
            rolling_mean_at :=
              fun c i => exact_mean (omap (fun x : cell => x)
                                       (drop (i + 1 - 10) (take (i + 1) c)));
            rolling_std_at :=
              fun c i => exact_std (omap (fun x : cell => x)
                                      (drop (i + 1 - 10) (take (i + 1) c)));
            polyfit1 := exact_slope;
            to_datetime := fun texts => map Some <$> mapM parse_isoformat texts;
            str_lower := PyStr.lower |}.
  - intros texts stamps Hparse.
    destruct (mapM parse_isoformat texts) as [instants|] eqn:Hm; [|discriminate].
    injection Hparse as <-. rewrite length_map. symmetry.
    exact (length_mapM _ _ _ Hm).
  - reflexivity.
Defined.

(** ** Concrete inputs *)

(** A process with the machine 1 in its database and no model file. *)
Definition no_models : World :=
  {| machines := {[ 1 ]}; anomaly_model_pkl := None; scaler_pkl := None |}.

(** A temperature sensor with the bounds -10 and 80. *)
Definition temperature_sensor : Sensor :=
  {| sensor_id := 7; sensor_machine_id := 1; sensor_type := "temperature";
     min_value := Some (-10)%R; max_value := Some 80%R |}.

(** A sensor of a type outside the four canonical ones. *)
Definition flow_sensor : Sensor :=
  {| sensor_id := 8; sensor_machine_id := 1; sensor_type := "flow";
     min_value := Some 0%R; max_value := Some 100%R |}.

(** A temperature sensor whose maximum is NULL. *)
Definition unbounded_sensor : Sensor :=
  {| sensor_id := 9; sensor_machine_id := 1; sensor_type := "temperature";
     min_value := Some (-10)%R; max_value := None |}.

(** A frame of one row with one temperature cell. *)
Definition one_temperature (value : R) : DataFrame :=
  {| timestamp := [0]; columns := [("temperature", [Some value])] |}.

(** Three temperatures 0, 2 and 4. *)
Definition three_temperatures : DataFrame :=
  {| timestamp := [0; 1; 2];
     columns := [("temperature", [Some 0%R; Some 2%R; Some 4%R])] |}.

(** A frame of one row: a temperature within the override's bounds and a
    humidity far beyond the built-in bounds. *)
Definition humid_frame : DataFrame :=
  {| timestamp := [0];
     columns := [("humidity", [Some 500%R]); ("temperature", [Some 20%R])] |}.

(** Ten rows of a vibration that grows by one per row. *)
Definition rising_vibration : DataFrame :=
  {| timestamp := [0; 1; 2; 3; 4; 5; 6; 7; 8; 9];
     columns :=
       [("vibration",
         [Some 0%R; Some 1%R; Some 2%R; Some 3%R; Some 4%R;
          Some 5%R; Some 6%R; Some 7%R; Some 8%R; Some 9%R])] |}.

(** One temperature reading of 70, and one of 95. *)
Definition hot_reading : list Reading :=
  [ {| rd_sensor_type := "temperature"; rd_value := 70;
       rd_timestamp := "1970-01-01T00:00:00" |} ].

Definition alarming_reading : list Reading :=
  [ {| rd_sensor_type := "temperature"; rd_value := 95;
       rd_timestamp := "1970-01-01T00:00:00" |} ].

(** Readings out of order, with a gap in each channel. *)
Definition gappy_readings : list Reading :=
  [ {| rd_sensor_type := "temperature"; rd_value := 3;
       rd_timestamp := "1970-01-01T00:00:20" |};
    {| rd_sensor_type := "humidity"; rd_value := 5;
       rd_timestamp := "1970-01-01T00:00:10" |};
    {| rd_sensor_type := "temperature"; rd_value := 1;
       rd_timestamp := "1970-01-01T00:00:00" |} ].

(** Two temperature readings at one timestamp, and one later. *)
Definition repeated_readings : list Reading :=
  [ {| rd_sensor_type := "temperature"; rd_value := 1;
       rd_timestamp := "1970-01-01T00:00:00" |};
    {| rd_sensor_type := "temperature"; rd_value := 3;
       rd_timestamp := "1970-01-01T00:00:00" |};
    {| rd_sensor_type := "temperature"; rd_value := 7;
       rd_timestamp := "1970-01-01T00:00:05" |} ].

(** An override that bounds the temperature by 0 and 60. *)
Definition tight_rules : dict Rule :=
  [ ("temperature", {| rule_min := Some 0%R; rule_max := Some 60%R |}) ].

(** An override whose rule has no maximum. *)
Definition open_rules : dict Rule :=
  [ ("temperature", {| rule_min := Some 0%R; rule_max := None |}) ].

(** An override with a rule keyed by the label of the timestamp column. *)
Definition stamped_rules : dict Rule :=
  [ ("temperature", {| rule_min := Some 0%R; rule_max := Some 60%R |});
    ("timestamp", {| rule_min := Some 0%R; rule_max := Some 1%R |}) ].

(** An isolation forest that flags every row with the score -0.2. *)
Definition flag_all : IsolationForest :=
  {| predict := fun X => Some (map (fun _ => -1) X);
     decision_function := fun X => Some (map (fun _ => (-0.2)%R) X) |}.

(** A scaler that changes nothing. *)
Definition identity_scaler : StandardScaler := {| transform := fun X => Some X |}.

(** An engine that holds both, and no threshold rule. *)
Definition flagging_engine : PredictiveAnalytics :=
  {| anomaly_model := Some flag_all; scaler := Some identity_scaler;
     threshold_rules := ∅ |}.

(** ** Notions and inputs for the further properties *)


(** The test of the affected-sensor scan on one feature of a row, and on
    the features of one channel. *)
Definition extreme_featureb (data_row : Row) (feature : string) : bool :=
  match dict_get feature (row_cells data_row) with
  | Some value => cell_gt (Rabs <$> value) 2
  | None => false
  end.

Definition channel_is_affected (data_row : Row) (feature_cols : list string)
    (sensor : string) : bool :=
  existsb (extreme_featureb data_row)
    (filter (fun col => PyStr.contains sensor col = true) feature_cols).

(** The matrix [X] the detector and the training hand to scikit-learn. *)
Definition feature_matrix (lib : Lib) (sensor_data : DataFrame) : list (list cell) :=
  let feature_data := create_features lib sensor_data in
  values (omap (fun col => dict_get col (columns feature_data))
            (select_feature_cols (dict_keys (columns feature_data))))
    (nrows feature_data).

(** A frame as pandas keeps it: every column has one cell per row. *)
Definition well_formed (df : DataFrame) : Prop :=
  Forall (fun c => length (snd c) = nrows df) (columns df).

(** The frame [pivot_table] builds when nothing raises. *)
Definition pivot_frame (lib : Lib) (rows : list Stamped) : DataFrame :=
  let df := sort_values rows in
  let index := usort Z.ltb (map st_timestamp df) in
  let names := usort String.ltb (map st_sensor_type df) in
  {| timestamp := index;
     columns :=
       map (fun name => (name, bfill (ffill (map (pivot_cell lib df name) index))))
         names |}.

(** The rows that share the type and the instant of [r]. *)
Definition same_cell (r : Stamped) (rows : list Stamped) : list Stamped :=
  filter (fun r' => st_sensor_type r' = st_sensor_type r
                    /\ st_timestamp r' = st_timestamp r) rows.

(** The analysis of one temperature reading of 70 at clock 5, without
    model files, and of one reading of 95. *)
Definition calm_analysis : HealthAnalysis :=
  {| ha_machine_id := 1;
     health_status := healthy;
     failure_prediction := neutral_prediction;
     anomalies := [];
     threshold_violations := [];
     analysis_timestamp := 5 |}.

Definition alarmed_analysis : HealthAnalysis :=
  {| ha_machine_id := 1;
     health_status := warning;
     failure_prediction := neutral_prediction;
     anomalies := [];
     threshold_violations :=
       [ {| v_sensor_type := "temperature"; v_value := 95;
            threshold_min := -10; threshold_max := 80;
            v_severity := medium; v_timestamp := 0 |} ];
     analysis_timestamp := 5 |}.

(** Fits that always succeed, with the scaler that changes nothing and
    the forest that flags every row; and fits that always raise. *)
Definition echo_sklearn : Sklearn :=
  {| fit_transform := fun X => Some (identity_scaler, X);
     fit := fun _ => Some flag_all |}.

Definition failing_sklearn : Sklearn :=
  {| fit_transform := fun _ => None; fit := fun _ => None |}.

(** The instance and the files after training an engine without models
    on one temperature reading. *)
Definition trained_engine : PredictiveAnalytics :=
  {| anomaly_model := Some flag_all; scaler := Some identity_scaler;
     threshold_rules := ∅ |}.

Definition trained_files : World :=
  {| machines := {[ 1 ]};
     anomaly_model_pkl := Some flag_all;
     scaler_pkl := Some identity_scaler |}.

(** The instance a failed fit of the scaler leaves behind. *)
Definition broken_engine : PredictiveAnalytics :=
  {| anomaly_model := Some flag_all; scaler := Some unfitted_scaler;
     threshold_rules := ∅ |}.

(** * Properties *)

(** ** Python strings *)

Lemma append_cons (a : ascii) (s t : string) : String a s +:+ t = String a (s +:+ t).
Proof. reflexivity. Qed.

Lemma append_empty_r (s : string) : s +:+ EmptyString = s.
Proof. induction s as [|a s IH]; [done|]. by rewrite append_cons, IH. Qed.

Lemma prefix_spec (s1 s2 : string) :
  String.prefix s1 s2 = true <-> exists post, s2 = s1 +:+ post.
Proof.
  revert s2. induction s1 as [|a s1 IH]; intros s2; simpl.
  - destruct s2; split; eauto.
  - destruct s2 as [|b s2]; simpl.
    + split; [done|]. intros [? Hp]. by rewrite append_cons in Hp.
    + destruct (ascii_dec a b) as [->|Hne].
      * rewrite IH. split; intros [post Hp]; exists post;
          rewrite append_cons in *; congruence.
      * split; [done|]. intros [post Hp]. rewrite append_cons in Hp. congruence.
Qed.

(** [contains] is the substring test: the needle occurs in the haystack
    exactly when the haystack splits around it. *)
Lemma contains_spec (needle hay : string) :
  PyStr.contains needle hay = true <-> Spec.occurs needle hay.
Proof.
  unfold Spec.occurs. induction hay as [|c hay IH].
  - cbn [PyStr.contains]. rewrite orb_false_r, prefix_spec. split.
    + intros [post Hp]. by exists EmptyString, post.
    + intros (pre & post & Hp). destruct pre; [by exists post|].
      by rewrite append_cons in Hp.
  - cbn [PyStr.contains]. rewrite orb_true_iff, IH, prefix_spec. split.
    + intros [[post Hp]|(pre & post & Hp)].
      * by exists EmptyString, post.
      * exists (String c pre), post. rewrite append_cons. by rewrite Hp.
    + intros (pre & post & Hp). destruct pre as [|c' pre].
      * left. by exists post.
      * right. exists pre, post. rewrite append_cons in Hp. congruence.
Qed.

Lemma any_in_matches (keywords : list string) (text : string) :
  PyStr.any_in keywords text = true <-> Spec.matches text keywords.
Proof.
  unfold PyStr.any_in, Spec.matches. rewrite existsb_exists, Exists_exists.
  split; intros (kw & Hin & Hkw); exists kw;
    (split; [by apply list_elem_of_In|by apply contains_spec]).
Qed.

(** *** Case *)

Lemma capital_dec (c : ascii) :
  (Nat.leb 65 (nat_of_ascii c) && Nat.leb (nat_of_ascii c) 90)%bool = true
  <-> Spec.capital c.
Proof. unfold Spec.capital. rewrite andb_true_iff, !Nat.leb_le. done. Qed.

Lemma lower_ascii_small_of (c : ascii) : Spec.small_of c (PyStr.lower_ascii c).
Proof.
  unfold Spec.small_of, PyStr.lower_ascii. cbv zeta.
  destruct (Nat.leb 65 (nat_of_ascii c) && Nat.leb (nat_of_ascii c) 90)%bool eqn:Hc.
  - left. apply capital_dec in Hc. split; [done|].
    apply nat_ascii_embedding. unfold Spec.capital in Hc. lia.
  - right. split; [|done]. intros Hcap%capital_dec. congruence.
Qed.

Lemma lower_case_folded (s : string) : Spec.case_folded s (PyStr.lower s).
Proof.
  induction s as [|c s IH]; simpl; [done|].
  split; [apply lower_ascii_small_of|done].
Qed.

Lemma small_of_functional (c s1 s2 : ascii) :
  Spec.small_of c s1 -> Spec.small_of c s2 -> s1 = s2.
Proof.
  intros [[Hc H1]|[Hc ->]] [[Hc' H2]|[Hc' ->]]; try done.
  rewrite <- (ascii_nat_embedding s1), <- (ascii_nat_embedding s2). congruence.
Qed.

Lemma case_folded_functional (s f1 f2 : string) :
  Spec.case_folded s f1 -> Spec.case_folded s f2 -> f1 = f2.
Proof.
  revert f1 f2. induction s as [|c s IH]; intros [|a f1] [|b f2]; simpl; try done.
  intros [Ha H1] [Hb H2]. f_equal; [by eapply small_of_functional|by apply IH].
Qed.

(** *** White space *)

Lemma elem_of_white_characters (codes : list Z) :
  bool_decide (codes ∈ Spec.white_characters) = true -> codes ∈ Spec.white_characters.
Proof. apply bool_decide_eq_true_1. Qed.

Ltac white_member :=
  apply elem_of_white_characters; vm_compute; reflexivity.

Lemma space1_white (a : ascii) :
  PyStr.space1 a = true -> Spec.white_character [a].
Proof.
  unfold PyStr.space1, Spec.white_character. cbv zeta. cbn [map].
  rewrite orb_true_iff, !andb_true_iff, !Nat.leb_le. intros Hn.
  assert (Hcases : In (nat_of_ascii a) [9; 10; 11; 12; 13; 28; 29; 30; 31; 32]%nat)
    by (simpl; lia).
  simpl in Hcases.
  repeat (destruct Hcases as [<-|Hcases]; [white_member|]). done.
Qed.

Lemma space2_white (a b : ascii) :
  PyStr.space2 a b = true -> Spec.white_character [a; b].
Proof.
  unfold PyStr.space2, Spec.white_character. cbv zeta. cbn [map].
  rewrite andb_true_iff, orb_true_iff, !Nat.eqb_eq.
  intros [-> [-> | ->]]; white_member.
Qed.

Lemma space3_white (a b c : ascii) :
  PyStr.space3 a b c = true -> Spec.white_character [a; b; c].
Proof.
  unfold PyStr.space3, Spec.white_character. cbv zeta. cbn [map].
  rewrite !orb_true_iff, !andb_true_iff, !orb_true_iff, !andb_true_iff,
    !Nat.eqb_eq, !Nat.leb_le.
  intros [[[((-> & ->) & ->)|((-> & ->) & Hc)]|((-> & ->) & ->)]|((-> & ->) & ->)];
    try white_member.
  assert (Hcases : In (nat_of_ascii c)
                     [128; 129; 130; 131; 132; 133; 134; 135; 136; 137; 138;
                      168; 169; 175]%nat) by (simpl; lia).
  simpl in Hcases.
  repeat (destruct Hcases as [<-|Hcases]; [white_member|]). done.
Qed.

Lemma code_inj (a : ascii) (z : Z) :
  Z.of_nat (nat_of_ascii a) = z -> nat_of_ascii a = Z.to_nat z.
Proof. lia. Qed.

Ltac white_codes :=
  repeat match goal with
         | H : Z.of_nat (nat_of_ascii _) = ?z |- _ =>
             apply code_inj in H;
             let n := eval vm_compute in (Z.to_nat z) in
             change (Z.to_nat z) with n in H
         end.

Ltac rewrite_codes :=
  cbv zeta; repeat match goal with H : nat_of_ascii _ = _ |- _ => rewrite H end.

Lemma white_character_cases (w : list ascii) :
  Spec.white_character w ->
  (exists a, w = [a] /\ PyStr.space1 a = true)
  \/ (exists a b, w = [a; b] /\ PyStr.space1 a = false /\ PyStr.space2 a b = true)
  \/ (exists a b c, w = [a; b; c] /\ PyStr.space1 a = false
                    /\ PyStr.space2 a b = false /\ PyStr.space3 a b c = true).
Proof.
  unfold Spec.white_character, Spec.white_characters. intros Hw.
  repeat (apply elem_of_cons in Hw as [Hw|Hw];
          [destruct w as [|a [|b [|c [|d w]]]]; cbn [map] in Hw;
           try discriminate Hw; simplify_eq; white_codes;
           first
             [ left; eexists; split; [reflexivity|];
               unfold PyStr.space1; rewrite_codes; reflexivity
             | right; left; do 2 eexists; split; [reflexivity|];
               unfold PyStr.space1, PyStr.space2; rewrite_codes;
               split; reflexivity
             | right; right; do 3 eexists; split; [reflexivity|];
               unfold PyStr.space1, PyStr.space2, PyStr.space3; rewrite_codes;
               repeat split; reflexivity ]
          |]).
  by apply elem_of_nil in Hw.
Qed.

Section strip_front_facts.
Context (p1 : ascii -> bool) (p2 : ascii -> ascii -> bool)
  (p3 : ascii -> ascii -> ascii -> bool) (character : list ascii -> Prop).
Hypothesis character_1 : forall a, p1 a = true -> character [a].
Hypothesis character_2 : forall a b, p2 a b = true -> character [a; b].
Hypothesis character_3 : forall a b c, p3 a b c = true -> character [a; b; c].
Hypothesis character_cases :
  forall w, character w ->
    (exists a, w = [a] /\ p1 a = true)
    \/ (exists a b, w = [a; b] /\ p2 a b = true)
    \/ (exists a b c, w = [a; b; c] /\ p3 a b c = true).

Lemma strip_front_spec (l : list ascii) :
  exists ws,
    l = concat ws ++ PyStr.strip_front p1 p2 p3 l
    /\ Forall character ws
    /\ forall w rest, character w -> PyStr.strip_front p1 p2 p3 l <> w ++ rest.
Proof.
  remember (length l) as n eqn:Hn. revert l Hn.
  induction n as [n IH] using lt_wf_ind. intros l Hn.
  assert (Hstop : forall l0 : list ascii,
    match l0 with
    | c1 :: l1 =>
        p1 c1 = false
        /\ match l1 with
           | c2 :: l2 =>
               p2 c1 c2 = false
               /\ match l2 with c3 :: _ => p3 c1 c2 c3 = false | [] => True end
           | [] => True
           end
    | [] => True
    end ->
    forall w rest, character w -> l0 <> w ++ rest).
  { intros l0 Hl w rest Hw Heq.
    destruct (character_cases w Hw)
      as [(a & -> & Ha)|[(a & b & -> & Hab)|(a & b & c & -> & Habc)]];
      destruct l0 as [|c1 [|c2 [|c3 l3]]]; simplify_eq/=;
      intuition congruence. }
  destruct l as [|c1 l1]; cbn [PyStr.strip_front].
  { exists []. split; [done|]. split; [constructor|]. by apply Hstop. }
  destruct (p1 c1) eqn:H1.
  { destruct (IH (length l1)) with (l := l1) as (ws & Heq & Hws & Hno);
      [simpl in Hn; lia|done|].
    exists ([c1] :: ws). split; [simpl; by rewrite <- Heq|].
    split; [constructor; auto|done]. }
  destruct l1 as [|c2 l2].
  { exists []. split; [done|]. split; [constructor|]. by apply Hstop. }
  destruct (p2 c1 c2) eqn:H2.
  { destruct (IH (length l2)) with (l := l2) as (ws & Heq & Hws & Hno);
      [simpl in Hn; lia|done|].
    exists ([c1; c2] :: ws). split; [simpl; by rewrite <- Heq|].
    split; [constructor; auto|done]. }
  destruct l2 as [|c3 l3].
  { exists []. split; [done|]. split; [constructor|]. by apply Hstop. }
  destruct (p3 c1 c2 c3) eqn:H3.
  { destruct (IH (length l3)) with (l := l3) as (ws & Heq & Hws & Hno);
      [simpl in Hn; lia|done|].
    exists ([c1; c2; c3] :: ws). split; [simpl; by rewrite <- Heq|].
    split; [constructor; auto|done]. }
  exists []. split; [done|]. split; [constructor|]. by apply Hstop.
Qed.

End strip_front_facts.

Lemma white_append (l1 l2 : list ascii) :
  Spec.white l1 -> Spec.white l2 -> Spec.white (l1 ++ l2).
Proof.
  induction 1 as [|w l Hw Hl IH]; [done|]. intros H2.
  rewrite <- app_assoc. apply Spec.white_app; auto.
Qed.

Lemma white_concat (ws : list (list ascii)) :
  Forall Spec.white_character ws -> Spec.white (concat ws).
Proof.
  induction 1 as [|w ws Hw Hws IH]; simpl; [constructor|].
  by apply Spec.white_app.
Qed.

Lemma white_rev_concat (ws : list (list ascii)) :
  Forall (fun w => Spec.white_character (rev w)) ws -> Spec.white (rev (concat ws)).
Proof.
  induction 1 as [|w ws Hw Hws IH]; simpl; [constructor|].
  rewrite rev_app_distr. apply white_append; [done|].
  rewrite <- (app_nil_r (rev w)). apply Spec.white_app; [done|constructor].
Qed.

Lemma lstrip_bytes_spec (l : list ascii) :
  exists before,
    l = before ++ PyStr.lstrip_bytes l
    /\ Spec.white before
    /\ forall w rest, Spec.white_character w -> PyStr.lstrip_bytes l <> w ++ rest.
Proof.
  destruct (strip_front_spec PyStr.space1 PyStr.space2 PyStr.space3
              Spec.white_character space1_white space2_white space3_white) with (l := l)
    as (ws & Heq & Hws & Hno).
  { intros w Hw.
    destruct (white_character_cases w Hw)
      as [(a & ? & ?)|[(a & b & ? & ? & ?)|(a & b & c & ? & ? & ? & ?)]]; eauto 10. }
  exists (concat ws). split; [done|]. split; [by apply white_concat|done].
Qed.

Lemma rstrip_bytes_spec (l : list ascii) :
  exists after,
    l = PyStr.rstrip_bytes l ++ after
    /\ Spec.white after
    /\ forall w rest, Spec.white_character w -> PyStr.rstrip_bytes l <> rest ++ w.
Proof.
  unfold PyStr.rstrip_bytes.
  destruct (strip_front_spec PyStr.space1 (fun c2 c1 => PyStr.space2 c1 c2)
              (fun c3 c2 c1 => PyStr.space3 c1 c2 c3)
              (fun w => Spec.white_character (rev w))) with (l := rev l)
    as (ws & Heq & Hws & Hno).
  - intros a. apply space1_white.
  - intros a b. apply space2_white.
  - intros a b c. apply space3_white.
  - intros w Hw.
    destruct (white_character_cases (rev w) Hw)
      as [(a & Hr & ?)|[(a & b & Hr & ? & ?)|(a & b & c & Hr & ? & ? & ?)]];
      apply (f_equal (@rev ascii)) in Hr; rewrite rev_involutive in Hr;
      simpl in Hr; subst w; eauto 10.
  - exists (rev (concat ws)). split; [|split].
    + apply (f_equal (@rev ascii)) in Heq.
      rewrite rev_involutive, rev_app_distr in Heq. exact Heq.
    + by apply white_rev_concat.
    + intros w rest Hw Heq'. apply (Hno (rev w) (rev rest)).
      * by rewrite rev_involutive.
      * apply (f_equal (@rev ascii)) in Heq'.
        rewrite rev_involutive, rev_app_distr in Heq'. exact Heq'.
Qed.

(** [strip] takes the white space off the two ends, and nothing else. *)
Lemma strip_trimmed (s : string) : Spec.trimmed s (PyStr.strip s).
Proof.
  unfold Spec.trimmed, PyStr.strip.
  rewrite list_ascii_of_string_of_list_ascii.
  destruct (lstrip_bytes_spec (list_ascii_of_string s)) as (before & Hl & Hb & Hstart).
  destruct (rstrip_bytes_spec (PyStr.lstrip_bytes (list_ascii_of_string s)))
    as (after & Hr & Ha & Hend).
  exists before, after. split; [by rewrite <- Hr|].
  split; [done|]. split; [done|]. split; [|done].
  intros w rest Hw Heq. apply (Hstart w (rest ++ after) Hw).
  rewrite Hr at 1. rewrite Heq. by rewrite <- app_assoc.
Qed.

(** ** Dictionaries *)
Section dict_facts.
Context {V : Type}.
Implicit Types (d : dict V) (k : string) (v : V).

Lemma dict_get_set_eq k v d : dict_get k (dict_set k v d) = Some v.
Proof.
  induction d as [|[k' v'] d IH]; simpl.
  - by rewrite decide_True.
  - destruct (decide (k' = k)) as [->|Hne]; simpl.
    + by rewrite decide_True.
    + by rewrite decide_False.
Qed.

Lemma dict_get_set_ne k k' v d : k' <> k -> dict_get k (dict_set k' v d) = dict_get k d.
Proof.
  intros Hne. induction d as [|[k0 v0] d IH]; simpl.
  - by rewrite decide_False.
  - destruct (decide (k0 = k')) as [->|Hne0]; simpl.
    + by rewrite !decide_False.
    + destruct (decide (k0 = k)); [done|exact IH].
Qed.

Lemma dict_get_In k v d : dict_get k d = Some v -> (k, v) ∈ d.
Proof.
  induction d as [|[k' v'] d IH]; simpl; [done|].
  destruct (decide (k' = k)) as [->|Hne].
  - intros [= ->]. left.
  - intros H. right. auto.
Qed.

Lemma dict_get_None k d : k ∉ dict_keys d -> dict_get k d = None.
Proof.
  induction d as [|[k' v'] d IH]; simpl; [done|].
  rewrite not_elem_of_cons. intros [Hne Hk].
  rewrite decide_False by done. auto.
Qed.

End dict_facts.

(** ** Type normaliser *)

Lemma normalize_sensor_type_canonical (lib : Lib) (c : string) :
  c ∈ feature_columns -> normalize_sensor_type lib c = c.
Proof.
  unfold feature_columns. rewrite !elem_of_cons, elem_of_nil.
  intros [->|[->|[->|[->|[]]]]]; unfold normalize_sensor_type;
    rewrite str_lower_ascii by reflexivity; reflexivity.
Qed.

Lemma first_match_functional (sets : list (string * list string))
    (text r1 r2 : string) :
  Spec.first_match sets text r1 -> Spec.first_match sets text r2 -> r1 = r2.
Proof.
  induction sets as [|[type keywords] sets IH]; simpl; [congruence|].
  intros [[? ->]|[? ?]] [[? ->]|[? ?]]; try done. by apply IH.
Qed.

Lemma normalize_sensor_type_is_first_match (lib : Lib) (label : string) :
  Spec.first_match Spec.keyword_sets (PyStr.strip (str_lower lib label))
    (normalize_sensor_type lib label).
Proof.
  unfold normalize_sensor_type, Spec.keyword_sets. cbv zeta.
  cbn [Spec.first_match].
  repeat match goal with
         | |- context [if PyStr.any_in ?k ?s then _ else _] =>
             let Hk := fresh "Hk" in
             destruct (PyStr.any_in k s) eqn:Hk;
             [apply any_in_matches in Hk; by left|];
             right; split;
             [intros Hm%any_in_matches; congruence|]
         end.
  reflexivity.
Qed.

(** C8: the normaliser lower-cases and trims the label, and returns the
    first canonical type, in the order temperature, humidity, tension,
    vibration, of which a keyword occurs in that text, and the text
    itself when no keyword occurs in it; trimming takes the white space
    off the two ends and nothing else; on an ASCII label lower-casing
    replaces the capitals by their small letters and nothing else; and
    a canonical type is returned unchanged. *)
Theorem normalize_sensor_type_first_match (lib : Lib) (label : string) :
  let text := PyStr.strip (str_lower lib label) in
  (forall result,
     Spec.first_match Spec.keyword_sets text result
     <-> normalize_sensor_type lib label = result)
  /\ Spec.trimmed (str_lower lib label) text
  /\ (PyStr.is_ascii label = true -> Spec.case_folded label (str_lower lib label))
  /\ Forall (fun c => normalize_sensor_type lib c = c) feature_columns.
Proof.
  cbv zeta. split; [|split; [|split]].
  - intros result. split.
    + intros Hfirst. eapply first_match_functional; [|exact Hfirst].
      apply normalize_sensor_type_is_first_match.
    + intros <-. apply normalize_sensor_type_is_first_match.
  - apply strip_trimmed.
  - intros Hascii. rewrite str_lower_ascii by done. apply lower_case_folded.
  - apply Forall_forall. intros c Hc. by apply normalize_sensor_type_canonical.
Qed.

Lemma normalize_sensor_type_first_match_witness :
  Spec.case_folded "  Thermal Pressure " (str_lower reference_lib "  Thermal Pressure ").
Proof.
  apply (normalize_sensor_type_first_match reference_lib "  Thermal Pressure ").
  reflexivity.
Defined.

(** A label that matches two keyword sets goes to the earlier type, and a
    label that matches none comes back lower-cased and trimmed. *)
Lemma normalize_sensor_type_examples :
  normalize_sensor_type reference_lib "  Thermal Pressure " = "temperature"
  /\ normalize_sensor_type reference_lib "RH-Stress" = "humidity"
  /\ normalize_sensor_type reference_lib " Oil Level " = "oil level".
Proof. repeat split; reflexivity. Qed.

(** ** Deciding comparisons of concrete numbers *)

Ltac rdecide :=
  repeat match goal with
         | |- context [bool_decide ?P] =>
             first [ rewrite (bool_decide_eq_true_2 P) by lra
                   | rewrite (bool_decide_eq_false_2 P) by lra ]
         end.

(** ** Ingestion-side checks *)

Ltac breach_intro :=
  unfold Spec.breaches_critical_table;
  first [ left; split; [reflexivity|]
        | right; left; split; [reflexivity|]
        | right; right; left; split; [reflexivity|]
        | right; right; right; split; [reflexivity|] ];
  first [ left; lra | right; lra ].

Ltac breach_elim :=
  unfold Spec.breaches_critical_table;
  intros [[? [?|?]]|[[? [?|?]]|[[? [?|?]]|[? [?|?]]]]];
  first [ discriminate | congruence | exfalso; lra ].

Lemma check_critical_thresholds_breach (sensor : Sensor) (value : R) :
  is_Some (check_critical_thresholds sensor value)
  <-> Spec.breaches_critical_table (sensor_type sensor) value.
Proof.
  unfold check_critical_thresholds, critical_thresholds.
  generalize (sensor_type sensor) as ty. intros ty. simpl dict_get.
  destruct (decide ("temperature" = ty)) as [<-|N1];
    [|destruct (decide ("humidity" = ty)) as [<-|N2];
      [|destruct (decide ("tension" = ty)) as [<-|N3];
        [|destruct (decide ("vibration" = ty)) as [<-|N4]]]];
    simpl.
  1-4: repeat case_bool_decide; simpl;
       (split; [first [by intros [? [=]] | intros _; breach_intro]
               |first [intros _; by eexists | breach_elim]]).
  split; [by intros [? [=]] | breach_elim].
Qed.

Lemma check_critical_thresholds_unknown (sensor : Sensor) (value : R) :
  sensor_type sensor ∉ feature_columns -> check_critical_thresholds sensor value = None.
Proof.
  intros Hty. unfold check_critical_thresholds, critical_thresholds.
  rewrite dict_get_None; [done|].
  exact Hty.
Qed.

Lemma check_critical_thresholds_severity (sensor : Sensor) (value : R) (a : Alert) :
  check_critical_thresholds sensor value = Some a ->
  alert_severity a = critical /\ alert_type a = critical_threshold.
Proof.
  unfold check_critical_thresholds.
  destruct (dict_get _ _); [|done].
  destruct (_ || _)%bool; [|done].
  by intros [= <-].
Qed.

(** The critical-bounds check answers with an alert exactly when the
    value breaches the fixed table of the sensor's type, the alert is of
    [critical] severity, a type outside the four canonical ones never
    gets one, and for a sensor whose two configured bounds [lo] and
    [hi] are set, the alerts of critical severity that
    [check_sensor_thresholds] adds are exactly that one alert, or
    none. *)
Lemma critical_bounds_independent (lib : Lib) (sensor : Sensor) (value lo hi : R) :
  (is_Some (check_critical_thresholds sensor value)
   <-> Spec.breaches_critical_table (sensor_type sensor) value)
  /\ (forall a, check_critical_thresholds sensor value = Some a ->
                alert_severity a = critical /\ alert_type a = critical_threshold)
  /\ (sensor_type sensor ∉ feature_columns ->
      check_critical_thresholds sensor value = None)
  /\ (min_value sensor = Some lo -> max_value sensor = Some hi ->
      critical_alerts (check_sensor_thresholds lib sensor value [])
      = option_list (check_critical_thresholds sensor value)).
Proof.
  split; [apply check_critical_thresholds_breach|].
  split; [apply check_critical_thresholds_severity|].
  split; [apply check_critical_thresholds_unknown|].
  intros Hlo Hhi. unfold check_sensor_thresholds. rewrite Hlo, Hhi.
  pose proof (check_critical_thresholds_severity sensor value) as Hsev.
  destruct (check_critical_thresholds sensor value) as [a|].
  - destruct (Hsev a eq_refl) as [Ha _].
    unfold critical_alerts.
    repeat case_bool_decide; simpl;
      rewrite ?filter_app, ?filter_cons, ?filter_nil; simpl;
      repeat case_decide; simpl; try done.
  - unfold critical_alerts.
    repeat case_bool_decide; simpl;
      rewrite ?filter_app, ?filter_cons, ?filter_nil; simpl;
      repeat case_decide; simpl; try done.
Qed.

(** With a NULL bound the comparison raises, and nothing is added from
    there on. *)
Lemma check_sensor_thresholds_null_bound (lib : Lib) (sensor : Sensor) (value : R)
    (session : list Alert) :
  min_value sensor = None -> check_sensor_thresholds lib sensor value session = session.
Proof. unfold check_sensor_thresholds. by intros ->. Qed.

(** The configured-bounds alerts of the ingestion path: above the
    maximum the severity is [high] beyond the float product of the
    maximum and 1.2, and [medium] up to it; below the minimum it is
    [medium]. *)
Lemma check_sensor_thresholds_configured (lib : Lib) (sensor : Sensor) (value lo hi : R)
    (session : list Alert) :
  min_value sensor = Some lo -> max_value sensor = Some hi ->
  ((value > hi)%R ->
   {| alert_machine_id := sensor_machine_id sensor;
      alert_sensor_id := sensor_id sensor;
      alert_type := threshold_violation;
      alert_severity :=
        if bool_decide (value > fmul lib hi 1.2)%R then high else medium |}
   ∈ check_sensor_thresholds lib sensor value session)
  /\ ((value < lo)%R ->
      {| alert_machine_id := sensor_machine_id sensor;
         alert_sensor_id := sensor_id sensor;
         alert_type := threshold_violation;
         alert_severity := medium |}
      ∈ check_sensor_thresholds lib sensor value session).
Proof.
  intros Hlo Hhi. unfold check_sensor_thresholds. rewrite Hlo, Hhi.
  split; intros Hv.
  - rewrite (bool_decide_eq_true_2 (value > hi)%R) by done.
    destruct (check_critical_thresholds sensor value);
      rewrite ?elem_of_app, ?list_elem_of_singleton; naive_solver.
  - rewrite (bool_decide_eq_true_2 (value < lo)%R) by done.
    destruct (check_critical_thresholds sensor value), (bool_decide (value > hi)%R);
      rewrite ?elem_of_app, ?list_elem_of_singleton; naive_solver.
Qed.

(** C7, the code at the failing input: a temperature sensor whose
    maximum is NULL reads 1000.  The value breaches the critical table
    and the critical check alone answers with its alert, yet
    [check_sensor_thresholds] adds no alert at all: the comparison with
    the NULL maximum raises before the critical check is reached, and
    the handler swallows the exception.  With the maximum set to 80 the
    same reading gets its critical alert. *)
Theorem critical_check_skipped_on_null_bound :
  Spec.breaches_critical_table (sensor_type unbounded_sensor) 1000
  /\ check_critical_thresholds unbounded_sensor 1000
     = Some {| alert_machine_id := 1; alert_sensor_id := 9;
               alert_type := critical_threshold; alert_severity := critical |}
  /\ check_sensor_thresholds reference_lib unbounded_sensor 1000 [] = []
  /\ critical_alerts (check_sensor_thresholds reference_lib temperature_sensor 1000 [])
     = [ {| alert_machine_id := 1; alert_sensor_id := 7;
            alert_type := critical_threshold; alert_severity := critical |} ].
Proof.
  split; [|split; [|split]].
  - unfold unbounded_sensor. cbn [sensor_type]. breach_intro.
  - unfold check_critical_thresholds, unbounded_sensor. simpl. rdecide. reflexivity.
  - unfold check_sensor_thresholds, unbounded_sensor. cbn [min_value max_value].
    rdecide. reflexivity.
  - unfold check_sensor_thresholds, check_critical_thresholds, temperature_sensor,
      critical_alerts. simpl. rdecide. simpl. reflexivity.
Qed.

(** ** Analytics-side threshold check *)

Lemma collect_violations_total (lib : Lib) (latest_data : Row)
    (thresholds : dict Rule) :
  well_formed_rules thresholds ->
  is_Some (collect_violations lib latest_data thresholds).
Proof.
  induction 1 as [|[s rule] th (Hs & [lo Hlo] & [hi Hhi]) Hth IH];
    cbn [collect_violations]; [by eexists|].
  cbn [fst snd] in *. rewrite decide_False by done. rewrite Hlo, Hhi.
  destruct IH as [vs ->]. destruct (dict_get s (row_cells latest_data)); by eexists.
Qed.

Lemma collect_violations_elem (lib : Lib) (latest_data : Row) (thresholds : dict Rule)
    (violations : list Violation) (x : Violation) :
  collect_violations lib latest_data thresholds = Some violations ->
  x ∈ violations <->
  exists s lo hi value,
    (s, {| rule_min := Some lo; rule_max := Some hi |}) ∈ thresholds
    /\ dict_get s (row_cells latest_data) = Some (Some value)
    /\ ((value < lo)%R \/ (value > hi)%R)
    /\ x = violation_for lib latest_data s lo hi value.
Proof.
  revert violations.
  induction thresholds as [|[s rule] th IH]; cbn [collect_violations];
    intros violations.
  - intros [= <-]. split; [by intros ?%elem_of_nil|].
    by intros (? & ? & ? & ? & ?%elem_of_nil & _).
  - case_decide; [done|].
    destruct (dict_get s (row_cells latest_data)) as [cell_value|] eqn:Hget.
    + destruct rule as [[lo|] [hi|]]; cbn [rule_min rule_max]; try done.
      cbn [mbind option_bind].
      destruct (collect_violations lib latest_data th) as [vs|] eqn:Hrec; [|done].
      cbn [mbind option_bind]. intros [= <-].
      rewrite elem_of_app, (IH vs eq_refl). split.
      * intros [Hx|(s' & lo' & hi' & v & Hin & Hget' & Hout & ->)].
        -- destruct cell_value as [value|]; [|by apply elem_of_nil in Hx].
           destruct (bool_decide (value < lo)%R) eqn:E1;
             destruct (bool_decide (value > hi)%R) eqn:E2; simpl in Hx;
             try (by apply elem_of_nil in Hx);
             apply list_elem_of_singleton in Hx; subst x;
             exists s, lo, hi, value; (split; [left|]); (split; [done|]);
             (split; [|done]).
           ++ left. by apply bool_decide_eq_true_1 in E1.
           ++ left. by apply bool_decide_eq_true_1 in E1.
           ++ right. by apply bool_decide_eq_true_1 in E2.
        -- exists s', lo', hi', v. split; [by right|done].
      * intros (s' & lo' & hi' & v & Hin & Hget' & Hout & ->).
        apply elem_of_cons in Hin as [[= -> -> ->]|Hin].
        -- left. rewrite Hget in Hget'. injection Hget' as ->.
           destruct Hout as [Hlt|Hgt].
           ++ rewrite (bool_decide_eq_true_2 _ Hlt). simpl. left.
           ++ rewrite (bool_decide_eq_true_2 _ Hgt), orb_true_r. left.
        -- right. by exists s', lo', hi', v.
    + cbn [mbind option_bind].
      destruct (collect_violations lib latest_data th) as [vs|] eqn:Hrec; [|done].
      cbn [mbind option_bind app]. intros [= <-]. rewrite (IH vs eq_refl). split.
      * intros (s' & lo' & hi' & v & Hin & Hrest). exists s', lo', hi', v.
        split; [by right|done].
      * intros (s' & lo' & hi' & v & Hin & Hget' & Hrest).
        apply elem_of_cons in Hin as [[= -> _]|Hin]; [congruence|].
        by exists s', lo', hi', v.
Qed.

Lemma iloc_last_is_Some (df : DataFrame) :
  df_empty df = false -> is_Some (iloc_last df).
Proof.
  unfold df_empty, iloc_last, iloc, nrows. intros Hne%Nat.eqb_neq.
  destruct (lookup_lt_is_Some_2 (timestamp df) (length (timestamp df) - 1))
    as [ts ->]; [lia|]. by eexists.
Qed.

(** What [check_thresholds] returns for a well-formed rule set: the
    violations of the latest row, rule by rule. *)
Lemma check_thresholds_elem (lib : Lib) (self : PredictiveAnalytics) (df : DataFrame)
    (machine_id : Z) (latest_data : Row) (x : Violation) :
  df_empty df = false ->
  iloc_last df = Some latest_data ->
  well_formed_rules (applicable_thresholds self machine_id) ->
  x ∈ check_thresholds lib self df machine_id <->
  exists s lo hi value,
    (s, {| rule_min := Some lo; rule_max := Some hi |})
      ∈ applicable_thresholds self machine_id
    /\ dict_get s (row_cells latest_data) = Some (Some value)
    /\ ((value < lo)%R \/ (value > hi)%R)
    /\ x = violation_for lib latest_data s lo hi value.
Proof.
  intros Hne Hrow Hwf. unfold check_thresholds. rewrite Hne, Hrow.
  fold (applicable_thresholds self machine_id).
  destruct (collect_violations_total lib latest_data _ Hwf) as [vs Hvs].
  rewrite Hvs. simpl. by apply collect_violations_elem.
Qed.

(** Every violation is the violation of a rule of the applicable set. *)
Lemma check_thresholds_rule (lib : Lib) (self : PredictiveAnalytics) (df : DataFrame)
    (machine_id : Z) (x : Violation) :
  x ∈ check_thresholds lib self df machine_id ->
  exists lo hi,
    (v_sensor_type x, {| rule_min := Some lo; rule_max := Some hi |})
      ∈ applicable_thresholds self machine_id
    /\ ((v_value x < lo)%R \/ (v_value x > hi)%R).
Proof.
  unfold check_thresholds. destruct (df_empty df); [by intros ?%elem_of_nil|].
  destruct (iloc_last df) as [latest_data|]; [|by intros ?%elem_of_nil].
  fold (applicable_thresholds self machine_id).
  destruct (collect_violations lib latest_data _) as [vs|] eqn:Hvs;
    [|by intros ?%elem_of_nil].
  simpl. rewrite (collect_violations_elem lib _ _ _ _ Hvs).
  intros (s & lo & hi & value & Hin & _ & Hout & ->). by exists lo, hi.
Qed.

(** C1 (amended): a value outside the configured bounds of a rule raises
    a configured-bounds violation on both paths, and the severity follows
    the path; every product is the rounded product of floats.
    Ingestion ([check_sensor_thresholds], both bounds set): above the
    maximum [high] when the value exceeds the product of the maximum
    and 1.2, else [medium]; below the minimum always [medium].
    Analytics ([check_thresholds], latest row, every rule with its two
    bounds and none keyed [timestamp]): [high] when the value is below
    the product of the minimum and 0.5 or above the product of the
    maximum and 1.5, else [medium]. *)
Theorem configured_bounds_violation (lib : Lib) :
  (forall (sensor : Sensor) (value lo hi : R) (session : list Alert),
     min_value sensor = Some lo -> max_value sensor = Some hi ->
     ((value > hi)%R ->
      {| alert_machine_id := sensor_machine_id sensor;
         alert_sensor_id := sensor_id sensor;
         alert_type := threshold_violation;
         alert_severity :=
           if bool_decide (value > fmul lib hi 1.2)%R then high else medium |}
      ∈ check_sensor_thresholds lib sensor value session)
     /\ ((value < lo)%R ->
         {| alert_machine_id := sensor_machine_id sensor;
            alert_sensor_id := sensor_id sensor;
            alert_type := threshold_violation;
            alert_severity := medium |}
         ∈ check_sensor_thresholds lib sensor value session))
  /\ (forall (self : PredictiveAnalytics) (df : DataFrame) (machine_id : Z)
        (latest_data : Row) (s : string) (lo hi : R) (value : R),
        df_empty df = false ->
        iloc_last df = Some latest_data ->
        well_formed_rules (applicable_thresholds self machine_id) ->
        (s, {| rule_min := Some lo; rule_max := Some hi |})
          ∈ applicable_thresholds self machine_id ->
        dict_get s (row_cells latest_data) = Some (Some value) ->
        (value < lo)%R \/ (value > hi)%R ->
        {| v_sensor_type := s;
           v_value := value;
           threshold_min := lo;
           threshold_max := hi;
           v_severity :=
             if (bool_decide (value < fmul lib lo 0.5)%R
                 || bool_decide (value > fmul lib hi 1.5)%R)%bool
             then high else medium;
           v_timestamp := row_timestamp latest_data |}
        ∈ check_thresholds lib self df machine_id).
Proof.
  split.
  - apply check_sensor_thresholds_configured.
  - intros self df machine_id latest_data s lo hi value Hne Hrow Hwf Hin Hget Hout.
    apply (check_thresholds_elem lib self df machine_id latest_data _ Hne Hrow Hwf).
    by exists s, lo, hi, value.
Qed.

Lemma applicable_thresholds_init (w : World) (machine_id : Z) :
  applicable_thresholds (PredictiveAnalytics_init w) machine_id = default_thresholds.
Proof. unfold applicable_thresholds. simpl. by rewrite lookup_empty. Qed.

Lemma default_thresholds_well_formed : well_formed_rules default_thresholds.
Proof.
  unfold well_formed_rules, default_thresholds.
  repeat (constructor; [cbn [fst snd rule_min rule_max];
                        split; [discriminate|split; by eexists]|]).
  constructor.
Qed.

Lemma configured_bounds_violation_witness :
  {| alert_machine_id := 1; alert_sensor_id := 7;
     alert_type := threshold_violation;
     alert_severity :=
       if bool_decide (100 > fmul reference_lib 80 1.2)%R then high else medium |}
  ∈ check_sensor_thresholds reference_lib temperature_sensor 100 []
  /\ {| v_sensor_type := "temperature"; v_value := 130;
        threshold_min := -10; threshold_max := 80;
        v_severity :=
          if (bool_decide (130 < fmul reference_lib (-10) 0.5)%R
              || bool_decide (130 > fmul reference_lib 80 1.5)%R)%bool
          then high else medium;
        v_timestamp := 0 |}
     ∈ check_thresholds reference_lib (PredictiveAnalytics_init no_models)
         (one_temperature 130) 1.
Proof.
  destruct (configured_bounds_violation reference_lib) as [Hiot Hengine]. split.
  - apply (Hiot temperature_sensor 100%R (-10)%R 80%R [] eq_refl eq_refl). lra.
  - apply (Hengine (PredictiveAnalytics_init no_models) (one_temperature 130) 1
             {| row_timestamp := 0; row_cells := [("temperature", Some 130%R)] |}
             "temperature" (-10)%R 80%R 130%R).
    + reflexivity.
    + reflexivity.
    + rewrite applicable_thresholds_init. apply default_thresholds_well_formed.
    + rewrite applicable_thresholds_init. left.
    + reflexivity.
    + right. lra.
Defined.

(** C1 as stated fails on both paths.  With the bounds -10 and 80, the
    analytics path grades 100 as [medium] although 100 exceeds
    [80 * 1.2], and the ingestion path grades -15 as [medium] although
    it lies below [-10 * 1.2]. *)
Lemma configured_bounds_counterexample :
  check_thresholds reference_lib (PredictiveAnalytics_init no_models) (one_temperature 100) 1
  = [ {| v_sensor_type := "temperature"; v_value := 100;
         threshold_min := -10; threshold_max := 80;
         v_severity := medium; v_timestamp := 0 |} ]
  /\ (100 > 80 * 1.2)%R
  /\ check_sensor_thresholds reference_lib temperature_sensor (-15) []
     = [ {| alert_machine_id := 1; alert_sensor_id := 7;
            alert_type := threshold_violation; alert_severity := medium |} ]
  /\ (-15 < -10 * 1.2)%R.
Proof.
  split; [|split; [lra|split; [|lra]]].
  - unfold check_thresholds. simpl. rewrite lookup_empty. simpl.
    rdecide. reflexivity.
  - unfold check_sensor_thresholds, check_critical_thresholds. simpl.
    rdecide. reflexivity.
Qed.

(** A reading of 95 against the bounds -10 and 80 is a [medium]
    violation on both paths, and no critical one: 95 is below
    [80 * 1.2], below [80 * 1.5] and below 120. *)
Lemma spike_is_medium :
  check_sensor_thresholds reference_lib temperature_sensor 95 []
  = [ {| alert_machine_id := 1; alert_sensor_id := 7;
         alert_type := threshold_violation; alert_severity := medium |} ]
  /\ check_thresholds reference_lib (PredictiveAnalytics_init no_models) (one_temperature 95) 1
     = [ {| v_sensor_type := "temperature"; v_value := 95;
            threshold_min := -10; threshold_max := 80;
            v_severity := medium; v_timestamp := 0 |} ].
Proof.
  split.
  - unfold check_sensor_thresholds, check_critical_thresholds. simpl.
    rdecide. reflexivity.
  - unfold check_thresholds. simpl. rewrite lookup_empty. simpl.
    rdecide. reflexivity.
Qed.

(** C10: with an override stored for a machine, the check looks only at
    the sensor types of the override.  Every violation it reports is for
    a key of the override, so a sensor type that the override does not
    list, canonical or not, gets no violation whatever its value; and
    [set_threshold_rules] stores exactly the override it is given. *)
Theorem override_replaces_defaults (lib : Lib) (self : PredictiveAnalytics) (machine_id : Z)
    (override : dict Rule) (df : DataFrame) :
  threshold_rules (set_threshold_rules self machine_id override) !! machine_id
  = Some override
  /\ (threshold_rules self !! machine_id = Some override ->
      Forall (fun x => v_sensor_type x ∈ dict_keys override)
        (check_thresholds lib self df machine_id)
      /\ forall s, s ∉ dict_keys override ->
           Forall (fun x => v_sensor_type x <> s) (check_thresholds lib self df machine_id)).
Proof.
  split; [apply lookup_insert_eq|].
  intros Hrule.
  assert (Hkeys : Forall (fun x => v_sensor_type x ∈ dict_keys override)
                    (check_thresholds lib self df machine_id)).
  { apply Forall_forall. intros x Hx.
    destruct (check_thresholds_rule lib self df machine_id x Hx) as (lo & hi & Hin & _).
    unfold applicable_thresholds in Hin. rewrite Hrule in Hin. simpl in Hin.
    unfold dict_keys. apply list_elem_of_fmap.
    by exists (v_sensor_type x, {| rule_min := Some lo; rule_max := Some hi |}). }
  split; [exact Hkeys|].
  intros s Hs. eapply Forall_impl; [exact Hkeys|].
  simpl. intros x Hx Heq. apply Hs. by rewrite <- Heq.
Qed.

Lemma override_replaces_defaults_witness :
  Forall (fun x => v_sensor_type x <> "humidity")
    (check_thresholds reference_lib
       (set_threshold_rules (PredictiveAnalytics_init no_models) 1 tight_rules)
       humid_frame 1).
Proof.
  refine (proj2 (proj2 (override_replaces_defaults reference_lib
            (set_threshold_rules (PredictiveAnalytics_init no_models) 1 tight_rules)
            1 tight_rules humid_frame) _) "humidity" _).
  - apply lookup_insert_eq.
  - unfold tight_rules. simpl. rewrite not_elem_of_cons.
    split; [discriminate|apply not_elem_of_nil].
Defined.

(** ** Preprocessing *)

(** The pivot orders the rows by timestamp and the columns by name, and
    fills each gap from the last known value, or from the next one at
    the head of a column. *)
Lemma preprocess_gappy_readings :
  preprocess_sensor_data reference_lib gappy_readings
  = {| timestamp := [0; 10; 20];
       columns := [("humidity", [Some 5%R; Some 5%R; Some 5%R]);
                   ("temperature", [Some 1%R; Some 1%R; Some 3%R])] |}.
Proof.
  unfold preprocess_sensor_data.
  change (to_datetime reference_lib (map rd_timestamp gappy_readings))
    with (Some [Some 20; Some 10; Some 0]).
  unfold gappy_readings, pivot_table, stamp. simpl.
  unfold pivot_cell. simpl. unfold bfill, ffill. simpl.
  unfold reverse. simpl. unfold exact_mean, Rsum. simpl. repeat f_equal; lra.
Qed.

(** ** The threshold-configuration route *)

(** The route leaves the process state as it found it. *)
Lemma set_machine_thresholds_world (w : World) (machine_id : Z)
    (thresholds : option (dict Rule)) :
  fst (set_machine_thresholds w machine_id thresholds) = w.
Proof.
  unfold set_machine_thresholds.
  case_bool_decide; [|done]. by destruct thresholds as [[|]|].
Qed.

(** An analysis after a configuration write is the analysis without it. *)
Lemma analyze_after_set_machine_thresholds (lib : Lib) (w : World) (now machine_id : Z)
    (thresholds : option (dict Rule)) (sensor_readings : list Reading) :
  analyze_machine_health lib (fst (set_machine_thresholds w machine_id thresholds))
    now machine_id sensor_readings
  = analyze_machine_health lib w now machine_id sensor_readings.
Proof. by rewrite set_machine_thresholds_world. Qed.

Lemma preprocess_hot_reading :
  preprocess_sensor_data reference_lib hot_reading = one_temperature 70.
Proof.
  unfold preprocess_sensor_data.
  change (to_datetime reference_lib (map rd_timestamp hot_reading))
    with (Some [Some 0]).
  unfold hot_reading, one_temperature, pivot_table, stamp. simpl.
  unfold pivot_cell. simpl.
  unfold bfill, ffill. simpl. unfold exact_mean, Rsum. simpl.
  replace ((70 + 0) / 1)%R with 70%R by lra. reflexivity.
Qed.

(** C2, the code at the failing input: the route accepts the rule
    temperature in [0, 60] for machine 1 and answers 200; the analysis of
    a reading of 70 that follows reports no threshold violation and the
    status [healthy], because it runs on a fresh engine with the built-in
    bounds; an engine holding the rule reports the violation. *)
Theorem threshold_write_is_lost :
  let after := set_machine_thresholds no_models 1 (Some tight_rules) in
  snd after = 200
  /\ analyze_machine_health reference_lib (fst after) 5 1 hot_reading
     = success {| ha_machine_id := 1;
                  health_status := healthy;
                  failure_prediction := neutral_prediction;
                  anomalies := [];
                  threshold_violations := [];
                  analysis_timestamp := 5 |}
  /\ check_thresholds reference_lib
       (set_threshold_rules (PredictiveAnalytics_init no_models) 1 tight_rules)
       (preprocess_sensor_data reference_lib hot_reading) 1
     = [ {| v_sensor_type := "temperature"; v_value := 70;
            threshold_min := 0; threshold_max := 60;
            v_severity := medium; v_timestamp := 0 |} ].
Proof.
  intros after. subst after. split; [reflexivity|]. split.
  - rewrite set_machine_thresholds_world.
    unfold analyze_machine_health. rewrite preprocess_hot_reading. simpl.
    unfold check_thresholds. simpl. rewrite lookup_empty. simpl.
    rdecide. simpl. reflexivity.
  - rewrite preprocess_hot_reading.
    unfold check_thresholds. simpl. rewrite lookup_insert_eq. simpl.
    rdecide. reflexivity.
Qed.

(** ** Feature builder *)

Ltac str_ne := let H := fresh in intros H; vm_compute in H; discriminate H.

Lemma add_channel_features_other (lib : Lib) (col k : string) (d : dict (list cell)) :
  k ∉ derived_names col ->
  dict_get k (add_channel_features lib col d) = dict_get k d.
Proof.
  unfold derived_names. rewrite !not_elem_of_cons.
  intros (H1 & H2 & H3 & H4 & _). unfold add_channel_features.
  destruct (dict_get col d) as [c|]; [|done].
  destruct (cell_gt (series_std lib c) 0);
    rewrite !dict_get_set_ne by congruence; done.
Qed.

Ltac not_derived :=
  unfold derived_names;
  repeat (apply not_elem_of_cons; split; [str_ne|]); apply not_elem_of_nil.

Lemma append_inj_l (s a b : string) : s +:+ a = s +:+ b -> a = b.
Proof. induction s as [|ch s IH]; simpl; [done|]. intros [= H]. auto. Qed.

Lemma add_channel_features_derived (lib : Lib) (col : string) (c : list cell)
    (d : dict (list cell)) :
  dict_get col d = Some c ->
  dict_get (col +:+ "_rolling_mean") (add_channel_features lib col d) = Some (rolling_mean lib c)
  /\ dict_get (col +:+ "_rolling_std") (add_channel_features lib col d) = Some (rolling_std lib c)
  /\ dict_get (col +:+ "_rate_of_change") (add_channel_features lib col d) = Some (diff lib c)
  /\ dict_get (col +:+ "_zscore") (add_channel_features lib col d) = Some (zscore_column lib c).
Proof.
  intros Hc.
  unfold add_channel_features, zscore_column. rewrite Hc.
  destruct (cell_gt (series_std lib c) 0);
    repeat split;
    repeat first [ rewrite dict_get_set_eq
                 | rewrite dict_get_set_ne by (intros ?%append_inj_l; discriminate) ];
    done.
Qed.

Lemma fillna0_get (k : string) (d : dict (list cell)) :
  dict_get k (fillna0 d)
  = map (fun x => Some (default 0%R x)) <$> dict_get k d.
Proof.
  induction d as [|[k' c] d IH]; simpl; [done|].
  destruct (decide (k' = k)); [done|exact IH].
Qed.

Lemma fillna0_no_nan (d : dict (list cell)) :
  Forall (fun col => Forall is_Some (snd col)) (fillna0 d).
Proof.
  unfold fillna0. apply Forall_forall. intros [k c] Hin.
  apply list_elem_of_fmap in Hin as ([k' c'] & [= -> ->] & _). simpl.
  apply Forall_forall. intros x Hx.
  apply list_elem_of_fmap in Hx as (y & -> & _). by eexists.
Qed.

(** The derived columns of a channel in the output of [create_features]. *)
Lemma create_features_channel (lib : Lib) (df : DataFrame) (channel : string) (c : list cell) :
  df_empty df = false ->
  channel ∈ feature_columns ->
  dict_get channel (columns df) = Some c ->
  let out := columns (create_features lib df) in
  let fill := map (fun x : cell => Some (default 0%R x)) in
  dict_get (channel +:+ "_rolling_mean") out = Some (fill (rolling_mean lib c))
  /\ dict_get (channel +:+ "_rolling_std") out = Some (fill (rolling_std lib c))
  /\ dict_get (channel +:+ "_rate_of_change") out = Some (fill (diff lib c))
  /\ dict_get (channel +:+ "_zscore") out = Some (fill (zscore_column lib c)).
Proof.
  intros Hne Hch Hc out fill. subst out. unfold create_features. rewrite Hne.
  cbn [columns]. rewrite !fillna0_get. unfold feature_columns in *. cbn [fold_left].
  rewrite !elem_of_cons, elem_of_nil in Hch.
  destruct Hch as [->|[->|[->|[->|[]]]]].
  - rewrite !((add_channel_features_other lib) "vibration"),
            !((add_channel_features_other lib) "tension"),
            !((add_channel_features_other lib) "humidity");
      try not_derived.
    destruct ((add_channel_features_derived lib) "temperature" c (columns df) Hc)
      as (-> & -> & -> & ->). done.
  - rewrite !((add_channel_features_other lib) "vibration"),
            !((add_channel_features_other lib) "tension");
      try not_derived.
    assert (Hc' : dict_get "humidity" (add_channel_features lib "temperature" (columns df))
                  = Some c).
    { rewrite (add_channel_features_other lib); [done|].
      not_derived. }
    destruct ((add_channel_features_derived lib) "humidity" c _ Hc')
      as (-> & -> & -> & ->). done.
  - rewrite !((add_channel_features_other lib) "vibration");
      try not_derived.
    assert (Hc' : dict_get "tension"
                    (add_channel_features lib "humidity"
                       (add_channel_features lib "temperature" (columns df)))
                  = Some c).
    { rewrite !(add_channel_features_other lib); [done| |];
      not_derived. }
    destruct ((add_channel_features_derived lib) "tension" c _ Hc')
      as (-> & -> & -> & ->). done.
  - assert (Hc' : dict_get "vibration"
                    (add_channel_features lib "tension"
                       (add_channel_features lib "humidity"
                          (add_channel_features lib "temperature" (columns df))))
                  = Some c).
    { rewrite !(add_channel_features_other lib); [done| | |];
      not_derived. }
    destruct ((add_channel_features_derived lib) "vibration" c _ Hc')
      as (-> & -> & -> & ->). done.
Qed.

Lemma series_mean_observations (lib : Lib) (c : list cell) :
  series_mean lib c
  = match observations c with [] => None | _ => Some (Spec.mean lib (observations c)) end.
Proof. reflexivity. Qed.

Lemma series_std_observations (lib : Lib) (c : list cell) :
  series_std lib c
  = if Nat.leb 2 (length (observations c))
    then Some (Spec.sample_std lib (observations c)) else None.
Proof.
  unfold series_std. rewrite (series_mean_observations lib).
  destruct (observations c) as [|x [|y xs]]; reflexivity.
Qed.

(** The z-score column after [fillna(0)], cell by cell. *)
Lemma zscore_column_cells (lib : Lib) (c : list cell) :
  map (fun x : cell => Some (default 0%R x)) (zscore_column lib c)
  = map (Spec.zscore_cell lib (Spec.sample_std lib) (observations c)) c.
Proof.
  unfold zscore_column. rewrite (series_std_observations lib), (series_mean_observations lib).
  unfold Spec.zscore_cell.
  destruct (Nat.leb 2 (length (observations c))) eqn:Hlen; simpl.
  - destruct (observations c) as [|x0 xs] eqn:Hobs; [done|].
    destruct (bool_decide (Spec.sample_std lib (x0 :: xs) > 0)%R) eqn:Hstd.
    + rewrite map_map. apply map_ext. by intros [x|].
    + rewrite map_map. apply map_ext. by intros [x|].
  - rewrite map_map. apply map_ext. by intros [x|].
Qed.

Lemma rolling_std_length (lib : Lib) (c : list cell) : length (rolling_std lib c) = length c.
Proof. unfold rolling_std. by rewrite length_map, length_seq. Qed.

Lemma rolling_mean_length (lib : Lib) (c : list cell) : length (rolling_mean lib c) = length c.
Proof. unfold rolling_mean. by rewrite length_map, length_seq. Qed.

Lemma diff_length (lib : Lib) (c : list cell) : length (diff lib c) = length c.
Proof. unfold diff. by rewrite length_map, length_seq. Qed.

Lemma zscore_column_length (lib : Lib) (c : list cell) : length (zscore_column lib c) = length c.
Proof. unfold zscore_column. destruct (cell_gt _ _); by rewrite length_map. Qed.

Lemma rolling_std_lookup (lib : Lib) (c : list cell) (i : nat) :
  (i < length c)%nat ->
  rolling_std lib c !! i
  = Some (if Nat.ltb (length (observations (window10 c i))) 2 then None
          else Some (rolling_std_at lib c i)).
Proof.
  intros Hi. unfold rolling_std.
  change (map ?f ?l) with (f <$> l).
  rewrite list_lookup_fmap, lookup_seq_lt by done. reflexivity.
Qed.

Lemma diff_first (lib : Lib) (c : list cell) : c <> [] -> diff lib c !! 0%nat = Some None.
Proof. destruct c; [done|]. reflexivity. Qed.

(** C4 (amended): for a non-empty frame and a canonical channel it has,
    with column [c], the z-score column holds, for every cell with a
    value, the float quotient of [value - mean] by [std], where [mean]
    and [std] are the mean and the sample standard deviation
    (denominator [n - 1]) of all the observations of the channel as the
    float operations compute them, and 0 in every row when the channel
    has fewer than two observations or that computed deviation is not
    positive; the rolling deviation is 0 in every row whose window has
    fewer than two observations, the first row among them; the first
    rate of change is 0; both columns are as long as the channel; and no
    cell of the output is missing. *)
Theorem feature_builder_columns (lib : Lib) (df : DataFrame) (channel : string) (c : list cell) :
  df_empty df = false ->
  channel ∈ feature_columns ->
  dict_get channel (columns df) = Some c ->
  let out := columns (create_features lib df) in
  dict_get (channel +:+ "_zscore") out
  = Some (map (Spec.zscore_cell lib (Spec.sample_std lib) (observations c)) c)
  /\ ((length (observations c) < 2)%nat
      \/ ~ (Spec.sample_std lib (observations c) > 0)%R ->
      dict_get (channel +:+ "_zscore") out = Some (map (fun _ => Some 0%R) c))
  /\ (exists rolling,
        dict_get (channel +:+ "_rolling_std") out = Some rolling
        /\ length rolling = length c
        /\ (forall i, (i < length c)%nat ->
                      (length (observations (window10 c i)) < 2)%nat ->
                      rolling !! i = Some (Some 0%R))
        /\ (c <> [] -> rolling !! 0%nat = Some (Some 0%R)))
  /\ (exists rate,
        dict_get (channel +:+ "_rate_of_change") out = Some rate
        /\ length rate = length c
        /\ (c <> [] -> rate !! 0%nat = Some (Some 0%R)))
  /\ Forall (fun col => Forall is_Some (snd col)) out.
Proof.
  intros Hne Hch Hc out.
  destruct ((create_features_channel lib) df channel c Hne Hch Hc) as (_ & Hstd & Hroc & Hz).
  fold out in Hstd, Hroc, Hz.
  assert (Hroll : forall i, (i < length c)%nat ->
                    (length (observations (window10 c i)) < 2)%nat ->
                    map (fun x : cell => Some (default 0%R x)) (rolling_std lib c) !! i
                    = Some (Some 0%R)).
  { intros i Hi Hobs. change (map ?f ?l) with (f <$> l).
    rewrite list_lookup_fmap, (rolling_std_lookup lib) by done.
    apply Nat.ltb_lt in Hobs. by rewrite Hobs. }
  split; [by rewrite Hz, (zscore_column_cells lib)|]. split; [|split; [|split]].
  - intros Hzero. rewrite Hz, (zscore_column_cells lib). f_equal.
    apply map_ext. intros x. unfold Spec.zscore_cell.
    destruct Hzero as [Hfew|Hzero].
    + apply Nat.leb_gt in Hfew. rewrite Hfew. by destruct x.
    + rewrite (bool_decide_eq_false_2 _ Hzero), andb_false_r. by destruct x.
  - eexists. split; [exact Hstd|]. split; [by rewrite length_map, (rolling_std_length lib)|].
    split; [exact Hroll|].
    intros Hc0. apply Hroll.
    + destruct c; [done|simpl; lia].
    + unfold window10. destruct c as [|[x|] c']; [done| |]; simpl; lia.
  - eexists. split; [exact Hroc|]. split; [by rewrite length_map, (diff_length lib)|].
    intros Hc0. change (map ?f ?l) with (f <$> l).
    by rewrite list_lookup_fmap, (diff_first lib).
  - subst out. unfold create_features. rewrite Hne. apply fillna0_no_nan.
Qed.

Lemma mean_0_2_4 : Spec.mean reference_lib [0; 2; 4]%R = 2%R.
Proof. unfold Spec.mean. simpl. lra. Qed.

Lemma squared_deviations_0_2_4 : Spec.squared_deviations reference_lib [0; 2; 4]%R = 8%R.
Proof. unfold Spec.squared_deviations. rewrite mean_0_2_4. simpl. lra. Qed.

Lemma sample_std_0_2_4 : Spec.sample_std reference_lib [0; 2; 4]%R = 2%R.
Proof.
  unfold Spec.sample_std. rewrite squared_deviations_0_2_4. simpl.
  replace (8 / (1 + 1))%R with (2 * 2)%R by lra.
  apply sqrt_square. lra.
Qed.

Lemma population_std_0_2_4 :
  (Spec.population_std reference_lib [0; 2; 4] * Spec.population_std reference_lib [0; 2; 4] = 8 / 3)%R.
Proof.
  unfold Spec.population_std. rewrite squared_deviations_0_2_4. simpl.
  rewrite sqrt_sqrt; lra.
Qed.

Lemma zscore_three_temperatures :
  dict_get "temperature_zscore" (columns (create_features reference_lib three_temperatures))
  = Some [Some (-1)%R; Some 0%R; Some 1%R].
Proof.
  destruct ((create_features_channel reference_lib) three_temperatures "temperature"
              [Some 0%R; Some 2%R; Some 4%R]) as (_ & _ & _ & Hz);
    [reflexivity|unfold feature_columns; left|reflexivity|].
  change ("temperature" +:+ "_zscore") with "temperature_zscore" in Hz.
  rewrite Hz, (zscore_column_cells reference_lib).
  change (observations [Some 0%R; Some 2%R; Some 4%R]) with [0; 2; 4]%R.
  unfold Spec.zscore_cell. cbn [map].
  rewrite sample_std_0_2_4, mean_0_2_4. cbn [length Nat.leb andb].
  rdecide. unfold Spec.zscore. simpl.
  repeat f_equal; lra.
Qed.

Lemma feature_builder_columns_witness :
  dict_get "temperature_zscore" (columns (create_features reference_lib three_temperatures))
  = Some (map (Spec.zscore_cell reference_lib (Spec.sample_std reference_lib) [0; 2; 4]%R)
            [Some 0%R; Some 2%R; Some 4%R]).
Proof.
  apply ((feature_builder_columns reference_lib) three_temperatures "temperature"
           [Some 0%R; Some 2%R; Some 4%R]).
  - reflexivity.
  - unfold feature_columns. left.
  - reflexivity.
Defined.

(** C4 as stated fails: for the temperatures 0, 2 and 4 the code's
    z-scores are -1, 0 and 1 (sample deviation 2), while the z-scores
    against the population deviation are not. *)
Lemma population_zscore_counterexample :
  dict_get "temperature_zscore" (columns (create_features reference_lib three_temperatures))
  = Some [Some (-1)%R; Some 0%R; Some 1%R]
  /\ map (Spec.zscore_cell reference_lib (Spec.population_std reference_lib) [0; 2; 4]%R)
       [Some 0%R; Some 2%R; Some 4%R]
     <> [Some (-1)%R; Some 0%R; Some 1%R].
Proof.
  split; [exact zscore_three_temperatures|].
  unfold Spec.zscore_cell. cbn [map length Nat.leb andb].
  rewrite mean_0_2_4. unfold Spec.zscore. cbn [fdiv fsub reference_lib].
  pose proof population_std_0_2_4 as Hsq.
  set (s := Spec.population_std reference_lib [0; 2; 4]%R) in *.
  case_bool_decide as Hpos; intros [= H0 ?]; [|lra].
  assert (Hs : s = 2%R).
  { apply (Rmult_eq_compat_r s) in H0. unfold Rdiv in H0.
    rewrite Rmult_assoc, Rinv_l in H0 by lra. lra. }
  rewrite Hs in Hsq. lra.
Qed.

(** ** Anomaly detector *)

Ltac rabs :=
  repeat match goal with
         | |- context [Rabs ?x] =>
             first [ rewrite (Rabs_right x) by lra | rewrite (Rabs_left x) by lra ]
         end.

Lemma create_features_one_temperature (lib : Lib) (value : R) :
  create_features lib (one_temperature value)
  = {| timestamp := [0];
       columns :=
         [("temperature", [Some value]);
          ("temperature_rolling_mean", [Some (rolling_mean_at lib [Some value] 0)]);
          ("temperature_rolling_std", [Some 0%R]);
          ("temperature_rate_of_change", [Some 0%R]);
          ("temperature_zscore", [Some 0%R])] |}.
Proof.
  unfold create_features. simpl.
  unfold add_channel_features. simpl. reflexivity.
Qed.

(** C3, the code at the failing input: a single flagged row whose
    temperature is 25 has the z-score 0, and no feature of it is an
    absolute z-score above 2; the detector still reports temperature as
    affected, because it compares the raw feature values with 2. *)
Theorem affected_sensors_compare_raw_values :
  dict_get "temperature_zscore" (columns (create_features reference_lib (one_temperature 25)))
  = Some [Some 0%R]
  /\ detect_anomalies reference_lib flagging_engine (one_temperature 25)
     = [ {| anomaly_index := 0;
            anomaly_timestamp := 0;
            anomaly_score := -0.2;
            anomaly_severity := medium;
            affected_sensors := ["temperature"] |} ].
Proof.
  split.
  - by rewrite (create_features_one_temperature reference_lib).
  - unfold detect_anomalies. simpl anomaly_model. simpl scaler. cbv iota beta.
    simpl df_empty. cbv iota.
    rewrite (create_features_one_temperature reference_lib). simpl.
    unfold _calculate_severity, _identify_affected_sensors. simpl.
    rabs. rdecide. simpl. by case_bool_decide.
Qed.

(** ** What the affected-sensor scan computes *)

Lemma scan_features_elem (data_row : Row) (sensor : string)
    (sensor_features : list string) (affected : list string) (x : string) :
  x ∈ fold_left
        (fun affected_sensors feature =>
           match dict_get feature (row_cells data_row) with
           | Some value =>
               if cell_gt (Rabs <$> value) 2
               then if bool_decide (sensor ∈ affected_sensors)
                    then affected_sensors
                    else affected_sensors ++ [sensor]
               else affected_sensors
           | None => affected_sensors
           end)
        sensor_features affected
  <-> x ∈ affected
      \/ (x = sensor /\ exists feature, feature ∈ sensor_features
                                        /\ extreme_feature data_row feature).
Proof.
  revert affected.
  induction sensor_features as [|f fs IH]; intros affected; cbn [fold_left].
  - split; [by left|]. intros [?|(_ & ? & ?%elem_of_nil & _)]; done.
  - rewrite IH. clear IH. unfold extreme_feature.
    setoid_rewrite elem_of_cons.
    destruct (dict_get f (row_cells data_row)) as [[v|]|] eqn:Hf; simpl;
      repeat case_bool_decide;
      rewrite ?elem_of_app, ?list_elem_of_singleton;
      (split; [intros [?|(-> & g & Hg & v' & Hv' & Habs)]
              |intros [?|(-> & g & [->|Hg] & v' & Hv' & Habs)]]);
      try (rewrite Hf in Hv'; injection Hv' as <-);
      try (rewrite Hf in Hv'; discriminate Hv');
      try done; intuition eauto 10.
Qed.

(** A channel is reported as affected exactly when one of the selected
    feature columns that carry its name has, in the row, a value above 2
    in absolute value: the raw reading, the rolling mean and deviation,
    the rate of change and the z-score all count. *)
Lemma identify_affected_sensors_elem (data_row : Row) (feature_cols : list string)
    (x : string) :
  x ∈ _identify_affected_sensors data_row feature_cols
  <-> x ∈ feature_columns
      /\ exists feature, feature ∈ feature_cols
                         /\ PyStr.contains x feature = true
                         /\ extreme_feature data_row feature.
Proof.
  unfold _identify_affected_sensors.
  assert (Hgen : forall sensors affected,
    x ∈ fold_left
          (fun affected_sensors sensor =>
             let sensor_features :=
               filter (fun col => PyStr.contains sensor col = true) feature_cols in
             fold_left
               (fun affected_sensors feature =>
                  match dict_get feature (row_cells data_row) with
                  | Some value =>
                      if cell_gt (Rabs <$> value) 2
                      then if bool_decide (sensor ∈ affected_sensors)
                           then affected_sensors
                           else affected_sensors ++ [sensor]
                      else affected_sensors
                  | None => affected_sensors
                  end)
               sensor_features affected_sensors)
          sensors affected
    <-> x ∈ affected
        \/ (x ∈ sensors
            /\ exists feature, feature ∈ feature_cols
                               /\ PyStr.contains x feature = true
                               /\ extreme_feature data_row feature)).
  { induction sensors as [|s ss IH]; intros affected; cbn [fold_left].
    - split; [by left|]. intros [?|(?%elem_of_nil & _)]; done.
    - rewrite IH. cbv zeta. rewrite scan_features_elem.
      split.
      + intros [[?|(-> & f & Hf & Hex)]|(Hin & Hex)].
        * by left.
        * right. split; [left|]. apply list_elem_of_filter in Hf as [Hc Hf].
          by exists f.
        * right. split; [by right|done].
      + intros [?|(Hin & f & Hf & Hc & Hex)].
        * left. by left.
        * apply elem_of_cons in Hin as [->|Hin].
          -- left. right. split; [done|]. exists f. split; [|done].
             by apply list_elem_of_filter.
          -- right. split; [done|]. by exists f. }
  rewrite Hgen. split.
  - intros [?%elem_of_nil|?]; done.
  - intros ?. by right.
Qed.

(** A reading above 2 in absolute value is enough for its channel to be
    reported, whatever the z-score of the row. *)
Lemma raw_reading_reports_channel (data_row : Row) (feature_cols : list string)
    (channel : string) (value : R) :
  channel ∈ feature_columns ->
  channel ∈ feature_cols ->
  dict_get channel (row_cells data_row) = Some (Some value) ->
  (Rabs value > 2)%R ->
  channel ∈ _identify_affected_sensors data_row feature_cols.
Proof.
  intros Hch Hcol Hget Habs. apply identify_affected_sensors_elem.
  split; [done|]. exists channel. split; [done|]. split.
  - apply contains_spec. exists EmptyString, EmptyString.
    simpl. by rewrite append_empty_r.
  - by exists value.
Qed.

(** ** Failure predictor *)

Lemma create_features_no_nan (lib : Lib) (df : DataFrame) (channel : string) (c : list cell) :
  df_empty df = false ->
  dict_get channel (columns (create_features lib df)) = Some c -> Forall is_Some c.
Proof.
  intros Hne Hc. unfold create_features in Hc. rewrite Hne in Hc. cbn [columns] in Hc.
  apply dict_get_In in Hc.
  pose proof (fillna0_no_nan
                (fold_left (fun feature_df col => add_channel_features lib col feature_df)
                   feature_columns (columns df))) as Hall.
  rewrite Forall_forall in Hall. exact (Hall _ Hc).
Qed.

Lemma tail_Forall {A} (P : A -> Prop) (n : nat) (l : list A) :
  Forall P l -> Forall P (tail n l).
Proof. unfold tail. apply Forall_drop. Qed.

Lemma polyfit_slope_is_Some (lib : Lib) (y : list cell) :
  Forall is_Some y -> is_Some (polyfit_slope lib y).
Proof.
  intros Hy. unfold polyfit_slope.
  assert (forallb (fun x : cell => bool_decide (is_Some x)) y = true) as ->.
  { apply forallb_forall. intros x Hx. apply bool_decide_eq_true_2.
    rewrite Forall_forall in Hy. apply Hy. by apply list_elem_of_In. }
  by eexists.
Qed.

(** The trailing items of a list are what [tail] keeps, the samples of
    a series are its observations when no cell is missing, and the
    trend of a channel is the slope the trend loop computes for it. *)
Lemma trailing_tail {A} (n : nat) (l : list A) : Spec.trailing n l = tail n l.
Proof.
  unfold Spec.trailing, tail.
  rewrite List.firstn_rev. apply rev_involutive.
Qed.


Lemma polyfit_slope_samples (lib : Lib) (y : list cell) :
  polyfit_slope lib y = polyfit1 lib <$> Spec.samples y.
Proof.
  unfold polyfit_slope.
  assert (Hs : Spec.samples y
               = if forallb (fun x : cell => bool_decide (is_Some x)) y
                 then Some (observations y) else None).
  { induction y as [|[x|] y IH]; [done| |done].
    cbn [Spec.samples forallb]. rewrite IH.
    rewrite bool_decide_eq_true_2 by (by eexists). cbn [andb].
    by destruct (forallb _ y). }
  rewrite Hs. by destruct (forallb _ y).
Qed.

Lemma trend_polyfit_slope (lib : Lib) (feature_data : DataFrame) (channel : string) :
  Spec.trend lib feature_data channel
  = c ← dict_get channel (columns feature_data);
    if Nat.ltb 1 (length (tail 20 c)) then polyfit_slope lib (tail 20 c) else None.
Proof.
  unfold Spec.trend. destruct (dict_get channel (columns feature_data)) as [c|]; [|done].
  cbn [mbind option_bind]. by rewrite trailing_tail, polyfit_slope_samples.
Qed.

(** The trend loop succeeds on a frame without missing cells, and the
    dictionary it builds holds the trend of each channel that has one. *)
Lemma compute_trends_spec (lib : Lib) (feature_data : DataFrame) (sensors : list string)
    (trends : dict R) :
  (forall ch c, dict_get ch (columns feature_data) = Some c -> Forall is_Some c) ->
  exists trends',
    compute_trends lib feature_data sensors trends = Some trends'
    /\ forall k,
         dict_get k trends'
         = if decide (k ∈ sensors)
           then match Spec.trend lib feature_data k with
                | Some slope => Some slope
                | None => dict_get k trends
                end
           else dict_get k trends.
Proof.
  intros Hnan. revert trends.
  induction sensors as [|s rest IH]; intros trends.
  - exists trends. split; [done|]. intros k.
    rewrite decide_False; [done|apply not_elem_of_nil].
  - cbn [compute_trends].
    assert (Hskip : Spec.trend lib feature_data s = None ->
              exists trends',
                compute_trends lib feature_data rest trends = Some trends'
                /\ forall k,
                     dict_get k trends'
                     = if decide (k ∈ s :: rest)
                       then match Spec.trend lib feature_data k with
                            | Some slope => Some slope
                            | None => dict_get k trends
                            end
                       else dict_get k trends).
    { intros Hs. destruct (IH trends) as (trends' & Hrun & Hget).
      exists trends'. split; [done|]. intros k. rewrite Hget.
      destruct (decide (k = s)) as [->|Hks].
      - rewrite (decide_True (P := s ∈ s :: rest)) by left. rewrite Hs.
        by destruct (decide (s ∈ rest)).
      - destruct (decide (k ∈ rest)) as [Hin|Hin].
        + rewrite decide_True by (by right). done.
        + rewrite decide_False; [done|]. rewrite not_elem_of_cons. done. }
    rewrite (trend_polyfit_slope lib) in Hskip.
    destruct (dict_get s (columns feature_data)) as [c|] eqn:Hc; [|by apply Hskip].
    simpl in Hskip.
    destruct (Nat.ltb 1 (length (tail 20 c))) eqn:Hlen; [|by apply Hskip].
    destruct ((polyfit_slope_is_Some lib) (tail 20 c)) as [slope Hslope];
      [apply tail_Forall; eauto|].
    rewrite Hslope. simpl.
    destruct (IH (dict_set s slope trends)) as (trends' & Hrun & Hget).
    exists trends'. split; [done|]. intros k. rewrite Hget.
    assert (Hts : Spec.trend lib feature_data s = Some slope).
    { rewrite (trend_polyfit_slope lib), Hc. simpl. by rewrite Hlen. }
    destruct (decide (k = s)) as [->|Hks].
    + rewrite (decide_True (P := s ∈ s :: rest)) by left. rewrite Hts.
      rewrite dict_get_set_eq. by destruct (decide (s ∈ rest)).
    + rewrite dict_get_set_ne by done.
      destruct (decide (k ∈ rest)) as [Hin|Hin].
      * rewrite decide_True by (by right). done.
      * rewrite decide_False; [done|]. rewrite not_elem_of_cons. done.
Qed.

Lemma compute_trends_feature_columns (lib : Lib) (df : DataFrame) :
  df_empty df = false ->
  exists trends,
    compute_trends lib (create_features lib df) feature_columns [] = Some trends
    /\ dict_get "temperature" trends = Spec.trend lib (create_features lib df) "temperature"
    /\ dict_get "vibration" trends = Spec.trend lib (create_features lib df) "vibration"
    /\ dict_get "humidity" trends = Spec.trend lib (create_features lib df) "humidity".
Proof.
  intros Hne.
  destruct ((compute_trends_spec lib) (create_features lib df) feature_columns [])
    as (trends & Hrun & Hget).
  { intros ch c. by apply (create_features_no_nan lib). }
  exists trends. split; [done|].
  rewrite !Hget. unfold feature_columns.
  rewrite !decide_True by set_solver.
  repeat split; by destruct (Spec.trend lib _ _).
Qed.



(** The probability is a fraction of at most 1, and the bands of the time
    to failure are bands of the indicator total: 8 points or more, 6 or
    7, 4 or 5, fewer. *)
Lemma failure_probability_bands (points : nat) :
  let p := Rmin (INR points / 10) 1 in
  (0 <= p <= 1)%R
  /\ ((p > 0.7)%R <-> (8 <= points)%nat)
  /\ ((p > 0.5)%R <-> (6 <= points)%nat)
  /\ ((p > 0.3)%R <-> (4 <= points)%nat).
Proof.
  intros p. subst p.
  pose proof (pos_INR points) as Hpos.
  assert (Hcut : forall k : nat, (INR k < INR points)%R <-> (k < points)%nat).
  { intros k. split; [apply INR_lt|apply lt_INR]. }
  pose proof (Hcut 7%nat) as H7. pose proof (Hcut 5%nat) as H5.
  pose proof (Hcut 3%nat) as H3. simpl in H7, H5, H3.
  unfold Rmin. destruct (Rle_dec (INR points / 10) 1); repeat split; intros;
    try lra; try lia;
    try (apply H7; lra); try (apply H5; lra); try (apply H3; lra).
  all: try (assert (INR 7 < INR points)%R by (apply lt_INR; lia); simpl in *; lra).
  all: try (assert (INR 5 < INR points)%R by (apply lt_INR; lia); simpl in *; lra).
  all: try (assert (INR 3 < INR points)%R by (apply lt_INR; lia); simpl in *; lra).
Qed.

(** The raw columns survive [create_features], with missing cells
    filled. *)
Lemma create_features_raw (lib : Lib) (df : DataFrame) (k : string) :
  df_empty df = false ->
  Forall (fun ch => k ∉ derived_names ch) feature_columns ->
  dict_get k (columns (create_features lib df))
  = map (fun x : cell => Some (default 0%R x)) <$> dict_get k (columns df).
Proof.
  intros Hne Hk. unfold create_features. rewrite Hne. cbn [columns].
  rewrite fillna0_get. unfold feature_columns in *. cbn [fold_left].
  apply Forall_cons in Hk as [H1 Hk]. apply Forall_cons in Hk as [H2 Hk].
  apply Forall_cons in Hk as [H3 Hk]. apply Forall_cons in Hk as [H4 _].
  by rewrite !(add_channel_features_other lib).
Qed.

Lemma rising_vibration_trends :
  Spec.trend reference_lib (create_features reference_lib rising_vibration) "temperature" = None
  /\ Spec.trend reference_lib (create_features reference_lib rising_vibration) "humidity" = None
  /\ exists slope,
       Spec.trend reference_lib (create_features reference_lib rising_vibration) "vibration" = Some slope
       /\ (slope > 0.5)%R.
Proof.
  unfold Spec.trend.
  rewrite !(create_features_raw reference_lib);
    try reflexivity;
    try (unfold feature_columns; repeat (apply Forall_cons; split; [not_derived|]);
         apply Forall_nil).
  simpl. split; [done|]. split; [done|].
  eexists. split; [reflexivity|].
  assert (exact_slope [0; 1; 2; 3; 4; 5; 6; 7; 8; 9]%R = 1%R) as ->; [|lra].
  unfold exact_slope, Rsum. simpl. lra.
  all: exact I.
Qed.


(** Without a trained model, ten rows of a vibration rising by one per
    row score two points: probability 0.2, the factor of the vibration
    rule, confidence 0.6 and no time to failure. *)
Lemma predict_rising_vibration :
  predict_failure_probability reference_lib (PredictiveAnalytics_init no_models) rising_vibration
  = {| failure_probability := 0.2;
       confidence := 0.6;
       time_to_failure_hours := None;
       contributing_factors := ["Increasing vibration"] |}.
Proof.
  assert (Hne : df_empty rising_vibration = false) by reflexivity.
  unfold predict_failure_probability. rewrite Hne. cbn [orb nrows rising_vibration
    timestamp length Nat.ltb Nat.leb].
  fold rising_vibration.
  destruct ((compute_trends_feature_columns reference_lib) rising_vibration Hne)
    as (trends & -> & Ht & Hv & Hh).
  destruct rising_vibration_trends as (Ht' & Hh' & slope & Hv' & Hslope).
  rewrite Ht' in Ht. rewrite Hv' in Hv. rewrite Hh' in Hh.
  unfold score_temperature, score_vibration, score_humidity. rewrite Ht, Hv, Hh.
  rewrite (bool_decide_eq_true_2 _ Hslope). cbn [fst snd app].
  unfold detect_anomalies. cbn [anomaly_model PredictiveAnalytics_init no_models
    anomaly_model_pkl score_anomalies fst snd].
  assert (Hp : Rmin (INR (0 + 2) / 10.0) 1.0 = 0.2%R).
  { simpl. unfold Rmin. destruct (Rle_dec _ _); lra. }
  rewrite Hp. unfold time_to_failure. rdecide. reflexivity.
Qed.

(** ** Neutral results *)

(** C9: too short an input gives the failure predictor's neutral answer
    (probability 0, confidence 0, no time to failure, no factors), and
    the detector answers with the empty list when the model or the scaler
    is absent or the input is empty. *)
Theorem neutral_on_insufficient_data (lib : Lib) (self : PredictiveAnalytics) (df : DataFrame) :
  ((nrows df < 10)%nat ->
   predict_failure_probability lib self df
   = {| failure_probability := 0; confidence := 0;
        time_to_failure_hours := None; contributing_factors := [] |})
  /\ (anomaly_model self = None \/ scaler self = None \/ df_empty df = true ->
      detect_anomalies lib self df = []).
Proof.
  split.
  - intros Hshort. unfold predict_failure_probability.
    apply Nat.ltb_lt in Hshort. rewrite Hshort, orb_true_r. reflexivity.
  - unfold detect_anomalies.
    intros [Hm|[Hs|He]].
    + by rewrite Hm.
    + rewrite Hs. by destruct (anomaly_model self).
    + rewrite He. by destruct (anomaly_model self), (scaler self).
Qed.

Lemma neutral_on_insufficient_data_witness :
  predict_failure_probability reference_lib flagging_engine (one_temperature 25)
  = {| failure_probability := 0; confidence := 0;
       time_to_failure_hours := None; contributing_factors := [] |}
  /\ detect_anomalies reference_lib (PredictiveAnalytics_init no_models) (one_temperature 25) = [].
Proof.
  split.
  - apply (proj1 ((neutral_on_insufficient_data reference_lib) flagging_engine (one_temperature 25))).
    unfold nrows, one_temperature. simpl. lia.
  - apply (proj2 ((neutral_on_insufficient_data reference_lib)
                    (PredictiveAnalytics_init no_models) (one_temperature 25))).
    left. reflexivity.
Defined.

(** ** Health aggregator *)

(** The priority rule singles out one status. *)
Lemma status_for_functional (p : R) (violations : list Violation)
    (anomalies : list Anomaly) (s1 s2 : HealthStatus) :
  Spec.status_for p violations anomalies s1 ->
  Spec.status_for p violations anomalies s2 -> s1 = s2.
Proof. intros H1 H2. destruct H1; destruct H2; tauto || reflexivity. Qed.

(** C6: the analysis of an empty frame is [no_data]; otherwise it is a
    full analysis whose parts are the detector's, the threshold check's
    and the predictor's answers on the preprocessed frame, and whose
    status follows the priority critical, warning, attention, healthy. *)
Theorem health_status_priority (lib : Lib) (w : World) (now machine_id : Z)
    (sensor_readings : list Reading) :
  let analytics := PredictiveAnalytics_init w in
  let df := preprocess_sensor_data lib sensor_readings in
  (df_empty df = true ->
   analyze_machine_health lib w now machine_id sensor_readings = no_data)
  /\ (df_empty df = false ->
      exists analysis,
        analyze_machine_health lib w now machine_id sensor_readings = success analysis
        /\ failure_prediction analysis = predict_failure_probability lib analytics df
        /\ anomalies analysis = detect_anomalies lib analytics df
        /\ threshold_violations analysis = check_thresholds lib analytics df machine_id
        /\ Spec.status_for
             (failure_probability (failure_prediction analysis))
             (threshold_violations analysis) (anomalies analysis)
             (health_status analysis)).
Proof.
  intros analytics df. unfold analyze_machine_health. fold analytics. fold df.
  split; intros Hdf; rewrite Hdf; [reflexivity|].
  eexists. split; [reflexivity|]. simpl.
  split; [reflexivity|]. split; [reflexivity|]. split; [reflexivity|].
  set (p := failure_probability (predict_failure_probability lib analytics df)).
  set (vs := check_thresholds lib analytics df machine_id).
  set (ans := detect_anomalies lib analytics df).
  destruct (bool_decide (p > 0.7)%R) eqn:E1.
  { apply bool_decide_eq_true_1 in E1. by apply Spec.is_critical. }
  apply bool_decide_eq_false_1 in E1.
  destruct (bool_decide (p > 0.5)%R) eqn:E2; simpl.
  { apply bool_decide_eq_true_1 in E2. apply Spec.is_warning; [done|by left]. }
  apply bool_decide_eq_false_1 in E2.
  destruct (bool_decide (vs = [])) eqn:E3; simpl.
  - apply bool_decide_eq_true_1 in E3.
    destruct (bool_decide (ans = [])) eqn:E4; simpl.
    + apply bool_decide_eq_true_1 in E4.
      apply Spec.is_healthy; [done| |done]. intros [?|?]; done.
    + apply bool_decide_eq_false_1 in E4.
      apply Spec.is_attention; [done| |done]. intros [?|?]; done.
  - apply bool_decide_eq_false_1 in E3. apply Spec.is_warning; [done|by right].
Qed.

Lemma health_status_priority_witness :
  analyze_machine_health reference_lib no_models 5 1 [] = no_data
  /\ exists analysis,
       analyze_machine_health reference_lib no_models 5 1 hot_reading = success analysis
       /\ failure_prediction analysis
          = predict_failure_probability reference_lib (PredictiveAnalytics_init no_models)
              (preprocess_sensor_data reference_lib hot_reading)
       /\ anomalies analysis
          = detect_anomalies reference_lib (PredictiveAnalytics_init no_models)
              (preprocess_sensor_data reference_lib hot_reading)
       /\ threshold_violations analysis
          = check_thresholds reference_lib (PredictiveAnalytics_init no_models)
              (preprocess_sensor_data reference_lib hot_reading) 1
       /\ Spec.status_for
            (failure_probability (failure_prediction analysis))
            (threshold_violations analysis) (anomalies analysis)
            (health_status analysis).
Proof.
  split.
  - apply (proj1 ((health_status_priority reference_lib) no_models 5 1 [])). reflexivity.
  - apply (proj2 ((health_status_priority reference_lib) no_models 5 1 hot_reading)).
    rewrite preprocess_hot_reading. reflexivity.
Defined.

(** * Further properties of the code *)

(** ** Ingestion-side checks *)

(** X1: [check_sensor_thresholds] keeps no memory.  What it adds does not
    depend on the alerts already pending, the pending alerts stay in
    front unchanged, and one call adds at most three alerts, at most two
    when the configured minimum does not exceed the maximum. *)
Theorem check_sensor_thresholds_appends (lib : Lib) (sensor : Sensor) (value : R)
    (session : list Alert) :
  check_sensor_thresholds lib sensor value session
  = session ++ check_sensor_thresholds lib sensor value []
  /\ (length (check_sensor_thresholds lib sensor value []) <= 3)%nat
  /\ (forall lo hi, min_value sensor = Some lo -> max_value sensor = Some hi ->
        (lo <= hi)%R ->
        (length (check_sensor_thresholds lib sensor value []) <= 2)%nat).
Proof.
  unfold check_sensor_thresholds.
  destruct (min_value sensor) as [lo|], (max_value sensor) as [hi|];
    repeat split;
    try (intros lo' hi' [= <-] [= <-] Hle);
    try (intros ? ? [=] ?);
    try (intros ? ? ? [=] ?);
    repeat case_bool_decide;
    destruct (check_critical_thresholds sensor value);
    simpl; rewrite ?app_nil_r, <- ?app_assoc; simpl;
    try reflexivity; try lia; try lra.
Qed.

Lemma check_sensor_thresholds_appends_witness :
  (length (check_sensor_thresholds reference_lib temperature_sensor 130 []) <= 2)%nat.
Proof.
  apply (proj2 (proj2 ((check_sensor_thresholds_appends reference_lib) temperature_sensor 130 []))
           (-10)%R 80%R); [reflexivity|reflexivity|lra].
Defined.

(** X2: a sensor with a NULL bound never gets a critical alert.  The
    comparison with the missing bound raises before the critical check,
    so every alert added is a configured-bounds one, whatever the value;
    with a NULL minimum nothing is added at all. *)
Theorem null_bound_skips_critical_check (lib : Lib) (sensor : Sensor) (value : R)
    (session : list Alert) :
  (min_value sensor = None ->
   check_sensor_thresholds lib sensor value session = session)
  /\ (min_value sensor = None \/ max_value sensor = None ->
      Forall (fun a => alert_type a = threshold_violation)
        (check_sensor_thresholds lib sensor value [])).
Proof.
  unfold check_sensor_thresholds. split.
  - by intros ->.
  - intros [Hmin|Hmax].
    + by rewrite Hmin.
    + rewrite Hmax. destruct (min_value sensor); [|done].
      case_bool_decide; repeat constructor.
Qed.

Lemma null_bound_skips_critical_check_witness :
  Forall (fun a => alert_type a = threshold_violation)
    (check_sensor_thresholds reference_lib unbounded_sensor 1000 []).
Proof.
  apply (proj2 ((null_bound_skips_critical_check reference_lib) unbounded_sensor 1000 [])).
  right. reflexivity.
Defined.

(** The default bounds, type by type. *)
Lemma default_bounds_cases (sensor_type : string) :
  (sensor_type = "temperature"
   /\ get_default_min_value sensor_type = (-50)%R
   /\ get_default_max_value sensor_type = 150%R)
  \/ (sensor_type = "humidity"
      /\ get_default_min_value sensor_type = 0%R
      /\ get_default_max_value sensor_type = 100%R)
  \/ (sensor_type = "tension"
      /\ get_default_min_value sensor_type = 0%R
      /\ get_default_max_value sensor_type = 1000%R)
  \/ (sensor_type = "vibration"
      /\ get_default_min_value sensor_type = 0%R
      /\ get_default_max_value sensor_type = 100%R)
  \/ ((sensor_type ∉ feature_columns)
      /\ get_default_min_value sensor_type = 0%R
      /\ get_default_max_value sensor_type = 100%R).
Proof.
  unfold get_default_min_value, get_default_max_value,
    default_min_values, default_max_values, feature_columns.
  simpl dict_get.
  destruct (decide ("temperature" = sensor_type)) as [<-|N1];
    [left; repeat split; simpl; lra|].
  destruct (decide ("humidity" = sensor_type)) as [<-|N2];
    [right; left; repeat split; simpl; lra|].
  destruct (decide ("tension" = sensor_type)) as [<-|N3];
    [right; right; left; repeat split; simpl; lra|].
  destruct (decide ("vibration" = sensor_type)) as [<-|N4];
    [right; right; right; left; repeat split; simpl; lra|].
  right; right; right; right. repeat split; simpl; try lra.
  rewrite !not_elem_of_cons. repeat split; try congruence. apply not_elem_of_nil.
Qed.

(** X3: a sensor created by an ingestion route gets a non-empty default
    range, so one reading never raises both configured-bounds alerts;
    for a canonical type a reading above the default maximum always
    raises the critical alert next to the configured one; for any other
    type the range is 0 to 100 and no reading raises a critical alert. *)
Theorem new_sensor_alerts (lib : Lib) (id machine_id : Z) (sensor_type : string) (value : R) :
  let sensor := new_sensor id machine_id sensor_type in
  (get_default_min_value sensor_type < get_default_max_value sensor_type)%R
  /\ (sensor_type ∈ feature_columns ->
      (value > get_default_max_value sensor_type)%R ->
      check_sensor_thresholds lib sensor value []
      = [ {| alert_machine_id := machine_id; alert_sensor_id := id;
             alert_type := threshold_violation;
             alert_severity :=
               if bool_decide
                    (value > fmul lib (get_default_max_value sensor_type) 1.2)%R
               then high else medium |};
          {| alert_machine_id := machine_id; alert_sensor_id := id;
             alert_type := critical_threshold; alert_severity := critical |} ])
  /\ (sensor_type ∉ feature_columns ->
      min_value sensor = Some 0%R /\ max_value sensor = Some 100%R
      /\ critical_alerts (check_sensor_thresholds lib sensor value []) = []).
Proof.
  intros sensor. subst sensor.
  destruct (default_bounds_cases sensor_type)
    as [(-> & Hmin & Hmax)|[(-> & Hmin & Hmax)|[(-> & Hmin & Hmax)
       |[(-> & Hmin & Hmax)|(Hty & Hmin & Hmax)]]]].
  1-4: split; [rewrite Hmin, Hmax; lra|]; split;
       [intros _ Hv; unfold check_sensor_thresholds, new_sensor,
          check_critical_thresholds; cbn [min_value max_value sensor_type
          sensor_id sensor_machine_id];
        rewrite Hmin; rewrite Hmax in *; simpl dict_get; cbn [lim_min lim_max];
        repeat match goal with
               | |- context [bool_decide ?P] =>
                   first [ rewrite (bool_decide_eq_true_2 P) by lra
                         | rewrite (bool_decide_eq_false_2 P) by lra
                         | destruct (bool_decide P) ]
               end;
        reflexivity
       |intros Hno; exfalso; apply Hno; unfold feature_columns; set_solver].
  split; [rewrite Hmin, Hmax; lra|]. split; [by intros ?|].
  intros _. unfold new_sensor. cbn [min_value max_value]. rewrite Hmin, Hmax.
  split; [done|]. split; [done|].
  unfold check_sensor_thresholds. cbn [min_value max_value].
  rewrite check_critical_thresholds_unknown by exact Hty.
  unfold critical_alerts. repeat case_bool_decide; simpl; reflexivity.
Qed.

Lemma new_sensor_alerts_witness :
  check_sensor_thresholds reference_lib (new_sensor 3 1 "humidity") 130 []
  = [ {| alert_machine_id := 1; alert_sensor_id := 3;
         alert_type := threshold_violation;
         alert_severity :=
           if bool_decide
                (130 > fmul reference_lib (get_default_max_value "humidity") 1.2)%R
           then high else medium |};
      {| alert_machine_id := 1; alert_sensor_id := 3;
         alert_type := critical_threshold; alert_severity := critical |} ]
  /\ critical_alerts (check_sensor_thresholds reference_lib (new_sensor 4 1 "flow") 130 []) = [].
Proof.
  split.
  - apply (proj1 (proj2 ((new_sensor_alerts reference_lib) 3 1 "humidity" 130))).
    + unfold feature_columns. set_solver.
    + unfold get_default_max_value. simpl. lra.
  - apply (proj2 (proj2 ((new_sensor_alerts reference_lib) 4 1 "flow" 130))).
    unfold feature_columns.
    repeat (apply not_elem_of_cons; split; [discriminate|]). apply not_elem_of_nil.
Defined.

(** ** Anomaly detector *)



Lemma scan_features_fold (data_row : Row) (sensor : string)
    (sensor_features : list string) (affected : list string) :
  fold_left
    (fun affected_sensors feature =>
       match dict_get feature (row_cells data_row) with
       | Some value =>
           if cell_gt (Rabs <$> value) 2
           then if bool_decide (sensor ∈ affected_sensors)
                then affected_sensors
                else affected_sensors ++ [sensor]
           else affected_sensors
       | None => affected_sensors
       end)
    sensor_features affected
  = if bool_decide (sensor ∈ affected) then affected
    else if existsb (extreme_featureb data_row) sensor_features
         then affected ++ [sensor] else affected.
Proof.
  revert affected.
  induction sensor_features as [|f fs IH]; intros affected; cbn [fold_left existsb].
  - by case_bool_decide.
  - rewrite IH. unfold extreme_featureb at 2.
    destruct (dict_get f (row_cells data_row)) as [value|]; [|done].
    destruct (cell_gt (Rabs <$> value) 2); [|done]. cbn [orb].
    destruct (bool_decide (sensor ∈ affected)) eqn:Hin; [by rewrite Hin|].
    rewrite bool_decide_eq_true_2; [done|]. set_solver.
Qed.

Lemma feature_columns_NoDup : NoDup feature_columns.
Proof.
  unfold feature_columns.
  repeat (apply NoDup_cons; split;
          [repeat (apply not_elem_of_cons; split; [discriminate|]);
           apply not_elem_of_nil|]).
  apply NoDup_nil_2.
Qed.

Lemma identify_affected_sensors_eq (data_row : Row) (feature_cols : list string) :
  _identify_affected_sensors data_row feature_cols
  = filter (fun sensor => channel_is_affected data_row feature_cols sensor = true)
      feature_columns.
Proof.
  unfold _identify_affected_sensors.
  assert (Hgen : forall sensors affected,
    NoDup sensors -> (forall s, s ∈ sensors -> s ∉ affected) ->
    fold_left
      (fun affected_sensors sensor =>
         let sensor_features :=
           filter (fun col => PyStr.contains sensor col = true) feature_cols in
         fold_left
           (fun affected_sensors feature =>
              match dict_get feature (row_cells data_row) with
              | Some value =>
                  if cell_gt (Rabs <$> value) 2
                  then if bool_decide (sensor ∈ affected_sensors)
                       then affected_sensors
                       else affected_sensors ++ [sensor]
                  else affected_sensors
              | None => affected_sensors
              end)
           sensor_features affected_sensors)
      sensors affected
    = affected
      ++ filter (fun sensor => channel_is_affected data_row feature_cols sensor = true)
           sensors).
  { induction sensors as [|s ss IH]; intros affected Hnds Hfresh; cbn [fold_left].
    - by rewrite filter_nil, app_nil_r.
    - apply NoDup_cons in Hnds as [Hs Hnds]. cbv zeta.
      rewrite scan_features_fold.
      rewrite (bool_decide_eq_false_2 (s ∈ affected)) by (apply Hfresh; left).
      rewrite filter_cons. fold (channel_is_affected data_row feature_cols s).
      destruct (channel_is_affected data_row feature_cols s) eqn:Hhit.
      + rewrite decide_True by done. rewrite IH; [by rewrite <- app_assoc|done|].
        intros s' Hs'. rewrite elem_of_app, list_elem_of_singleton.
        intros [Hin| ->]; [|done]. apply (Hfresh s'); [by right|done].
      + rewrite decide_False by done. apply IH; [done|].
        intros s' Hs'. apply Hfresh. by right. }
  rewrite Hgen; [done|exact feature_columns_NoDup|]. intros s _. apply not_elem_of_nil.
Qed.

Lemma identify_affected_sensors_sublist (data_row : Row) (feature_cols : list string) :
  sublist (_identify_affected_sensors data_row feature_cols) feature_columns.
Proof. rewrite identify_affected_sensors_eq. apply sublist_filter. Qed.

(** X6: the affected sensors of a row are the canonical channels that
    have, among the selected columns carrying their name, one whose value
    in the row exceeds 2 in absolute value; they come in the canonical
    order and none is repeated. *)
Theorem identify_affected_sensors_filter (data_row : Row) (feature_cols : list string) :
  _identify_affected_sensors data_row feature_cols
  = filter (fun sensor => channel_is_affected data_row feature_cols sensor = true)
      feature_columns
  /\ sublist (_identify_affected_sensors data_row feature_cols) feature_columns
  /\ NoDup (_identify_affected_sensors data_row feature_cols).
Proof.
  split; [apply identify_affected_sensors_eq|].
  split; [apply identify_affected_sensors_sublist|].
  rewrite identify_affected_sensors_eq. apply NoDup_filter, feature_columns_NoDup.
Qed.

Lemma iloc_Some (df : DataFrame) (i : nat) (row : Row) :
  iloc df i = Some row ->
  (i < nrows df)%nat /\ timestamp df !! i = Some (row_timestamp row).
Proof.
  unfold iloc, nrows. destruct (timestamp df !! i) as [ts|] eqn:Hts; [|done].
  simpl. intros [= <-]. split; [|done]. by eapply lookup_lt_Some.
Qed.

Lemma collect_anomalies_spec (feature_data : DataFrame) (feature_cols : list string)
    (flagged : list (Z * R)) (i : nat) (found : list Anomaly) :
  collect_anomalies feature_data feature_cols i flagged = Some found ->
  Forall (fun a =>
            (i <= anomaly_index a < nrows feature_data)%nat
            /\ timestamp feature_data !! anomaly_index a = Some (anomaly_timestamp a)
            /\ flagged !! (anomaly_index a - i)%nat = Some (-1, anomaly_score a)
            /\ anomaly_severity a = _calculate_severity (anomaly_score a)
            /\ sublist (affected_sensors a) feature_columns)
         found
  /\ StronglySorted lt (map anomaly_index found).
Proof.
  revert i found. induction flagged as [|[pred score] rest IH]; intros i found.
  - intros [= <-]. split; constructor.
  - cbn [collect_anomalies].
    assert (Hshift : forall found',
      collect_anomalies feature_data feature_cols (S i) rest = Some found' ->
      Forall (fun a =>
                (i <= anomaly_index a < nrows feature_data)%nat
                /\ (S i <= anomaly_index a)%nat
                /\ timestamp feature_data !! anomaly_index a = Some (anomaly_timestamp a)
                /\ ((pred, score) :: rest) !! (anomaly_index a - i)%nat
                   = Some (-1, anomaly_score a)
                /\ anomaly_severity a = _calculate_severity (anomaly_score a)
                /\ sublist (affected_sensors a) feature_columns)
             found'
      /\ StronglySorted lt (map anomaly_index found')).
    { intros found' Hrec. destruct (IH _ _ Hrec) as [Hall Hsorted].
      split; [|done]. eapply Forall_impl; [exact Hall|].
      intros a ((Hlo & Hhi) & Hts & Hflag & Hsev & Haff). cbv beta.
      repeat split; try done; try lia.
      replace (anomaly_index a - i)%nat with (S (anomaly_index a - S i)) by lia.
      exact Hflag. }
    destruct (decide (pred = -1)) as [->|Hpred].
    + destruct (iloc feature_data i) as [data_row|] eqn:Hrow; [|done].
      cbn [mbind option_bind].
      destruct (collect_anomalies feature_data feature_cols (S i) rest)
        as [found'|] eqn:Hrec; [|done].
      cbn [mbind option_bind]. intros [= <-].
      destruct (Hshift found' eq_refl) as [Hall Hsorted].
      destruct (iloc_Some _ _ _ Hrow) as [Hi Hts].
      split.
      * constructor.
        -- cbn [anomaly_index anomaly_timestamp anomaly_score anomaly_severity
                affected_sensors].
           repeat split; try done; try lia.
           ++ by rewrite Nat.sub_diag.
           ++ apply identify_affected_sensors_sublist.
        -- eapply Forall_impl; [exact Hall|]. cbv beta. tauto.
      * cbn [map anomaly_index]. constructor; [done|].
        rewrite Forall_map. eapply Forall_impl; [exact Hall|]. cbv beta.
        intros a (_ & Hlt & _). lia.
    + intros Hrec. destruct (Hshift found Hrec) as [Hall Hsorted].
      split; [|done]. eapply Forall_impl; [exact Hall|]. cbv beta. tauto.
Qed.

Lemma sorted_indices_length (l : list nat) (i n : nat) :
  StronglySorted lt l -> Forall (fun k => (i <= k < n)%nat) l ->
  (length l <= n - i)%nat.
Proof.
  revert i. induction l as [|k l IH]; intros i Hs Hb; [simpl; lia|].
  apply StronglySorted_inv in Hs as [Hs Hk].
  apply Forall_cons in Hb as [Hkb Hb].
  assert (Hb' : Forall (fun j => (S k <= j < n)%nat) l).
  { rewrite Forall_forall in *. intros j Hj.
    specialize (Hk j). specialize (Hb j).
    specialize (Hk Hj). specialize (Hb Hj). lia. }
  specialize (IH (S k) Hs Hb'). simpl. lia.
Qed.

Lemma create_features_timestamp (lib : Lib) (df : DataFrame) :
  timestamp (create_features lib df) = timestamp df.
Proof. unfold create_features. by destruct (df_empty df). Qed.

(** X5: whatever the fitted model answers, every anomaly the detector
    reports points at a row of the input: its index is below the number
    of rows, its timestamp is the timestamp of that row, its severity is
    the severity of its score and its affected sensors are canonical
    channels in canonical order; the anomalies come in increasing row order, one per row at
    most, so there are never more anomalies than rows. *)
Theorem detect_anomalies_rows (lib : Lib) (self : PredictiveAnalytics) (sensor_data : DataFrame) :
  Forall (fun a =>
            (anomaly_index a < nrows sensor_data)%nat
            /\ timestamp sensor_data !! anomaly_index a = Some (anomaly_timestamp a)
            /\ anomaly_severity a = _calculate_severity (anomaly_score a)
            /\ sublist (affected_sensors a) feature_columns)
         (detect_anomalies lib self sensor_data)
  /\ StronglySorted lt (map anomaly_index (detect_anomalies lib self sensor_data))
  /\ (length (detect_anomalies lib self sensor_data) <= nrows sensor_data)%nat.
Proof.
  assert (Hnil : Forall (fun a : Anomaly =>
            (anomaly_index a < nrows sensor_data)%nat
            /\ timestamp sensor_data !! anomaly_index a = Some (anomaly_timestamp a)
            /\ anomaly_severity a = _calculate_severity (anomaly_score a)
            /\ sublist (affected_sensors a) feature_columns) []
          /\ StronglySorted lt (map anomaly_index [])
          /\ (length (@nil Anomaly) <= nrows sensor_data)%nat).
  { repeat split; try constructor. simpl. lia. }
  unfold detect_anomalies.
  destruct (anomaly_model self) as [model|]; [|exact Hnil].
  destruct (scaler self) as [sc|]; [|exact Hnil].
  destruct (df_empty sensor_data); [exact Hnil|].
  destruct (select_feature_cols _) as [|c cols] eqn:Hcols; [exact Hnil|].
  rewrite <- Hcols. clear Hcols.
  destruct (transform sc _) as [X_scaled|]; [|exact Hnil]. cbn [mbind option_bind].
  destruct (predict model X_scaled) as [predictions|]; [|exact Hnil].
  cbn [mbind option_bind].
  destruct (decision_function model X_scaled) as [scores|]; [|exact Hnil].
  cbn [mbind option_bind].
  destruct (collect_anomalies _ _ 0 _) as [found|] eqn:Hfound; [|exact Hnil].
  cbn [default]. clear Hnil.
  destruct (collect_anomalies_spec _ _ _ _ _ Hfound) as [Hall Hsorted].
  unfold nrows in *. rewrite (create_features_timestamp lib) in Hall.
  split; [|split; [done|]].
  - eapply Forall_impl; [exact Hall|]. cbv beta. intros a (? & ? & ? & ? & ?).
    repeat split; try done; lia.
  - pose proof (sorted_indices_length (map anomaly_index found) 0
                  (length (timestamp sensor_data)) Hsorted) as Hlen.
    rewrite length_map, Nat.sub_0_r in Hlen. apply Hlen.
    rewrite Forall_map. eapply Forall_impl; [exact Hall|]. cbv beta. tauto.
Qed.

Lemma filter_ext_Forall {A} (P Q : A -> Prop) `{!forall x, Decision (P x)}
    `{!forall x, Decision (Q x)} (l : list A) :
  Forall (fun x => P x <-> Q x) l -> filter P l = filter Q l.
Proof.
  induction 1 as [|x l Hx Hl IH]; [done|].
  rewrite !filter_cons, IH.
  destruct (decide (P x)), (decide (Q x)); tauto.
Qed.

Lemma collect_anomalies_indices (feature_data : DataFrame) (feature_cols : list string)
    (flagged : list (Z * R)) (i : nat) :
  (i + length flagged <= nrows feature_data)%nat ->
  exists found,
    collect_anomalies feature_data feature_cols i flagged = Some found
    /\ map anomaly_index found
       = filter (fun k => fst <$> flagged !! (k - i)%nat = Some (-1))
           (seq i (length flagged))
    /\ Forall (fun a => snd <$> flagged !! (anomaly_index a - i)%nat
                        = Some (anomaly_score a)) found.
Proof.
  revert i. induction flagged as [|[pred score] rest IH]; intros i Hlen.
  - exists []. repeat split; constructor.
  - cbn [length] in Hlen. destruct (IH (S i)) as (found & Hrec & Hidx & Hsc); [lia|].
    assert (Htail :
      filter (fun k => fst <$> ((pred, score) :: rest) !! (k - i)%nat = Some (-1))
        (seq (S i) (length rest))
      = filter (fun k => fst <$> rest !! (k - S i)%nat = Some (-1))
          (seq (S i) (length rest))).
    { apply filter_ext_Forall, Forall_forall. intros k Hk.
      apply elem_of_seq in Hk.
      replace (k - i)%nat with (S (k - S i)) by lia. done. }
    assert (Hsc' : Forall (fun a => snd <$> ((pred, score) :: rest)
                                      !! (anomaly_index a - i)%nat
                                    = Some (anomaly_score a)) found).
    { destruct (collect_anomalies_spec _ _ _ _ _ Hrec) as [Hall _].
      rewrite Forall_forall in *. intros a Ha.
      destruct (Hall a Ha) as ((Hlo & _) & _). specialize (Hsc a Ha).
      replace (anomaly_index a - i)%nat with (S (anomaly_index a - S i)) by lia.
      done. }
    cbn [collect_anomalies length seq]. rewrite filter_cons, Nat.sub_diag. cbn [lookup list_lookup fmap option_fmap option_map fst].
    destruct (decide (pred = -1)) as [->|Hpred].
    + destruct (lookup_lt_is_Some_2 (timestamp feature_data) i) as [ts Hts];
        [unfold nrows in Hlen; lia|].
      unfold iloc. rewrite Hts. cbn [mbind option_bind]. rewrite Hrec.
      cbn [mbind option_bind]. eexists. split; [reflexivity|].
      rewrite decide_True by done. cbn [map anomaly_index]. split.
      * by rewrite Hidx, Htail.
      * constructor; [|done]. cbn [anomaly_index anomaly_score].
        by rewrite Nat.sub_diag.
    + exists found. split; [done|]. rewrite decide_False by congruence.
      split; [by rewrite Hidx, Htail|done].
Qed.

(** X7: when the scaler and the forest answer with one prediction and
    one score per row, the detector reports exactly the rows predicted
    -1, in row order, each with the score of its row. *)
Theorem detect_anomalies_reports_flagged_rows (lib : Lib) (self : PredictiveAnalytics)
    (model : IsolationForest) (sc : StandardScaler) (sensor_data : DataFrame)
    (X_scaled : list (list cell)) (predictions : list Z) (anomaly_scores : list R) :
  anomaly_model self = Some model ->
  scaler self = Some sc ->
  select_feature_cols (dict_keys (columns (create_features lib sensor_data))) <> [] ->
  transform sc (feature_matrix lib sensor_data) = Some X_scaled ->
  predict model X_scaled = Some predictions ->
  decision_function model X_scaled = Some anomaly_scores ->
  length predictions = nrows sensor_data ->
  length anomaly_scores = nrows sensor_data ->
  map anomaly_index (detect_anomalies lib self sensor_data)
  = filter (fun i => predictions !! i = Some (-1)) (seq 0 (nrows sensor_data))
  /\ Forall (fun a => anomaly_scores !! anomaly_index a = Some (anomaly_score a))
       (detect_anomalies lib self sensor_data).
Proof.
  intros Hmodel Hsc Hcols Htr Hpred Hdec Hlp Hls.
  unfold detect_anomalies. rewrite Hmodel, Hsc.
  destruct (df_empty sensor_data) eqn:Hempty.
  { unfold df_empty in Hempty. apply Nat.eqb_eq in Hempty. rewrite Hempty.
    split; [reflexivity|constructor]. }
  destruct (select_feature_cols _) as [|c cols] eqn:Hsel; [done|].
  rewrite <- Hsel. unfold feature_matrix in Htr. cbv zeta in Htr.
  rewrite Htr. cbn [mbind option_bind]. rewrite Hpred. cbn [mbind option_bind].
  rewrite Hdec. cbn [mbind option_bind].
  assert (Hzip : length (zip predictions anomaly_scores) = nrows sensor_data).
  { rewrite length_zip_with. lia. }
  destruct (collect_anomalies_indices (create_features lib sensor_data)
              (select_feature_cols (dict_keys (columns (create_features lib sensor_data))))
              (zip predictions anomaly_scores) 0) as (found & -> & Hidx & Hscores).
  { unfold nrows. rewrite (create_features_timestamp lib). fold (nrows sensor_data). lia. }
  cbn [default from_option]. unfold Datatypes.id. rewrite Hzip in Hidx. split.
  - rewrite Hidx. apply filter_ext_Forall, Forall_forall. intros k Hk.
    apply elem_of_seq in Hk. rewrite Nat.sub_0_r.
    destruct (lookup_lt_is_Some_2 predictions k) as [p Hp]; [lia|].
    destruct (lookup_lt_is_Some_2 anomaly_scores k) as [s Hs]; [lia|].
    rewrite (proj2 (lookup_zip_Some predictions anomaly_scores k p s)) by done.
    rewrite Hp. done.
  - eapply Forall_impl; [exact Hscores|]. cbv beta. intros a Ha.
    rewrite Nat.sub_0_r in Ha.
    destruct (zip predictions anomaly_scores !! anomaly_index a) as [[p s]|] eqn:Hz;
      [|done].
    apply lookup_zip_Some in Hz as [_ Hs]. simpl in Ha. by rewrite Hs.
Qed.

Lemma detect_anomalies_reports_flagged_rows_witness :
  map anomaly_index (detect_anomalies reference_lib flagging_engine (one_temperature 25))
  = filter (fun i => [-1] !! i = Some (-1)) (seq 0 (nrows (one_temperature 25)))
  /\ Forall (fun a => [(-0.2)%R] !! anomaly_index a = Some (anomaly_score a))
       (detect_anomalies reference_lib flagging_engine (one_temperature 25)).
Proof.
  apply ((detect_anomalies_reports_flagged_rows reference_lib) flagging_engine flag_all identity_scaler
           (one_temperature 25) (feature_matrix reference_lib (one_temperature 25))).
  - reflexivity.
  - reflexivity.
  - rewrite (create_features_one_temperature reference_lib). discriminate.
  - reflexivity.
  - unfold feature_matrix. rewrite (create_features_one_temperature reference_lib). reflexivity.
  - unfold feature_matrix. rewrite (create_features_one_temperature reference_lib). reflexivity.
  - reflexivity.
  - reflexivity.
Defined.

(** ** Analytics-side threshold check *)

(** ** Analytics-side threshold check *)

Lemma collect_violations_timestamp (lib : Lib) (latest_data : Row) (thresholds : dict Rule) :
  "timestamp" ∈ dict_keys thresholds ->
  collect_violations lib latest_data thresholds = None.
Proof.
  induction thresholds as [|[s lim] th IH]; cbn [collect_violations].
  - by intros ?%elem_of_nil.
  - intros Hin. destruct (decide (s = "timestamp")) as [Hs|Hs]; [done|].
    apply elem_of_cons in Hin as [Heq|Hin]; [by symmetry in Heq|].
    rewrite (IH Hin). by destruct (match dict_get s _ with Some _ => _ | None => _ end).
Qed.

(** X8: a rule keyed by the text [timestamp] voids the whole check: once
    such an override is stored for a machine, no violation is reported
    for it, whatever the other rules and the readings are. *)
Theorem timestamp_rule_voids_check (lib : Lib) (self : PredictiveAnalytics) (machine_id : Z)
    (thresholds : dict Rule) (sensor_data : DataFrame) :
  "timestamp" ∈ dict_keys thresholds ->
  check_thresholds lib (set_threshold_rules self machine_id thresholds)
    sensor_data machine_id = [].
Proof.
  intros Hin. unfold check_thresholds.
  destruct (df_empty sensor_data); [done|].
  destruct (iloc_last sensor_data) as [latest_data|]; [|done].
  unfold set_threshold_rules. cbn [threshold_rules].
  rewrite lookup_insert_eq. cbn [default from_option].
  unfold Datatypes.id.
  by rewrite ((collect_violations_timestamp lib) _ _ Hin).
Qed.

Lemma timestamp_rule_voids_check_witness :
  check_thresholds reference_lib (set_threshold_rules (PredictiveAnalytics_init no_models) 1 stamped_rules)
    (one_temperature 500) 1 = []
  /\ check_thresholds reference_lib (set_threshold_rules (PredictiveAnalytics_init no_models) 1 tight_rules)
       (one_temperature 500) 1 <> [].
Proof.
  split.
  - apply ((timestamp_rule_voids_check reference_lib) (PredictiveAnalytics_init no_models) 1 stamped_rules
             (one_temperature 500)).
    unfold stamped_rules. simpl. set_solver.
  - unfold check_thresholds, set_threshold_rules. cbn [threshold_rules].
    rewrite lookup_insert_eq. simpl. rdecide. simpl. discriminate.
Defined.

Lemma collect_violations_incomplete (lib : Lib) (latest_data : Row)
    (thresholds : dict Rule) (s : string) (rule : Rule) :
  (s, rule) ∈ thresholds ->
  is_Some (dict_get s (row_cells latest_data)) ->
  rule_min rule = None \/ rule_max rule = None ->
  collect_violations lib latest_data thresholds = None.
Proof.
  intros Hin [cell_value Hcell] Hrule.
  induction thresholds as [|[s' rule'] th IH]; [by apply elem_of_nil in Hin|].
  cbn [collect_violations].
  destruct (decide (s' = "timestamp")); [done|].
  apply elem_of_cons in Hin as [[= <- <-]|Hin].
  - rewrite Hcell. destruct Hrule as [-> | ->]; [done|].
    by destruct (rule_min rule).
  - rewrite (IH Hin).
    by destruct (match dict_get s' _ with Some _ => _ | None => _ end).
Qed.

(** X24: a rule that lacks its minimum or its maximum voids the whole
    check as soon as the latest row has a cell under the rule's key:
    reading the missing bound raises, and no violation is reported for
    the machine, whatever the other rules and the readings are. *)
Theorem incomplete_rule_voids_check (lib : Lib) (self : PredictiveAnalytics)
    (machine_id : Z) (thresholds : dict Rule) (sensor_data : DataFrame)
    (latest_data : Row) (s : string) (rule : Rule) :
  iloc_last sensor_data = Some latest_data ->
  (s, rule) ∈ thresholds ->
  is_Some (dict_get s (row_cells latest_data)) ->
  rule_min rule = None \/ rule_max rule = None ->
  check_thresholds lib (set_threshold_rules self machine_id thresholds)
    sensor_data machine_id = [].
Proof.
  intros Hrow Hin Hcell Hrule. unfold check_thresholds.
  destruct (df_empty sensor_data); [done|]. rewrite Hrow.
  unfold set_threshold_rules. cbn [threshold_rules].
  rewrite lookup_insert_eq. cbn [default from_option].
  unfold Datatypes.id.
  by rewrite (collect_violations_incomplete lib _ _ s rule Hin Hcell Hrule).
Qed.

Lemma incomplete_rule_voids_check_witness :
  check_thresholds reference_lib
    (set_threshold_rules (PredictiveAnalytics_init no_models) 1 open_rules)
    (one_temperature 500) 1 = [].
Proof.
  apply (incomplete_rule_voids_check reference_lib (PredictiveAnalytics_init no_models) 1
           open_rules (one_temperature 500)
           {| row_timestamp := 0; row_cells := [("temperature", Some 500%R)] |}
           "temperature" {| rule_min := Some 0%R; rule_max := None |}).
  - reflexivity.
  - unfold open_rules. left.
  - by eexists.
  - right. reflexivity.
Defined.

Lemma tail_length {A} (n : nat) (l : list A) : length (tail n l) = Nat.min n (length l).
Proof. unfold tail. rewrite length_drop. lia. Qed.

Lemma tail_1_lookup {A} (l : list A) : tail 1 l !! 0%nat = l !! (length l - 1)%nat.
Proof. unfold tail. rewrite lookup_drop. f_equal. lia. Qed.

Lemma iloc_last_df_tail (df : DataFrame) :
  well_formed df -> df_empty df = false ->
  iloc_last (df_tail 1 df) = iloc_last df.
Proof.
  unfold well_formed, df_empty. intros Hwf Hne%Nat.eqb_neq.
  unfold iloc_last, iloc, nrows in *. cbn [df_tail timestamp columns].
  rewrite tail_length.
  replace (Nat.min 1 (length (timestamp df)) - 1)%nat with 0%nat by lia.
  rewrite tail_1_lookup.
  destruct (timestamp df !! (length (timestamp df) - 1)%nat) as [ts|]; [|done].
  cbn [mbind option_bind]. do 2 f_equal.
  induction Hwf as [|[name c] cols Hc Hcols IH]; [done|].
  cbn [map omap list_omap snd] in *. rewrite tail_1_lookup, Hc, IH. done.
Qed.

Lemma collect_violations_shape (lib : Lib) (latest_data : Row) (thresholds : dict Rule)
    (violations : list Violation) :
  collect_violations lib latest_data thresholds = Some violations ->
  sublist (map v_sensor_type violations) (dict_keys thresholds)
  /\ Forall (fun v => v_timestamp v = row_timestamp latest_data) violations.
Proof.
  revert violations.
  induction thresholds as [|[s lim] th IH]; cbn [collect_violations]; intros vs.
  - intros [= <-]. split; constructor.
  - destruct (decide (s = "timestamp")); [done|].
    change (dict_keys ((s, lim) :: th)) with (s :: dict_keys th).
    destruct (dict_get s (row_cells latest_data)) as [cell_value|].
    + destruct (rule_min lim) as [lo|]; [|done].
      destruct (rule_max lim) as [hi|]; [|done].
      cbn [mbind option_bind].
      destruct (collect_violations lib latest_data th) as [vs'|]; [|done].
      cbn [mbind option_bind]. intros [= <-].
      destruct (IH vs' eq_refl) as [Hsub Hts].
      destruct cell_value as [value|]; [|split; [by apply sublist_cons|done]].
      destruct (_ || _)%bool; simpl.
      * split; [by apply sublist_skip|by constructor].
      * split; [by apply sublist_cons|done].
    + cbn [mbind option_bind].
      destruct (collect_violations lib latest_data th) as [vs'|]; [|done].
      cbn [mbind option_bind]. intros [= <-].
      destruct (IH vs' eq_refl) as [Hsub Hts].
      split; [by apply sublist_cons|done].
Qed.

Lemma check_thresholds_stamp (lib : Lib) (self : PredictiveAnalytics) (sensor_data : DataFrame)
    (machine_id : Z) :
  Forall (fun v => Some (v_timestamp v) = last (timestamp sensor_data))
    (check_thresholds lib self sensor_data machine_id).
Proof.
  unfold check_thresholds. destruct (df_empty sensor_data); [constructor|].
  destruct (iloc_last sensor_data) as [latest_data|] eqn:Hrow; [|constructor].
  destruct (collect_violations lib latest_data _) as [vs|] eqn:Hvs; [|constructor].
  cbn [default from_option]. unfold Datatypes.id.
  eapply Forall_impl; [apply ((collect_violations_shape lib) _ _ _ Hvs)|].
  cbv beta. intros v ->. unfold iloc_last, iloc, nrows in Hrow.
  rewrite last_lookup.
  replace (Nat.pred (length (timestamp sensor_data)))
    with (length (timestamp sensor_data) - 1)%nat by lia.
  destruct (timestamp sensor_data !! _) as [ts|]; [|done].
  cbn [mbind option_bind] in Hrow. by injection Hrow as <-.
Qed.

(** X9: the check reads the latest row only: the frame cut to its last
    row gives the same answer.  It reports at most one violation per
    rule, in the order of the rules, each stamped with the time of the
    latest row. *)
Theorem check_thresholds_latest_row (lib : Lib) (self : PredictiveAnalytics)
    (sensor_data : DataFrame) (machine_id : Z) :
  well_formed sensor_data ->
  check_thresholds lib self sensor_data machine_id
  = check_thresholds lib self (df_tail 1 sensor_data) machine_id
  /\ sublist (map v_sensor_type (check_thresholds lib self sensor_data machine_id))
       (dict_keys (applicable_thresholds self machine_id))
  /\ Forall (fun v => Some (v_timestamp v) = last (timestamp sensor_data))
       (check_thresholds lib self sensor_data machine_id).
Proof.
  intros Hwf. split; [|split].
  - unfold check_thresholds.
    assert (Hempty : df_empty (df_tail 1 sensor_data) = df_empty sensor_data).
    { unfold df_empty, nrows. cbn [df_tail timestamp]. rewrite tail_length.
      destruct (timestamp sensor_data); reflexivity. }
    rewrite Hempty. destruct (df_empty sensor_data) eqn:Hne; [done|].
    by rewrite iloc_last_df_tail.
  - unfold check_thresholds. destruct (df_empty sensor_data); [apply sublist_nil_l|].
    destruct (iloc_last sensor_data) as [latest_data|]; [|apply sublist_nil_l].
    fold (applicable_thresholds self machine_id).
    destruct (collect_violations lib latest_data _) as [vs|] eqn:Hvs;
      [|apply sublist_nil_l].
    apply ((collect_violations_shape lib) _ _ _ Hvs).
  - apply (check_thresholds_stamp lib).
Qed.

Lemma check_thresholds_latest_row_witness :
  check_thresholds reference_lib (PredictiveAnalytics_init no_models) three_temperatures 1
  = check_thresholds reference_lib (PredictiveAnalytics_init no_models) (df_tail 1 three_temperatures) 1.
Proof.
  apply ((check_thresholds_latest_row reference_lib) (PredictiveAnalytics_init no_models)
           three_temperatures 1).
  unfold well_formed, three_temperatures. simpl. repeat constructor.
Defined.

(** ** Preprocessing *)

Section usort_facts.
Context {A : Type} (ltb : A -> A -> bool).
Hypothesis ltb_irrefl : forall x, ltb x x = false.
Hypothesis ltb_trans : forall x y z, ltb x y = true -> ltb y z = true -> ltb x z = true.
Hypothesis ltb_total : forall x y, ltb x y = false -> ltb y x = false -> x = y.

Lemma elem_of_uinsert (x y : A) (l : list A) :
  y ∈ uinsert ltb x l <-> y = x \/ y ∈ l.
Proof.
  induction l as [|z l IH]; simpl.
  - rewrite list_elem_of_singleton, elem_of_nil. tauto.
  - destruct (ltb x z) eqn:Hxz; [by rewrite elem_of_cons|].
    destruct (ltb z x) eqn:Hzx.
    + rewrite !elem_of_cons, IH. tauto.
    + rewrite (ltb_total x z Hxz Hzx), elem_of_cons. tauto.
Qed.

Lemma elem_of_usort (x : A) (l : list A) : x ∈ usort ltb l <-> x ∈ l.
Proof.
  unfold usort. induction l as [|y l IH]; simpl; [done|].
  rewrite elem_of_uinsert, elem_of_cons, IH. done.
Qed.

Lemma uinsert_sorted (x : A) (l : list A) :
  StronglySorted (fun a b => ltb a b = true) l ->
  StronglySorted (fun a b => ltb a b = true) (uinsert ltb x l).
Proof.
  induction 1 as [|z l Hl IH Hz]; simpl.
  - repeat constructor.
  - destruct (ltb x z) eqn:Hxz.
    + constructor; [by constructor|]. constructor; [done|].
      eapply Forall_impl; [exact Hz|]. cbv beta. intros a Ha. by eapply ltb_trans.
    + destruct (ltb z x) eqn:Hzx; [|by constructor].
      constructor; [done|]. apply Forall_forall. intros a Ha.
      apply elem_of_uinsert in Ha as [->|Ha]; [done|].
      rewrite Forall_forall in Hz. by apply Hz.
Qed.

Lemma usort_sorted (l : list A) :
  StronglySorted (fun a b => ltb a b = true) (usort ltb l).
Proof.
  unfold usort. induction l as [|x l IH]; simpl; [constructor|].
  by apply uinsert_sorted.
Qed.

Lemma uinsert_length (x : A) (l : list A) :
  (length (uinsert ltb x l) <= S (length l))%nat.
Proof.
  induction l as [|z l IH]; simpl; [lia|].
  destruct (ltb x z); [simpl; lia|]. destruct (ltb z x); simpl; lia.
Qed.

Lemma usort_length (l : list A) : (length (usort ltb l) <= length l)%nat.
Proof.
  unfold usort. induction l as [|x l IH]; simpl; [lia|].
  pose proof (uinsert_length x (fold_right (uinsert ltb) [] l)). lia.
Qed.

Lemma usort_sorted_NoDup (l : list A) : NoDup (usort ltb l).
Proof.
  pose proof (usort_sorted l) as Hs.
  induction Hs as [|x l' Hl IH Hx]; constructor; [|done].
  intros Hin. rewrite Forall_forall in Hx. specialize (Hx x Hin).
  by rewrite ltb_irrefl in Hx.
Qed.

End usort_facts.

Lemma string_ltb_irrefl (s : string) : String.ltb s s = false.
Proof.
  unfold String.ltb.
  assert (String.compare s s = Eq) as ->; [|done].
  induction s as [|a s IH]; simpl; [done|].
  unfold Ascii.compare. by rewrite N.compare_refl.
Qed.

Lemma string_ltb_total (s t : string) :
  String.ltb s t = false -> String.ltb t s = false -> s = t.
Proof.
  unfold String.ltb. rewrite (String.compare_antisym t s).
  destruct (String.compare s t) eqn:Hc; simpl; try done.
  intros _ _. by apply String.compare_eq_iff.
Qed.

Lemma string_compare_trans (s t u : string) :
  String.compare s t = Lt -> String.compare t u = Lt -> String.compare s u = Lt.
Proof.
  revert t u. induction s as [|a s IH]; intros [|b t] [|c u]; simpl; try done.
  unfold Ascii.compare.
  destruct (N.compare_spec (N_of_ascii a) (N_of_ascii b)) as [Hab|Hab|Hab];
    [|destruct (N.compare_spec (N_of_ascii b) (N_of_ascii c)) as [Hbc|Hbc|Hbc]|];
    try done.
  - rewrite Hab. destruct (N_of_ascii b ?= N_of_ascii c)%N; try done. apply IH.
  - intros _ _. rewrite <- Hbc. by apply N.compare_lt_iff in Hab as ->.
  - intros _ _. assert (N_of_ascii a < N_of_ascii c)%N as Hac by lia.
    by apply N.compare_lt_iff in Hac as ->.
Qed.

Lemma string_ltb_trans (s t u : string) :
  String.ltb s t = true -> String.ltb t u = true -> String.ltb s u = true.
Proof.
  unfold String.ltb.
  destruct (String.compare s t) eqn:Hst; try done.
  destruct (String.compare t u) eqn:Htu; try done.
  by rewrite (string_compare_trans s t u Hst Htu).
Qed.

Lemma Z_ltb_total (x y : Z) : Z.ltb x y = false -> Z.ltb y x = false -> x = y.
Proof. lia. Qed.

Lemma Z_ltb_trans (x y z : Z) :
  Z.ltb x y = true -> Z.ltb y z = true -> Z.ltb x z = true.
Proof. lia. Qed.

Lemma insert_by_timestamp_Permutation (r : Stamped) (l : list Stamped) :
  insert_by_timestamp r l ≡ₚ r :: l.
Proof.
  induction l as [|r' l IH]; simpl; [done|].
  destruct (Z.leb _ _); [done|]. rewrite IH. apply Permutation_swap.
Qed.

Lemma sort_values_Permutation (l : list Stamped) : sort_values l ≡ₚ l.
Proof.
  unfold sort_values. induction l as [|r l IH]; simpl; [done|].
  by rewrite insert_by_timestamp_Permutation, IH.
Qed.

Lemma ffill_from_length (last : cell) (c : list cell) :
  length (ffill_from last c) = length c.
Proof.
  revert last. induction c as [|[v|] c IH]; intros last; simpl; by rewrite ?IH.
Qed.

Lemma bfill_length (c : list cell) : length (bfill c) = length c.
Proof.
  unfold bfill, ffill. by rewrite length_reverse, ffill_from_length, length_reverse.
Qed.

Lemma ffill_from_keeps (last : cell) (c : list cell) (i : nat) (v : R) :
  c !! i = Some (Some v) -> ffill_from last c !! i = Some (Some v).
Proof.
  revert last i. induction c as [|[x|] c IH]; intros last [|i]; simpl; try done.
  - apply IH.
  - apply IH.
Qed.

Lemma bfill_keeps (c : list cell) (i : nat) (v : R) :
  c !! i = Some (Some v) -> bfill c !! i = Some (Some v).
Proof.
  intros Hc. pose proof (lookup_lt_Some _ _ _ Hc) as Hi.
  unfold bfill, ffill. rewrite reverse_lookup
    by (by rewrite ffill_from_length, length_reverse).
  rewrite ffill_from_length, length_reverse.
  apply ffill_from_keeps. rewrite reverse_lookup by lia.
  rewrite <- Hc. f_equal. lia.
Qed.

Lemma ffill_from_Some (v : R) (c : list cell) : Forall is_Some (ffill_from (Some v) c).
Proof.
  revert v. induction c as [|[x|] c IH]; intros v; simpl; constructor; eauto.
Qed.

Lemma ffill_from_Exists (last : cell) (c : list cell) :
  Exists is_Some c -> Exists is_Some (ffill_from last c).
Proof.
  intros Hex. apply Exists_exists in Hex as (x & Hx & [v ->]).
  apply list_elem_of_lookup in Hx as [i Hi].
  apply Exists_exists. exists (Some v). split; [|by eexists].
  apply list_elem_of_lookup. exists i. by apply ffill_from_keeps.
Qed.

(** After a forward fill the missing cells are at the head only. *)
Lemma ffill_from_gaps_at_head (c : list cell) :
  exists k d, ffill_from None c = replicate k None ++ d /\ Forall is_Some d.
Proof.
  induction c as [|[v|] c (k & d & Hc & Hd)]; simpl.
  - exists 0%nat, []. by split.
  - exists 0%nat, (Some v :: ffill_from (Some v) c). split; [done|].
    constructor; [by eexists|apply ffill_from_Some].
  - exists (S k), d. by rewrite Hc.
Qed.

Lemma ffill_from_headed (last : cell) (d l : list cell) :
  Forall is_Some d -> d <> [] -> Forall is_Some (ffill_from last (d ++ l)).
Proof.
  intros Hd Hne. destruct d as [|x d]; [done|].
  apply Forall_cons in Hd as [[v ->] _]. simpl.
  constructor; [by eexists|apply ffill_from_Some].
Qed.

(** Forward then backward fill leaves no gap in a column that has a
    value somewhere. *)
Lemma bfill_ffill_no_gap (c : list cell) :
  Exists is_Some c -> Forall is_Some (bfill (ffill c)).
Proof.
  intros Hex. unfold bfill, ffill at 1. apply Forall_reverse.
  unfold ffill.
  destruct (ffill_from_gaps_at_head c) as (k & d & Hc & Hd).
  pose proof (ffill_from_Exists None c Hex) as Hex'. rewrite Hc in *.
  rewrite reverse_app, reverse_replicate.
  apply ffill_from_headed.
  - by apply Forall_reverse.
  - intros Hnil. apply (f_equal reverse) in Hnil. rewrite reverse_involutive in Hnil.
    subst d. rewrite app_nil_r in Hex'.
    apply Exists_exists in Hex' as (x & Hx & Hsome).
    apply elem_of_replicate in Hx as [-> _]. by destruct Hsome.
Qed.


(** A cell of the pivot: missing when no row has that type and that
    instant, the mean of their values otherwise. *)
Lemma pivot_cell_spec (lib : Lib) (df : list Stamped) (name : string) (ts : Z) :
  let same := filter (fun r => st_sensor_type r = name /\ st_timestamp r = ts) df in
  pivot_cell lib df name ts
  = match same with
    | [] => None
    | _ => Some (group_mean lib (map st_value same))
    end.
Proof. cbv zeta. unfold pivot_cell. by destruct (filter _ df). Qed.

Lemma dict_get_map_key {V} (f : string -> V) (names : list string) (name : string) :
  name ∈ names -> dict_get name (map (fun n => (n, f n)) names) = Some (f name).
Proof.
  induction names as [|n names IH]; simpl; [by intros ?%elem_of_nil|].
  intros Hin. case_decide as Hn; [by subst|].
  apply elem_of_cons in Hin as [->|Hin]; [done|by apply IH].
Qed.

Lemma existsb_timestamp_type (l : list Stamped) :
  existsb (fun r => bool_decide (st_sensor_type r = "timestamp")) l = true
  <-> Exists (fun r => st_sensor_type r = "timestamp") l.
Proof.
  rewrite existsb_exists, Exists_exists. split.
  - intros (r & Hin & Hr). exists r. split; [by apply list_elem_of_In|].
    by apply bool_decide_eq_true_1 in Hr.
  - intros (r & Hin & Hr). exists r. split; [by apply list_elem_of_In|].
    by apply bool_decide_eq_true_2.
Qed.

Lemma pivot_table_cases (lib : Lib) (rows : list Stamped) :
  pivot_table lib rows
  = if bool_decide (Exists (fun r => st_sensor_type r = "timestamp") rows)
    then empty_frame else pivot_frame lib rows.
Proof.
  unfold pivot_table. cbv zeta.
  destruct (existsb _ (sort_values rows)) eqn:Hex.
  - apply existsb_timestamp_type in Hex. rewrite sort_values_Permutation in Hex.
    by rewrite bool_decide_eq_true_2.
  - rewrite bool_decide_eq_false_2; [done|]. intros Hraise.
    rewrite <- sort_values_Permutation in Hraise.
    apply existsb_timestamp_type in Hraise. congruence.
Qed.

Lemma preprocess_sensor_data_cases (lib : Lib) (sensor_readings : list Reading) :
  preprocess_sensor_data lib sensor_readings
  = match sensor_readings with
    | [] => empty_frame
    | _ =>
        match to_datetime lib (map rd_timestamp sensor_readings) with
        | None => empty_frame
        | Some stamps =>
            if bool_decide (Exists (fun r => st_sensor_type r = "timestamp")
                              (stamp sensor_readings stamps))
            then empty_frame
            else pivot_frame lib (stamp sensor_readings stamps)
        end
    end.
Proof.
  unfold preprocess_sensor_data. destruct sensor_readings as [|r rs]; [done|].
  destruct (to_datetime lib _) as [stamps|]; [|done].
  apply pivot_table_cases.
Qed.

Lemma stamp_length (sensor_readings : list Reading) (stamps : list (option Z)) :
  (length (stamp sensor_readings stamps) <= length sensor_readings)%nat.
Proof.
  unfold stamp.
  assert (Homap : forall {A B} (f : A -> option B) (l : list A),
            (length (omap f l) <= length l)%nat).
  { intros A B f l. induction l as [|x l IH]; [simpl; lia|].
    cbn [omap list_omap length]. fold (omap f l).
    destruct (f x); cbn [length]; lia. }
  etransitivity; [apply Homap|]. rewrite length_zip. lia.
Qed.

Lemma elem_of_pivot_index (lib : Lib) (rows : list Stamped) (ts : Z) :
  ts ∈ timestamp (pivot_frame lib rows)
  <-> exists r, r ∈ rows /\ st_timestamp r = ts.
Proof.
  unfold pivot_frame. cbn [timestamp].
  rewrite (elem_of_usort Z.ltb Z_ltb_total), list_elem_of_fmap.
  setoid_rewrite sort_values_Permutation. split; intros (r & ? & ?); by exists r.
Qed.

Lemma elem_of_pivot_names (lib : Lib) (rows : list Stamped) (name : string) :
  name ∈ dict_keys (columns (pivot_frame lib rows))
  <-> exists r, r ∈ rows /\ st_sensor_type r = name.
Proof.
  unfold pivot_frame, dict_keys. cbn [columns]. rewrite map_map. cbn [fst].
  rewrite map_id.
  rewrite (elem_of_usort String.ltb string_ltb_total), list_elem_of_fmap.
  setoid_rewrite sort_values_Permutation. split; intros (r & ? & ?); by exists r.
Qed.

Lemma StronglySorted_weaken {A} (R1 R2 : A -> A -> Prop) (l : list A) :
  (forall x y, R1 x y -> R2 x y) -> StronglySorted R1 l -> StronglySorted R2 l.
Proof.
  intros Himp. induction 1 as [|x l Hl IH Hx]; constructor; [done|].
  eapply Forall_impl; [exact Hx|]. eauto.
Qed.

(** The rows a cell of the pivot averages are those of the input that
    share its type and its instant, in the order the sort left them. *)
Lemma pivot_column_measured (lib : Lib) (rows : list Stamped) (r : Stamped) :
  r ∈ rows ->
  exists i group,
    timestamp (pivot_frame lib rows) !! i = Some (st_timestamp r)
    /\ group ≡ₚ same_cell r rows
    /\ map (pivot_cell lib (sort_values rows) (st_sensor_type r))
         (timestamp (pivot_frame lib rows)) !! i
       = Some (Some (group_mean lib (map st_value group))).
Proof.
  intros Hr.
  assert (Hts : st_timestamp r ∈ timestamp (pivot_frame lib rows)).
  { apply elem_of_pivot_index. by exists r. }
  apply list_elem_of_lookup in Hts as [i Hi].
  exists i, (same_cell r (sort_values rows)). split; [done|].
  assert (Hperm : same_cell r (sort_values rows) ≡ₚ same_cell r rows).
  { unfold same_cell. by rewrite sort_values_Permutation. }
  split; [done|].
  change (map ?f ?l) with (f <$> l) at 1.
  rewrite list_lookup_fmap, Hi. cbn [fmap option_fmap option_map]. f_equal.
  rewrite pivot_cell_spec. cbv zeta.
  assert (Hin : r ∈ same_cell r rows).
  { unfold same_cell. apply list_elem_of_filter. done. }
  unfold same_cell in *.
  destruct (filter _ (sort_values rows)) as [|r0 l] eqn:Hf; [|done].
  apply Permutation_nil_l in Hperm. rewrite <- Hperm in Hin.
  by apply elem_of_nil in Hin.
Qed.

(** X13: the frame built from any list of readings has one cell per row
    in every column, timestamps in strictly increasing order, column
    names in strictly increasing order, no more rows than readings, and
    no missing cell. *)
Theorem preprocess_sensor_data_frame (lib : Lib) (sensor_readings : list Reading) :
  let df := preprocess_sensor_data lib sensor_readings in
  well_formed df
  /\ StronglySorted Z.lt (timestamp df)
  /\ StronglySorted (fun a b => String.ltb a b = true) (dict_keys (columns df))
  /\ (nrows df <= length sensor_readings)%nat
  /\ Forall (fun c => Forall is_Some (snd c)) (columns df).
Proof.
  cbv zeta. rewrite preprocess_sensor_data_cases.
  assert (Hempty : well_formed empty_frame
    /\ StronglySorted Z.lt (timestamp empty_frame)
    /\ StronglySorted (fun a b => String.ltb a b = true) (dict_keys (columns empty_frame))
    /\ (nrows empty_frame <= length sensor_readings)%nat
    /\ Forall (fun c => Forall is_Some (snd c)) (columns empty_frame)).
  { unfold well_formed, nrows, empty_frame. simpl.
    repeat split; try constructor. lia. }
  destruct sensor_readings as [|r0 rs] eqn:Hrs; [done|]. rewrite <- Hrs in *.
  destruct (to_datetime lib _) as [stamps|]; [|done].
  case_bool_decide as Hcase; [done|].
  set (rows := stamp sensor_readings stamps) in *.
  split; [|split; [|split; [|split]]].
  - unfold well_formed, pivot_frame, nrows. cbn [columns timestamp].
    apply Forall_forall. intros [name c] Hc.
    apply list_elem_of_fmap in Hc as (n & [= -> ->] & _). cbn [snd].
    unfold ffill. by rewrite bfill_length, ffill_from_length, length_map.
  - eapply StronglySorted_weaken; [|apply (usort_sorted Z.ltb Z_ltb_trans Z_ltb_total)].
    intros x y. apply Z.ltb_lt.
  - unfold pivot_frame, dict_keys. cbn [columns]. rewrite map_map. cbn [fst].
    rewrite map_id. apply (usort_sorted String.ltb string_ltb_trans string_ltb_total).
  - unfold nrows, pivot_frame. cbn [timestamp].
    pose proof (usort_length Z.ltb (map st_timestamp (sort_values rows))) as Hl.
    rewrite length_map, (Permutation_length (sort_values_Permutation rows)) in Hl.
    pose proof (stamp_length sensor_readings stamps) as Hs. fold rows in Hs. lia.
  - apply Forall_forall. intros [name c] Hc.
    assert (Hname : name ∈ dict_keys (columns (pivot_frame lib rows))).
    { unfold dict_keys. apply list_elem_of_fmap. by exists (name, c). }
    apply elem_of_pivot_names in Hname as (r & Hr & <-).
    unfold pivot_frame in Hc. cbn [columns] in Hc.
    apply list_elem_of_fmap in Hc as (n & [= <- ->] & _). cbn [snd].
    apply bfill_ffill_no_gap.
    destruct (pivot_column_measured lib rows r Hr) as (i & group & _ & _ & Hcell).
    apply Exists_exists. eexists. split; [|by eexists].
    apply list_elem_of_lookup. exists i. exact Hcell.
Qed.

(** X14: the health analysis answers [no_data] exactly when there is no
    reading, or [pd.to_datetime] raises on the timestamps, or it gives
    no reading an instant, or a reading with an instant has the text
    [timestamp] as its sensor type. *)
Theorem no_data_iff (lib : Lib) (w : World) (now machine_id : Z)
    (sensor_readings : list Reading) :
  analyze_machine_health lib w now machine_id sensor_readings = no_data
  <-> sensor_readings = []
      \/ to_datetime lib (map rd_timestamp sensor_readings) = None
      \/ exists stamps,
           to_datetime lib (map rd_timestamp sensor_readings) = Some stamps
           /\ (stamp sensor_readings stamps = []
               \/ Exists (fun r => st_sensor_type r = "timestamp")
                    (stamp sensor_readings stamps)).
Proof.
  unfold analyze_machine_health. rewrite preprocess_sensor_data_cases.
  destruct sensor_readings as [|r0 rs] eqn:Hrs.
  { split; [by left|done]. }
  rewrite <- Hrs. assert (Hne : sensor_readings <> []) by (by rewrite Hrs).
  clear Hrs.
  destruct (to_datetime lib _) as [stamps|] eqn:Hparse.
  2:{ split; [by right; left|done]. }
  case_bool_decide as Hcase.
  { split; [|done]. intros _. right. right. exists stamps. split; [done|by right]. }
  destruct (stamp sensor_readings stamps) as [|r rows] eqn:Hrows.
  { split; [|done]. intros _. right. right. exists stamps. split; [done|by left]. }
  assert (Hfull : df_empty (pivot_frame lib (r :: rows)) = false).
  { unfold df_empty. apply Nat.eqb_neq. unfold nrows. intros Hlen.
    assert (Hin : st_timestamp r ∈ timestamp (pivot_frame lib (r :: rows))).
    { apply elem_of_pivot_index. exists r. split; [left|done]. }
    destruct (timestamp (pivot_frame lib (r :: rows))); [|done].
    by apply elem_of_nil in Hin. }
  rewrite Hfull. split; [done|].
  intros [?|[?|(stamps' & [= <-] & [Hnone|Hstamp])]]; [done|done| |].
  - rewrite Hrows in Hnone. discriminate Hnone.
  - rewrite Hrows in Hstamp. by apply Hcase in Hstamp.
Qed.

Lemma no_data_iff_witness :
  analyze_machine_health reference_lib no_models 5 1
    [ {| rd_sensor_type := "temperature"; rd_value := 70;
         rd_timestamp := "2024-13-01T00:00:00" |} ] = no_data.
Proof.
  apply (no_data_iff reference_lib). right. left. reflexivity.
Defined.

(** X15: readings of one sensor type at one instant are averaged, and
    the filling of gaps never overwrites a measured cell: when the
    timestamps parse and no reading with an instant has the type
    [timestamp], the frame has a row for the instant of every such
    reading, and there the column of the reading's type holds what
    [mean] returns for the values of the readings that share its type
    and instant, taken in some order. *)
Theorem preprocess_averages_shared_cell (lib : Lib) (sensor_readings : list Reading)
    (stamps : list (option Z)) (r : Stamped) :
  to_datetime lib (map rd_timestamp sensor_readings) = Some stamps ->
  r ∈ stamp sensor_readings stamps ->
  Forall (fun r' => st_sensor_type r' <> "timestamp") (stamp sensor_readings stamps) ->
  exists i c group,
    timestamp (preprocess_sensor_data lib sensor_readings) !! i = Some (st_timestamp r)
    /\ dict_get (st_sensor_type r) (columns (preprocess_sensor_data lib sensor_readings))
       = Some c
    /\ group ≡ₚ same_cell r (stamp sensor_readings stamps)
    /\ c !! i = Some (Some (group_mean lib (map st_value group))).
Proof.
  intros Hparse Hr Htypes. rewrite preprocess_sensor_data_cases.
  destruct sensor_readings as [|r0 rs] eqn:Hrs.
  { by apply elem_of_nil in Hr. }
  rewrite <- Hrs in *. clear Hrs. rewrite Hparse.
  set (rows := stamp sensor_readings stamps) in *.
  rewrite bool_decide_eq_false_2.
  - destruct (pivot_column_measured lib rows r Hr) as (i & group & Hts & Hperm & Hcell).
    exists i. eexists. exists group. split; [exact Hts|]. split; [|split; [exact Hperm|]].
    + unfold pivot_frame at 1. cbn [columns].
      apply (dict_get_map_key
               (fun name => bfill (ffill (map (pivot_cell lib (sort_values rows) name)
                                            (usort Z.ltb (map st_timestamp
                                                            (sort_values rows))))))).
      apply (elem_of_usort String.ltb string_ltb_total), list_elem_of_fmap.
      exists r. split; [done|]. by rewrite sort_values_Permutation.
    + apply bfill_keeps. unfold ffill. apply ffill_from_keeps. exact Hcell.
  - intros Hraise.
    apply Exists_exists in Hraise as (r' & Hin & Htype).
    rewrite Forall_forall in Htypes. by apply (Htypes r' Hin).
Qed.

Lemma preprocess_averages_shared_cell_witness :
  exists i c group,
    timestamp (preprocess_sensor_data reference_lib repeated_readings) !! i = Some 0
    /\ dict_get "temperature"
         (columns (preprocess_sensor_data reference_lib repeated_readings))
       = Some c
    /\ group ≡ₚ [ {| st_sensor_type := "temperature"; st_value := 1;
                     st_timestamp := 0 |};
                  {| st_sensor_type := "temperature"; st_value := 3;
                     st_timestamp := 0 |} ]
    /\ c !! i = Some (Some (group_mean reference_lib (map st_value group))).
Proof.
  apply (preprocess_averages_shared_cell reference_lib repeated_readings
           [Some 0; Some 0; Some 5]
           {| st_sensor_type := "temperature"; st_value := 1; st_timestamp := 0 |}).
  - reflexivity.
  - unfold repeated_readings, stamp. simpl. left.
  - unfold repeated_readings, stamp. simpl. repeat constructor; discriminate.
Defined.

(** ** Feature builder *)

Lemma dict_keys_set {V} (k : string) (v : V) (d : dict V) :
  dict_keys (dict_set k v d)
  = if bool_decide (k ∈ dict_keys d) then dict_keys d else dict_keys d ++ [k].
Proof.
  induction d as [|[k' v'] d IH]; simpl; [done|].
  destruct (decide (k' = k)) as [Hk|Hk]; simpl.
  - subst k'. rewrite bool_decide_eq_true_2; [done|left].
  - rewrite IH. case_bool_decide as Hin.
    + rewrite bool_decide_eq_true_2; [done|by right].
    + rewrite bool_decide_eq_false_2; [done|].
      rewrite not_elem_of_cons. split; [congruence|done].
Qed.

Lemma dict_keys_set_prefix {V} (k : string) (v : V) (d : dict V) :
  dict_keys d `prefix_of` dict_keys (dict_set k v d)
  /\ (length (dict_set k v d) <= S (length d))%nat.
Proof.
  split.
  - rewrite dict_keys_set. case_bool_decide; [done|]. by apply prefix_app_r.
  - pose proof (dict_keys_set k v d) as Hk.
    apply (f_equal length) in Hk. unfold dict_keys in Hk at 1 3.
    rewrite !length_map in Hk. rewrite Hk.
    case_bool_decide; unfold dict_keys; rewrite ?length_app, !length_map; simpl; lia.
Qed.

Lemma dict_set_Forall {V} (P : V -> Prop) (k : string) (v : V) (d : dict V) :
  P v -> Forall (fun c => P (snd c)) d -> Forall (fun c => P (snd c)) (dict_set k v d).
Proof.
  intros Hv. induction 1 as [|[k' v'] d Hc Hd IH]; simpl.
  - by repeat constructor.
  - destruct (decide (k' = k)); by constructor.
Qed.

Lemma add_channel_features_columns (lib : Lib) (col : string) (n : nat) (d : dict (list cell)) :
  Forall (fun c => length (snd c) = n) d ->
  Forall (fun c => length (snd c) = n) (add_channel_features lib col d)
  /\ dict_keys d `prefix_of` dict_keys (add_channel_features lib col d)
  /\ (length (add_channel_features lib col d) <= length d + 4)%nat.
Proof.
  intros Hd. unfold add_channel_features.
  destruct (dict_get col d) as [c|] eqn:Hc; [|split; [done|split; [done|lia]]].
  assert (Hlen : length c = n).
  { apply dict_get_In in Hc. rewrite Forall_forall in Hd. exact (Hd _ Hc). }
  set (d1 := dict_set (col +:+ "_rolling_mean") (rolling_mean lib c) d).
  set (d2 := dict_set (col +:+ "_rolling_std") (rolling_std lib c) d1).
  set (d3 := dict_set (col +:+ "_rate_of_change") (diff lib c) d2).
  assert (H1 : Forall (fun c => length (snd c) = n) d1).
  { apply (dict_set_Forall (fun c => length c = n)); [|done].
    by rewrite (rolling_mean_length lib). }
  assert (H2 : Forall (fun c => length (snd c) = n) d2).
  { apply (dict_set_Forall (fun c => length c = n)); [|done].
    by rewrite (rolling_std_length lib). }
  assert (H3 : Forall (fun c => length (snd c) = n) d3).
  { apply (dict_set_Forall (fun c => length c = n)); [|done].
    by rewrite (diff_length lib). }
  destruct (dict_keys_set_prefix (col +:+ "_rolling_mean") (rolling_mean lib c) d)
    as [P1 L1].
  destruct (dict_keys_set_prefix (col +:+ "_rolling_std") (rolling_std lib c) d1)
    as [P2 L2].
  destruct (dict_keys_set_prefix (col +:+ "_rate_of_change") (diff lib c) d2)
    as [P3 L3].
  fold d1 in P1, L1. fold d2 in P2, L2. fold d3 in P3, L3.
  destruct (cell_gt (series_std lib c) 0).
  - destruct (dict_keys_set_prefix (col +:+ "_zscore")
                (map (fun x => cell_op (fdiv lib) (cell_op (fsub lib) x (series_mean lib c))
                                (series_std lib c)) c) d3)
      as [P4 L4].
    split; [|split].
    + apply (dict_set_Forall (fun c => length c = n)); [|done]. by rewrite length_map.
    + by repeat (etrans; [eassumption|]).
    + lia.
  - destruct (dict_keys_set_prefix (col +:+ "_zscore")
                (map (fun _ : cell => Some 0%R) c) d3) as [P4 L4].
    split; [|split].
    + apply (dict_set_Forall (fun c => length c = n)); [|done]. by rewrite length_map.
    + by repeat (etrans; [eassumption|]).
    + lia.
Qed.

Lemma fold_add_channel_features (lib : Lib) (channels : list string) (n : nat)
    (d : dict (list cell)) :
  Forall (fun c => length (snd c) = n) d ->
  let d' := fold_left (fun feature_df col => add_channel_features lib col feature_df)
              channels d in
  Forall (fun c => length (snd c) = n) d'
  /\ dict_keys d `prefix_of` dict_keys d'
  /\ (length d' <= length d + 4 * length channels)%nat.
Proof.
  revert d. induction channels as [|col channels IH]; intros d Hd; cbv zeta.
  - simpl. split; [done|split; [done|lia]].
  - cbn [fold_left length].
    destruct ((add_channel_features_columns lib) col n d Hd) as (H1 & P1 & L1).
    destruct (IH _ H1) as (H2 & P2 & L2). cbv zeta in H2, P2, L2.
    split; [done|]. split; [by etrans|lia].
Qed.

Lemma fillna0_columns (n : nat) (d : dict (list cell)) :
  dict_keys (fillna0 d) = dict_keys d
  /\ (Forall (fun c => length (snd c) = n) d ->
      Forall (fun c => length (snd c) = n) (fillna0 d)).
Proof.
  unfold fillna0, dict_keys. split.
  - rewrite map_map. apply map_ext. by intros [k c].
  - intros Hd. rewrite Forall_map. eapply Forall_impl; [exact Hd|].
    intros [k c]. cbn [snd]. by rewrite length_map.
Qed.

(** X16: on a frame with one cell per row in every column the feature
    builder returns such a frame again, with the same timestamps.  The
    input columns keep their names and positions; at most sixteen
    columns are appended after them; no cell of the result is
    missing. *)
Theorem create_features_frame (lib : Lib) (df : DataFrame) :
  well_formed df ->
  well_formed (create_features lib df)
  /\ timestamp (create_features lib df) = timestamp df
  /\ dict_keys (columns df) `prefix_of` dict_keys (columns (create_features lib df))
  /\ (length (columns (create_features lib df)) <= length (columns df) + 16)%nat
  /\ Forall (fun c => Forall is_Some (snd c)) (columns (create_features lib df)).
Proof.
  intros Hwf. unfold create_features, well_formed in *.
  destruct (df_empty df) eqn:Hempty; cbv iota.
  - split; [done|]. split; [done|]. split; [done|]. split; [lia|].
    unfold df_empty in Hempty. apply Nat.eqb_eq in Hempty. rewrite Hempty in Hwf.
    eapply Forall_impl; [exact Hwf|]. intros [k c]. cbn [snd].
    intros Hc. apply nil_length_inv in Hc. subst c. constructor.
  - unfold nrows in *. cbn [timestamp columns].
    destruct ((fold_add_channel_features lib) feature_columns _ _ Hwf) as (H1 & P1 & L1).
    cbv zeta in H1, P1, L1.
    destruct (fillna0_columns (length (timestamp df))
                (fold_left (fun feature_df col => add_channel_features lib col feature_df)
                   feature_columns (columns df))) as [Hkeys Hlen].
    split; [by apply Hlen|]. split; [done|]. split; [by rewrite Hkeys|].
    split; [|apply fillna0_no_nan].
    unfold fillna0. rewrite length_map.
    assert (length feature_columns = 4%nat) as Hfc by reflexivity.
    rewrite Hfc in L1. lia.
Qed.

Lemma create_features_frame_witness :
  well_formed (create_features reference_lib three_temperatures).
Proof.
  apply ((create_features_frame reference_lib) three_temperatures).
  unfold well_formed, three_temperatures. simpl. repeat constructor.
Defined.

(** ** Failure predictor *)

Lemma score_shape (trends : dict R) (found : list Anomaly) :
  let st := score_anomalies found
              (score_humidity trends
                 (score_vibration trends (score_temperature trends (0%nat, [])))) in
  (fst st = 0%nat <-> snd st = [])
  /\ (length (snd st) <= 4)%nat
  /\ (fst st <= 5 + length found)%nat.
Proof.
  unfold score_anomalies, score_humidity, score_vibration, score_temperature.
  destruct (dict_get "temperature" trends) as [st|];
    destruct (dict_get "vibration" trends) as [sv|];
    destruct (dict_get "humidity" trends) as [sh|];
    repeat case_bool_decide;
    destruct found as [|a l];
    cbn [fst snd length app];
    (split; [split; intros; first [lia | discriminate | reflexivity]|split; lia]).
Qed.

Lemma probability_of_points (points : nat) :
  let p := Rmin (INR points / 10.0) 1.0 in
  (exists tenths : nat, (tenths <= 10)%nat /\ p = (INR tenths / 10)%R)
  /\ (p = 0%R <-> points = 0%nat).
Proof.
  cbv zeta. pose proof (pos_INR points) as Hpos.
  unfold Rmin. destruct (Rle_dec (INR points / 10.0) 1.0) as [Hle|Hgt].
  - split.
    + exists points. split; [|lra]. apply INR_le. simpl. lra.
    + split.
      * intros Hp. apply INR_eq. simpl. lra.
      * intros ->. simpl. lra.
  - split.
    + exists 10%nat. split; [lia|]. simpl. lra.
    + split; [lra|]. intros ->. simpl in Hgt. lra.
Qed.

(** X10: whatever the engine and the frame, the predicted probability is
    a whole number of tenths between 0 and 1; the confidence is 0 below
    ten rows and 0.6 or 0.8 from ten rows on; the time to failure is the
    band of the probability; there are at most four contributing
    factors, and none exactly when the probability is 0. *)
Theorem predict_failure_probability_invariants (lib : Lib) (self : PredictiveAnalytics)
    (sensor_data : DataFrame) :
  let prediction := predict_failure_probability lib self sensor_data in
  (exists tenths : nat,
     (tenths <= 10)%nat /\ failure_probability prediction = (INR tenths / 10)%R)
  /\ confidence prediction
     = (if Nat.ltb (nrows sensor_data) 10 then 0
        else if Nat.ltb 100 (nrows sensor_data) then 0.8 else 0.6)%R
  /\ time_to_failure_hours prediction
     = time_to_failure (failure_probability prediction)
  /\ (length (contributing_factors prediction) <= 4)%nat
  /\ (contributing_factors prediction = [] <-> failure_probability prediction = 0%R).
Proof.
  cbv zeta.
  assert (Hneutral :
    (exists tenths : nat,
       (tenths <= 10)%nat /\ failure_probability neutral_prediction = (INR tenths / 10)%R)
    /\ time_to_failure_hours neutral_prediction
       = time_to_failure (failure_probability neutral_prediction)
    /\ (length (contributing_factors neutral_prediction) <= 4)%nat
    /\ (contributing_factors neutral_prediction = []
        <-> failure_probability neutral_prediction = 0%R)).
  { unfold neutral_prediction, time_to_failure.
    cbn [failure_probability time_to_failure_hours contributing_factors length].
    rdecide. repeat split; try lia.
    exists 0%nat. split; [lia|]. simpl. lra. }
  unfold predict_failure_probability.
  destruct (Nat.ltb (nrows sensor_data) 10) eqn:Hrows.
  { rewrite orb_true_r. tauto. }
  rewrite orb_false_r.
  destruct (df_empty sensor_data) eqn:Hne.
  { unfold df_empty in Hne. apply Nat.eqb_eq in Hne.
    apply Nat.ltb_ge in Hrows. lia. }
  destruct ((compute_trends_feature_columns lib) sensor_data Hne) as (trends & -> & _).
  cbv zeta. cbn [failure_probability confidence time_to_failure_hours
                   contributing_factors].
  set (found := detect_anomalies lib self (df_tail 10 (create_features lib sensor_data))).
  destruct (score_shape trends found) as (Hzero & Hlen & _).
  cbv zeta in Hzero, Hlen.
  set (st := score_anomalies found _) in *.
  destruct (probability_of_points (fst st)) as [Htenths Hp]. cbv zeta in Hp.
  split; [exact Htenths|]. split; [reflexivity|]. split; [reflexivity|].
  split; [exact Hlen|]. rewrite Hp. symmetry. exact Hzero.
Qed.

Lemma detect_anomalies_untrained (lib : Lib) (self : PredictiveAnalytics) (sensor_data : DataFrame) :
  anomaly_model self = None \/ scaler self = None ->
  detect_anomalies lib self sensor_data = [].
Proof.
  unfold detect_anomalies. intros [->| ->]; [done|].
  by destruct (anomaly_model self).
Qed.

Lemma predict_untrained (lib : Lib) (self : PredictiveAnalytics) (sensor_data : DataFrame) :
  anomaly_model self = None \/ scaler self = None ->
  (failure_probability (predict_failure_probability lib self sensor_data) <= 0.5)%R.
Proof.
  intros Huntrained. unfold predict_failure_probability.
  destruct (_ || _)%bool; [simpl; lra|].
  destruct (compute_trends lib _ _ _) as [trends|]; [|simpl; lra].
  cbv zeta. cbn [failure_probability].
  rewrite ((detect_anomalies_untrained lib) self _ Huntrained).
  destruct (score_shape trends []) as (_ & _ & Hmax). cbv zeta in Hmax.
  set (st := score_anomalies [] _) in *. cbn [length] in Hmax.
  assert (INR (fst st) <= INR 5)%R as Hle by (apply le_INR; lia).
  simpl in Hle. pose proof (Rmin_l (INR (fst st) / 10.0) 1.0). lra.
Qed.

(** X11: an engine that lacks the forest or the scaler reports no
    anomaly, and its failure probability stays at 0.5 or below, so the
    time to failure is absent or a week, never one or three days. *)
Theorem untrained_engine_is_capped (lib : Lib) (self : PredictiveAnalytics)
    (sensor_data : DataFrame) :
  anomaly_model self = None \/ scaler self = None ->
  detect_anomalies lib self sensor_data = []
  /\ (failure_probability (predict_failure_probability lib self sensor_data) <= 0.5)%R
  /\ (time_to_failure_hours (predict_failure_probability lib self sensor_data) = None
      \/ time_to_failure_hours (predict_failure_probability lib self sensor_data)
         = Some 168).
Proof.
  intros Huntrained.
  pose proof ((predict_untrained lib) self sensor_data Huntrained) as Hcap.
  split; [by apply (detect_anomalies_untrained lib)|]. split; [exact Hcap|].
  assert (Httf : time_to_failure_hours (predict_failure_probability lib self sensor_data)
                 = time_to_failure
                     (failure_probability (predict_failure_probability lib self sensor_data))).
  { unfold predict_failure_probability.
    destruct (_ || _)%bool.
    - unfold neutral_prediction, time_to_failure. simpl. by rdecide.
    - destruct (compute_trends lib _ _ _); [reflexivity|].
      unfold neutral_prediction, time_to_failure. simpl. by rdecide. }
  rewrite Httf. unfold time_to_failure.
  rewrite (bool_decide_eq_false_2 (_ > 0.7)%R) by lra.
  rewrite (bool_decide_eq_false_2 (_ > 0.5)%R) by lra.
  destruct (bool_decide _); [by right|by left].
Qed.

Lemma untrained_engine_is_capped_witness :
  (failure_probability
     (predict_failure_probability reference_lib (PredictiveAnalytics_init no_models) rising_vibration)
   <= 0.5)%R.
Proof.
  apply ((untrained_engine_is_capped reference_lib) (PredictiveAnalytics_init no_models) rising_vibration).
  left. reflexivity.
Defined.

(** ** Health aggregator *)

(** X12: while a model file is missing, the health of a machine is
    [warning] when the latest row violates a threshold and [healthy]
    otherwise: [critical] and [attention] cannot come out, and the list
    of anomalies is empty. *)
Theorem health_without_models (lib : Lib) (w : World) (now machine_id : Z)
    (sensor_readings : list Reading) (analysis : HealthAnalysis) :
  anomaly_model_pkl w = None \/ scaler_pkl w = None ->
  analyze_machine_health lib w now machine_id sensor_readings = success analysis ->
  anomalies analysis = []
  /\ health_status analysis
     = (if bool_decide (threshold_violations analysis = []) then healthy else warning).
Proof.
  intros Hfiles. unfold analyze_machine_health.
  destruct (df_empty _); [done|]. intros [= <-].
  cbn [anomalies health_status threshold_violations].
  assert (Huntrained : anomaly_model (PredictiveAnalytics_init w) = None
                       \/ scaler (PredictiveAnalytics_init w) = None) by exact Hfiles.
  pose proof ((predict_untrained lib) _ (preprocess_sensor_data lib sensor_readings) Huntrained)
    as Hcap.
  rewrite ((detect_anomalies_untrained lib) _ _ Huntrained).
  split; [reflexivity|].
  rewrite (bool_decide_eq_false_2 (_ > 0.7)%R) by lra.
  rewrite (bool_decide_eq_false_2 (_ > 0.5)%R) by lra.
  cbn [orb]. by destruct (bool_decide (check_thresholds lib _ _ _ = [])).
Qed.

Lemma preprocess_nrows_le (lib : Lib) (sensor_readings : list Reading) :
  (nrows (preprocess_sensor_data lib sensor_readings) <= length sensor_readings)%nat.
Proof.
  rewrite (preprocess_sensor_data_cases lib).
  assert (Hempty : (nrows empty_frame <= length sensor_readings)%nat).
  { unfold nrows, empty_frame. simpl. lia. }
  destruct sensor_readings as [|r0 rs] eqn:Hrs; [done|]. rewrite <- Hrs in *.
  destruct (to_datetime lib _) as [stamps|]; [|done].
  case_bool_decide; [done|].
  unfold nrows, pivot_frame. cbn [timestamp].
  pose proof (usort_length Z.ltb
                (map st_timestamp (sort_values (stamp sensor_readings stamps)))) as Hl.
  rewrite length_map, (Permutation_length (sort_values_Permutation _)) in Hl.
  pose proof (stamp_length sensor_readings stamps). lia.
Qed.

Lemma preprocess_alarming_reading :
  preprocess_sensor_data reference_lib alarming_reading = one_temperature 95.
Proof.
  unfold preprocess_sensor_data.
  change (to_datetime reference_lib (map rd_timestamp alarming_reading))
    with (Some [Some 0]).
  unfold alarming_reading, one_temperature, pivot_table, stamp. simpl.
  unfold pivot_cell. simpl.
  unfold bfill, ffill. simpl. unfold exact_mean, Rsum. simpl.
  replace ((95 + 0) / 1)%R with 95%R by lra. reflexivity.
Qed.

Lemma analyze_alarming_reading :
  analyze_machine_health reference_lib no_models 5 1 alarming_reading
  = success alarmed_analysis.
Proof.
  unfold analyze_machine_health. rewrite preprocess_alarming_reading. simpl.
  unfold check_thresholds. simpl. rewrite lookup_empty. simpl.
  rdecide. simpl. reflexivity.
Qed.

Lemma analyze_hot_reading :
  analyze_machine_health reference_lib no_models 5 1 hot_reading = success calm_analysis.
Proof.
  unfold analyze_machine_health. rewrite preprocess_hot_reading. simpl.
  unfold check_thresholds. simpl. rewrite lookup_empty. simpl.
  rdecide. simpl. reflexivity.
Qed.

(** X17: with fewer than ten readings the analysis carries the neutral
    prediction, its status is never [critical], and it is [warning]
    exactly when the latest row violates a threshold. *)
Theorem few_readings_analysis (lib : Lib) (w : World) (now machine_id : Z)
    (sensor_readings : list Reading) (analysis : HealthAnalysis) :
  (length sensor_readings < 10)%nat ->
  analyze_machine_health lib w now machine_id sensor_readings = success analysis ->
  failure_prediction analysis = neutral_prediction
  /\ health_status analysis <> status_critical
  /\ (health_status analysis = warning <-> threshold_violations analysis <> []).
Proof.
  intros Hfew. unfold analyze_machine_health.
  destruct (df_empty _); [done|]. intros [= <-].
  cbn [failure_prediction health_status threshold_violations].
  pose proof ((preprocess_nrows_le lib) sensor_readings) as Hrows.
  assert (Hneutral : predict_failure_probability lib (PredictiveAnalytics_init w)
                       (preprocess_sensor_data lib sensor_readings) = neutral_prediction).
  { unfold predict_failure_probability.
    assert (Nat.ltb (nrows (preprocess_sensor_data lib sensor_readings)) 10 = true) as ->
      by (apply Nat.ltb_lt; lia).
    by rewrite orb_true_r. }
  rewrite Hneutral. split; [done|].
  cbn [failure_probability neutral_prediction]. rdecide. cbn [orb].
  destruct (bool_decide (check_thresholds lib _ _ _ = [])) eqn:Hv; cbn [negb].
  - apply bool_decide_eq_true_1 in Hv.
    destruct (negb _); (split; [done|]); split; done.
  - apply bool_decide_eq_false_1 in Hv. split; [done|]. split; done.
Qed.

Lemma few_readings_analysis_witness :
  failure_prediction calm_analysis = neutral_prediction
  /\ health_status calm_analysis <> status_critical
  /\ (health_status calm_analysis = warning <-> threshold_violations calm_analysis <> []).
Proof.
  apply (few_readings_analysis reference_lib no_models 5 1 hot_reading calm_analysis).
  - unfold hot_reading. simpl. lia.
  - exact analyze_hot_reading.
Defined.

Lemma health_without_models_witness :
  anomalies calm_analysis = []
  /\ health_status calm_analysis
     = (if bool_decide (threshold_violations calm_analysis = [])
        then healthy else warning).
Proof.
  apply (health_without_models reference_lib no_models 5 1 hot_reading calm_analysis).
  - left. reflexivity.
  - exact analyze_hot_reading.
Defined.

Lemma StronglySorted_last_max (l : list Z) (t : Z) :
  StronglySorted Z.lt l -> last l = Some t -> Forall (fun x => x <= t) l.
Proof.
  induction 1 as [|x l Hl IH Hx]; [constructor|].
  destruct l as [|y l'].
  - intros [= ->]. repeat constructor. lia.
  - intros Hlast. change (last (y :: l') = Some t) in Hlast.
    specialize (IH Hlast). constructor; [|done].
    apply Forall_cons in Hx as [Hxy _]. apply Forall_cons in IH as [Hyt _]. lia.
Qed.

(** X23: every threshold violation in a health analysis is stamped with
    the instant of the latest reading: the timestamps were parsed, some
    reading has that instant and no reading has a later one. *)
Theorem violations_stamped_latest (lib : Lib) (w : World) (now machine_id : Z)
    (sensor_readings : list Reading) (analysis : HealthAnalysis) :
  analyze_machine_health lib w now machine_id sensor_readings = success analysis ->
  exists stamps,
    to_datetime lib (map rd_timestamp sensor_readings) = Some stamps
    /\ Forall (fun v =>
                 (exists r, r ∈ stamp sensor_readings stamps
                            /\ st_timestamp r = v_timestamp v)
                 /\ Forall (fun r => st_timestamp r <= v_timestamp v)
                      (stamp sensor_readings stamps))
         (threshold_violations analysis).
Proof.
  unfold analyze_machine_health. rewrite (preprocess_sensor_data_cases lib).
  destruct sensor_readings as [|r0 rs] eqn:Hrs; [done|]. rewrite <- Hrs in *.
  destruct (to_datetime lib _) as [stamps|]; [|done].
  case_bool_decide as Hcase; [done|].
  set (rows := stamp sensor_readings stamps) in *.
  destruct (df_empty _); [done|]. intros [= <-]. cbn [threshold_violations].
  exists stamps. split; [done|].
  eapply Forall_impl; [apply (check_thresholds_stamp lib)|]. cbv beta. intros v Hv.
  assert (Hin : v_timestamp v ∈ timestamp (pivot_frame lib rows)).
  { symmetry in Hv. apply last_Some in Hv as [l' ->]. set_solver. }
  split; [by apply (elem_of_pivot_index lib)|].
  assert (Hsorted : StronglySorted Z.lt (timestamp (pivot_frame lib rows))).
  { eapply StronglySorted_weaken;
      [|apply (usort_sorted Z.ltb Z_ltb_trans Z_ltb_total)].
    intros x y. apply Z.ltb_lt. }
  pose proof (StronglySorted_last_max _ _ Hsorted (eq_sym Hv)) as Hmax.
  apply Forall_forall. intros r Hr. rewrite Forall_forall in Hmax.
  apply Hmax. apply (elem_of_pivot_index lib). by exists r.
Qed.

Lemma violations_stamped_latest_witness :
  threshold_violations alarmed_analysis <> []
  /\ exists stamps,
       to_datetime reference_lib (map rd_timestamp alarming_reading) = Some stamps
       /\ Forall (fun v =>
                    (exists r, r ∈ stamp alarming_reading stamps
                               /\ st_timestamp r = v_timestamp v)
                    /\ Forall (fun r => st_timestamp r <= v_timestamp v)
                         (stamp alarming_reading stamps))
            (threshold_violations alarmed_analysis).
Proof.
  split; [discriminate|].
  apply (violations_stamped_latest reference_lib no_models 5 1 alarming_reading
           alarmed_analysis).
  exact analyze_alarming_reading.
Defined.

(** ** Training and persistence *)

Lemma train_anomaly_detection_model_cases (lib : Lib) (sk : Sklearn) (io : DumpOutcome)
    (self : PredictiveAnalytics) (w : World) (training_data : DataFrame) :
  let result := train_anomaly_detection_model lib sk io self w training_data in
  threshold_rules (snd (fst result)) = threshold_rules self
  /\ ((fst (fst result) = false /\ snd result = w
       /\ (snd (fst result) = self
           \/ (df_empty training_data = false
               /\ select_feature_cols
                    (dict_keys (columns (create_features lib training_data))) <> []
               /\ (scaler (snd (fst result)) = Some unfitted_scaler
                   \/ anomaly_model (snd (fst result)) = Some unfitted_forest))))
      \/ (fst (fst result) = true
          /\ snd result = save_models io (snd (fst result)) w
          /\ exists model sc,
               fit_transform sk (feature_matrix lib training_data) = Some (sc, model.2)
               /\ fit sk model.2 = Some model.1
               /\ anomaly_model (snd (fst result)) = Some model.1
               /\ scaler (snd (fst result)) = Some sc)).
Proof.
  cbv zeta. unfold train_anomaly_detection_model, feature_matrix.
  destruct (df_empty training_data) eqn:Hempty.
  { split; [done|]. left. repeat split. by left. }
  destruct (select_feature_cols _) as [|c cols] eqn:Hsel.
  { split; [done|]. left. repeat split. by left. }
  rewrite <- Hsel. cbv zeta.
  destruct (fit_transform sk _) as [[fitted_scaler X_scaled]|] eqn:Hscale.
  - destruct (fit sk X_scaled) as [fitted_forest|] eqn:Hfit.
    + split; [done|]. right. split; [done|]. split; [done|].
      exists (fitted_forest, X_scaled), fitted_scaler. done.
    + split; [done|]. left. split; [done|]. split; [done|]. right.
      split; [done|]. split; [by rewrite Hsel|]. by right.
  - split; [done|]. left. split; [done|]. split; [done|]. right.
    split; [done|]. split; [by rewrite Hsel|]. by left.
Qed.

Lemma detect_anomalies_unfitted (lib : Lib) (self : PredictiveAnalytics) (sensor_data : DataFrame) :
  scaler self = Some unfitted_scaler \/ anomaly_model self = Some unfitted_forest ->
  detect_anomalies lib self sensor_data = [].
Proof.
  unfold detect_anomalies. intros [-> | ->].
  - destruct (anomaly_model self); [|done].
    destruct (df_empty sensor_data); [done|].
    by destruct (select_feature_cols _).
  - destruct (scaler self) as [sc|]; [|done].
    destruct (df_empty sensor_data); [done|].
    destruct (select_feature_cols _); [done|].
    cbv zeta. by destruct (transform sc _).
Qed.

Lemma detect_anomalies_same_models (lib : Lib) (self other : PredictiveAnalytics)
    (sensor_data : DataFrame) :
  anomaly_model other = anomaly_model self -> scaler other = scaler self ->
  detect_anomalies lib other sensor_data = detect_anomalies lib self sensor_data.
Proof. unfold detect_anomalies. by intros -> ->. Qed.

(** X18: when training answers [True] and both dumps succeed, an engine
    constructed afterwards loads the forest and the scaler just fitted
    and detects what the trained instance detects; its rule dictionary
    is empty again.  Training leaves the rules of the instance and the
    machines as they were. *)
Theorem training_round_trip (lib : Lib) (sk : Sklearn) (self trained : PredictiveAnalytics)
    (w after : World) (training_data : DataFrame) :
  train_anomaly_detection_model lib sk dump_ok self w training_data
  = (true, trained, after) ->
  is_Some (anomaly_model trained)
  /\ is_Some (scaler trained)
  /\ anomaly_model (PredictiveAnalytics_init after) = anomaly_model trained
  /\ scaler (PredictiveAnalytics_init after) = scaler trained
  /\ (forall sensor_data,
        detect_anomalies lib (PredictiveAnalytics_init after) sensor_data
        = detect_anomalies lib trained sensor_data)
  /\ threshold_rules (PredictiveAnalytics_init after) = ∅
  /\ threshold_rules trained = threshold_rules self
  /\ machines after = machines w.
Proof.
  intros Htrain.
  destruct ((train_anomaly_detection_model_cases lib) sk dump_ok self w training_data)
    as [Hrules [(Hfalse & _)|(_ & Hfiles & model & sc & _ & _ & Hmodel & Hsc)]];
    rewrite Htrain in *; cbn [fst snd] in *; [done|].
  assert (Hloaded : anomaly_model_pkl after = anomaly_model trained
                    /\ scaler_pkl after = scaler trained
                    /\ machines after = machines w).
  { rewrite Hfiles. unfold save_models. rewrite Hmodel, Hsc. done. }
  destruct Hloaded as (Hm & Hs & Hmachines).
  split; [by rewrite Hmodel|]. split; [by rewrite Hsc|].
  split; [exact Hm|]. split; [exact Hs|].
  split; [intros sensor_data; by apply (detect_anomalies_same_models lib)|].
  done.
Qed.

Lemma training_round_trip_witness :
  anomaly_model (PredictiveAnalytics_init trained_files) = anomaly_model trained_engine
  /\ scaler (PredictiveAnalytics_init trained_files) = scaler trained_engine.
Proof.
  pose proof ((training_round_trip reference_lib) echo_sklearn (PredictiveAnalytics_init no_models)
                trained_engine no_models trained_files (one_temperature 25)) as Hround.
  assert (Htrain : train_anomaly_detection_model reference_lib echo_sklearn dump_ok
                     (PredictiveAnalytics_init no_models) no_models (one_temperature 25)
                   = (true, trained_engine, trained_files)).
  { unfold train_anomaly_detection_model.
    rewrite (create_features_one_temperature reference_lib). reflexivity. }
  destruct (Hround Htrain) as (_ & _ & Hmodel & Hscaler & _).
  split; [exact Hmodel|exact Hscaler].
Defined.

(** X19: when training answers [False] the model files are untouched and
    the rules of the instance are kept.  Either the instance is
    unchanged, or the data had feature columns and a fit raised: then
    the instance holds an unfitted object and detects nothing on any
    frame, whatever it detected before. *)
Theorem failed_training (lib : Lib) (sk : Sklearn) (io : DumpOutcome)
    (self after_self : PredictiveAnalytics) (w after : World)
    (training_data : DataFrame) :
  train_anomaly_detection_model lib sk io self w training_data
  = (false, after_self, after) ->
  after = w
  /\ threshold_rules after_self = threshold_rules self
  /\ (after_self = self
      \/ (df_empty training_data = false
          /\ forall sensor_data, detect_anomalies lib after_self sensor_data = [])).
Proof.
  intros Htrain.
  destruct ((train_anomaly_detection_model_cases lib) sk io self w training_data)
    as [Hrules [(_ & Hfiles & Hself)|(Htrue & _)]];
    rewrite Htrain in *; cbn [fst snd] in *; [|done].
  split; [done|]. split; [done|].
  destruct Hself as [Hself|(Hne & _ & Hunfitted)]; [by left|right].
  split; [done|]. intros sensor_data. by apply (detect_anomalies_unfitted lib).
Qed.

Lemma failed_training_witness :
  trained_files = trained_files
  /\ threshold_rules broken_engine = threshold_rules trained_engine.
Proof.
  pose proof ((failed_training reference_lib) failing_sklearn dump_ok trained_engine broken_engine
                trained_files trained_files (one_temperature 25)) as Hfailed.
  assert (Htrain : train_anomaly_detection_model reference_lib failing_sklearn dump_ok
                     trained_engine trained_files (one_temperature 25)
                   = (false, broken_engine, trained_files)).
  { unfold train_anomaly_detection_model.
    rewrite (create_features_one_temperature reference_lib). reflexivity. }
  destruct (Hfailed Htrain) as (Hfiles & Hrules & _).
  split; [exact Hfiles|exact Hrules].
Defined.

(** X20: the answer of the training does not tell whether the files were
    written.  When the dump of the forest raises, training still answers
    [True] with the files as they were, so the next engine loads the old
    objects; when only the dump of the scaler raises, the new forest is
    on disk beside the old scaler. *)
Theorem training_hides_dump_failure (lib : Lib) (sk : Sklearn) (io : DumpOutcome)
    (self trained : PredictiveAnalytics) (w after : World)
    (training_data : DataFrame) :
  train_anomaly_detection_model lib sk io self w training_data = (true, trained, after) ->
  fst (fst (train_anomaly_detection_model lib sk dump_model_raises self w training_data))
  = true
  /\ snd (train_anomaly_detection_model lib sk dump_model_raises self w training_data) = w
  /\ fst (fst (train_anomaly_detection_model lib sk dump_scaler_raises self w training_data))
     = true
  /\ anomaly_model_pkl
       (snd (train_anomaly_detection_model lib sk dump_scaler_raises self w training_data))
     = anomaly_model trained
  /\ scaler_pkl
       (snd (train_anomaly_detection_model lib sk dump_scaler_raises self w training_data))
     = scaler_pkl w.
Proof.
  unfold train_anomaly_detection_model.
  destruct (df_empty training_data); [done|].
  destruct (select_feature_cols _); [done|]. cbv zeta.
  destruct (fit_transform sk _) as [[fitted_scaler X_scaled]|]; [|done].
  destruct (fit sk X_scaled) as [fitted_forest|]; [|done].
  intros [= <- _]. done.
Qed.

Lemma training_hides_dump_failure_witness :
  snd (train_anomaly_detection_model reference_lib echo_sklearn dump_model_raises
         (PredictiveAnalytics_init no_models) no_models (one_temperature 25))
  = no_models.
Proof.
  refine (proj1 (proj2
            ((training_hides_dump_failure reference_lib) echo_sklearn dump_ok
               (PredictiveAnalytics_init no_models) trained_engine no_models
               trained_files (one_temperature 25) _))).
  unfold train_anomaly_detection_model.
  rewrite (create_features_one_temperature reference_lib). reflexivity.
Defined.

(** ** Rule set *)

(** X21: storing rules for one machine changes nothing for another
    machine, nor for the detector and the predictor; a second write for
    the same machine replaces the first. *)
Theorem set_threshold_rules_frame (lib : Lib) (self : PredictiveAnalytics) (machine_id other : Z)
    (thresholds earlier : dict Rule) (sensor_data : DataFrame) :
  other <> machine_id ->
  check_thresholds lib (set_threshold_rules self machine_id thresholds) sensor_data other
  = check_thresholds lib self sensor_data other
  /\ detect_anomalies lib (set_threshold_rules self machine_id thresholds) sensor_data
     = detect_anomalies lib self sensor_data
  /\ predict_failure_probability lib (set_threshold_rules self machine_id thresholds)
       sensor_data
     = predict_failure_probability lib self sensor_data
  /\ set_threshold_rules (set_threshold_rules self machine_id earlier)
       machine_id thresholds
     = set_threshold_rules self machine_id thresholds.
Proof.
  intros Hother. split; [|split; [|split]].
  - unfold check_thresholds, set_threshold_rules. cbn [threshold_rules].
    by rewrite lookup_insert_ne.
  - reflexivity.
  - reflexivity.
  - unfold set_threshold_rules. cbn [anomaly_model scaler threshold_rules].
    by rewrite insert_insert_eq.
Qed.

Lemma set_threshold_rules_frame_witness :
  check_thresholds reference_lib (set_threshold_rules (PredictiveAnalytics_init no_models) 1 tight_rules)
    (one_temperature 70) 2
  = check_thresholds reference_lib (PredictiveAnalytics_init no_models) (one_temperature 70) 2.
Proof.
  apply ((set_threshold_rules_frame reference_lib) (PredictiveAnalytics_init no_models) 1 2
           tight_rules tight_rules (one_temperature 70)).
  discriminate.
Defined.

(** ** Type normaliser *)

(** What [strip] returns has no white space at either end. *)
Lemma strip_no_white_ends (s : string) (w rest : list ascii) :
  Spec.white_character w ->
  list_ascii_of_string (PyStr.strip s) <> w ++ rest
  /\ list_ascii_of_string (PyStr.strip s) <> rest ++ w.
Proof.
  intros Hw.
  destruct (strip_trimmed s) as (before & after & _ & _ & _ & Hstart & Hend).
  split; [by apply Hstart|by apply Hend].
Qed.

(** X22: the normaliser ignores the case of an ASCII label: two ASCII
    labels with the same letters, whatever their case, get the same
    type; and what it returns has no white space at either end. *)
Theorem normalize_sensor_type_insensitive (lib : Lib) (label other folded : string) :
  (PyStr.is_ascii label = true -> PyStr.is_ascii other = true ->
   Spec.case_folded label folded -> Spec.case_folded other folded ->
   normalize_sensor_type lib label = normalize_sensor_type lib other)
  /\ (forall w rest, Spec.white_character w ->
        list_ascii_of_string (normalize_sensor_type lib label) <> w ++ rest
        /\ list_ascii_of_string (normalize_sensor_type lib label) <> rest ++ w).
Proof.
  split.
  - intros Hlabel Hother Hl Ho. unfold normalize_sensor_type.
    rewrite !str_lower_ascii by done.
    rewrite <- (case_folded_functional label _ _ Hl (lower_case_folded label)).
    by rewrite <- (case_folded_functional other _ _ Ho (lower_case_folded other)).
  - intros w rest Hw. unfold normalize_sensor_type. cbv zeta.
    repeat match goal with
           | |- context [if PyStr.any_in ?k ?s then ?c else _] =>
               destruct (PyStr.any_in k s);
               [exact (strip_no_white_ends c w rest Hw)|]
           end.
    by apply strip_no_white_ends.
Qed.

Lemma normalize_sensor_type_insensitive_witness :
  normalize_sensor_type reference_lib "Thermal" = normalize_sensor_type reference_lib "THERMAL".
Proof.
  apply (normalize_sensor_type_insensitive reference_lib "Thermal" "THERMAL" "thermal").
  - reflexivity.
  - reflexivity.
  - simpl. unfold Spec.small_of, Spec.capital. simpl.
    repeat split; vm_compute; first [left; split; [lia|reflexivity] | right; split; [lia|reflexivity]].
  - simpl. unfold Spec.small_of, Spec.capital. simpl.
    repeat split; vm_compute; first [left; split; [lia|reflexivity] | right; split; [lia|reflexivity]].
Defined.

